(** * Keycode registry and codec of vial-gui: a shallow embedding

    Source: [src/main/python/keycodes/keycodes.py].

    The Python module keeps its registry in class attributes of [Keycode]
    and in module globals.  The embedding threads them through a
    state-and-exception monad: a Python exception leaves every mutation
    made before it in place, so a computation returns an outcome together
    with the state reached.

    Two collaborators of the module are not part of the sources at hand:
    - the protocol tables [keycodes_v5] and [keycodes_v6] (each with a
      dictionary [kc] and a set [masked]);
    - the expression parser [AnyKeycode] used by [deserialize] as a last
      resort.
    They are Section variables below, so every theorem holds for all
    tables and for every parser.

    The display attributes of a keycode (label, tooltip, printable) are
    read by none of the operations modelled here; the record keeps the id,
    the masked flag and the alias list.  Keycodes are compared by these
    three attributes: two objects built by different constructor calls
    with the same id, flag and aliases are the same record.  Line 434 of the source has a
    misplaced quote in the tooltip of MAGIC_UNNO_GUI; the entry is read as
    the neighbouring ones are written, with alias GUI_ON. *)

From Stdlib Require Import ZArith String Ascii List Lia.
From Stdlib Require Import DecimalString HexadecimalString.
From stdpp Require Import gmap strings list.

(** ** Python strings *)

Module Py.

(** [s.endswith(suffix)] *)
Fixpoint endswith (s suffix : string) : bool :=
  String.eqb s suffix ||
  match s with
  | EmptyString => false
  | String _ s' => endswith s' suffix
  end.

(** [c in s] for a one-character string [c] *)
Fixpoint contains (c : ascii) (s : string) : bool :=
  match s with
  | EmptyString => false
  | String c' s' => Ascii.eqb c' c || contains c s'
  end.

(** [s.find(c)] for a one-character string [c]: the first index, or -1 *)
Fixpoint find_from (c : ascii) (s : string) (i : Z) : Z :=
  match s with
  | EmptyString => (-1)%Z
  | String c' s' => if Ascii.eqb c' c then i else find_from c s' (i + 1)%Z
  end.

Definition find (c : ascii) (s : string) : Z := find_from c s 0%Z.

(** A slice bound as Python clips it: negative counts from the end. *)
Definition bound (s : string) (i : Z) : nat :=
  let n := Z.of_nat (String.length s) in
  Z.to_nat (Z.min n (if (i <? 0)%Z then Z.max 0 (n + i) else i)).

(** [s[a:b]] *)
Definition slice (s : string) (a b : Z) : string :=
  String.substring (bound s a) (bound s b - bound s a) s.

(** [s[:b]] *)
Definition slice_to (s : string) (b : Z) : string := slice s 0%Z b.

(** A Python [str] is kept as its UTF-8 bytes, and the positions above
    count bytes.  They are used at the first parenthesis of a text, where
    a cut by bytes and a cut by characters fall at the same place.  The
    end of a text is different: its last character takes one byte, or a
    lead byte followed by one to three continuation bytes (10xxxxxx). *)
Definition is_continuation (b : ascii) : bool :=
  (128 <=? nat_of_ascii b)%nat && (nat_of_ascii b <? 192)%nat.

(** The text is one character: an ASCII byte, or a lead byte 110xxxxx,
    1110xxxx or 11110xxx with one, two or three continuation bytes. *)
Definition is_char (c : string) : bool :=
  match c with
  | EmptyString => false
  | String b rest =>
      let n := nat_of_ascii b in
      let k := String.length rest in
      forallb is_continuation (list_ascii_of_string rest) &&
      ((n <? 128)%nat && (k =? 0)%nat ||
       (192 <=? n)%nat && (n <? 224)%nat && (k =? 1)%nat ||
       (224 <=? n)%nat && (n <? 240)%nat && (k =? 2)%nat ||
       (240 <=? n)%nat && (n <? 248)%nat && (k =? 3)%nat)
  end.

(** The bytes of a text in reverse, without those of its last
    character. *)
Fixpoint drop_last_char (rev_bytes : list ascii) : list ascii :=
  match rev_bytes with
  | [] => []
  | b :: l => if is_continuation b then drop_last_char l else l
  end.

(** [s[:-1]]: the text without its last character *)
Definition but_last (s : string) : string :=
  string_of_list_ascii (rev (drop_last_char (rev (list_ascii_of_string s)))).

(** [s[a:-1]] for a position [a] that is not negative: [s[a:]] without
    its last character. *)
Definition slice_but_last (s : string) (a : Z) : string :=
  but_last (slice s a (Z.of_nat (String.length s))).

(** [s.replace(old, new)] for a non-empty [old]: scan left to right, and
    after a match skip the rest of the matched text. *)
Fixpoint replace_go (old new : string) (skip : nat) (s : string) : string :=
  match s with
  | EmptyString => EmptyString
  | String c s' =>
      match skip with
      | S k => replace_go old new k s'
      | O =>
          if String.prefix old s
          then new +:+ replace_go old new (String.length old - 1) s'
          else String c (replace_go old new 0 s')
      end
  end.

(** With an empty [old] Python puts [new] before every character and at
    the end. *)
Fixpoint replace_empty (new s : string) : string :=
  match s with
  | EmptyString => new
  | String c s' => new +:+ String c (replace_empty new s')
  end.

Definition replace (s old new : string) : string :=
  match old with
  | EmptyString => replace_empty new s
  | String _ _ => replace_go old new 0 s
  end.

(** ["{}".format(x)] for an integer *)
Definition str (x : Z) : string :=
  DecimalString.NilZero.string_of_int (Z.to_int x).

(** ["{:02}".format(x)]: at least two characters, padded with a zero *)
Definition str02 (x : Z) : string :=
  let s := str x in
  if (String.length s <? 2)%nat then "0" +:+ s else s.

(** [hex(x)] *)
Definition hex (x : Z) : string :=
  match Z.to_hex_int x with
  | Hexadecimal.Pos u => "0x" +:+ HexadecimalString.NilZero.string_of_uint u
  | Hexadecimal.Neg u => "-0x" +:+ HexadecimalString.NilZero.string_of_uint u
  end.

(** [range(n)] *)
Definition range (n : Z) : list Z := map Z.of_nat (seq 0 (Z.to_nat n)).

End Py.

(** ** Keycodes, exceptions and the registry state *)

(** An instance of class [Keycode]. *)
Record Keycode : Type := mkKeycode {
  qmk_id : string;
  masked : bool;
  alias : list string
}.

Global Instance Keycode_eq_dec : EqDecision Keycode.
Proof. solve_decision. Defined.

(** The arguments of one constructor call [K(qmk_id, ..., masked=...,
    recorder_alias=..., alias=...)]; an absent list is the empty list (the
    constructor tests both for truth). *)
Record K_args : Type := K {
  k_qmk_id : string;
  k_masked : bool;
  k_recorder_alias : list string;
  k_alias : list string
}.

Inductive exn : Type :=
  | RuntimeError (msg : string)
  | AssertionError
  | ParseError (msg : string).

Inductive outcome (A : Type) : Type :=
  | Return (a : A)
  | Raise (e : exn).
Arguments Return {A} a.
Arguments Raise {A} e.

(** The class attributes of [Keycode] and the module globals that change
    after import. *)
Record state : Type := mkState {
  masked_keycodes : gset string;
  recorder_alias_to_keycode : gmap string Keycode;
  qmk_id_to_keycode : gmap string Keycode;
  protocol : Z;
  KEYCODES_LAYERS : list Keycode;
  KEYCODES_TAP_DANCE : list Keycode;
  KEYCODES_USER : list Keycode;
  KEYCODES_MACRO : list Keycode;
  KEYCODES_MIDI : list Keycode;
  KEYCODES : list Keycode;
  KEYCODES_MAP : gmap string Keycode;
  RAWCODES_MAP : gmap Z Keycode
}.

(** One of the modules [keycodes_v5], [keycodes_v6]. *)
Record protocol_table : Type := mkTable {
  kc : gmap string Z;
  masked_raw : gset Z
}.

(** An argument of [deserialize]: an [int] or a [str]. *)
Inductive pyval : Type :=
  | VInt (n : Z)
  | VStr (s : string).

(** An entry of [keyboard.custom_keycodes]: a dictionary read with
    [.get("shortName", ...)], [.get("title", ...)], [.get("name", ...)]. *)
Record custom_keycode : Type := mkCustom {
  shortName : option string;
  title : option string;
  name : option string
}.

(** What [recreate_keyboard_keycodes] reads of its [keyboard] argument. *)
Record keyboard : Type := mkKeyboard {
  vial_protocol : Z;
  layers : Z;
  macro_count : Z;
  tap_dance_count : Z;
  custom_keycodes : option (list custom_keycode);
  midi : option string
}.

(** ** The monad *)

Definition M (A : Type) : Type := state -> outcome A * state.

Definition ret {A} (a : A) : M A := fun st => (Return a, st).

Definition raise {A} (e : exn) : M A := fun st => (Raise e, st).

Definition bind {A B} (c : M A) (k : A -> M B) : M B := fun st =>
  match c st with
  | (Return a, st') => k a st'
  | (Raise e, st') => (Raise e, st')
  end.

Definition get : M state := fun st => (Return st, st).

Definition modify (f : state -> state) : M unit := fun st => (Return tt, f st).

Notation "'let!' x ':=' c 'in' k" := (bind c (fun x => k))
  (at level 10, x name, c at level 100, k at level 200).
Notation "'do!' c 'in' k" := (bind c (fun _ => k))
  (at level 10, c at level 100, k at level 200).

(** [for x in l: body(x)] *)
Fixpoint for_each {A} (l : list A) (body : A -> M unit) : M unit :=
  match l with
  | [] => ret tt
  | x :: l' => do! body x in for_each l' body
  end.

(** [for x in l: out.append(make(x))], returning the appended objects *)
Fixpoint collect {A B} (l : list A) (make : A -> M B) : M (list B) :=
  match l with
  | [] => ret []
  | x :: l' => let! y := make x in let! ys := collect l' make in ret (y :: ys)
  end.

(** Assignments to one attribute or global. *)
Definition set_masked_keycodes (v : gset string) (st : state) : state :=
  mkState v (recorder_alias_to_keycode st) (qmk_id_to_keycode st)
    (protocol st) (KEYCODES_LAYERS st) (KEYCODES_TAP_DANCE st) (KEYCODES_USER st)
    (KEYCODES_MACRO st) (KEYCODES_MIDI st) (KEYCODES st) (KEYCODES_MAP st) (RAWCODES_MAP st).

Definition set_recorder_alias_to_keycode (v : gmap string Keycode) (st : state) : state :=
  mkState (masked_keycodes st) v (qmk_id_to_keycode st)
    (protocol st) (KEYCODES_LAYERS st) (KEYCODES_TAP_DANCE st) (KEYCODES_USER st)
    (KEYCODES_MACRO st) (KEYCODES_MIDI st) (KEYCODES st) (KEYCODES_MAP st) (RAWCODES_MAP st).

Definition set_qmk_id_to_keycode (v : gmap string Keycode) (st : state) : state :=
  mkState (masked_keycodes st) (recorder_alias_to_keycode st) v
    (protocol st) (KEYCODES_LAYERS st) (KEYCODES_TAP_DANCE st) (KEYCODES_USER st)
    (KEYCODES_MACRO st) (KEYCODES_MIDI st) (KEYCODES st) (KEYCODES_MAP st) (RAWCODES_MAP st).

Definition set_protocol (v : Z) (st : state) : state :=
  mkState (masked_keycodes st) (recorder_alias_to_keycode st) (qmk_id_to_keycode st)
    v (KEYCODES_LAYERS st) (KEYCODES_TAP_DANCE st) (KEYCODES_USER st)
    (KEYCODES_MACRO st) (KEYCODES_MIDI st) (KEYCODES st) (KEYCODES_MAP st) (RAWCODES_MAP st).

Definition set_KEYCODES_LAYERS (v : list Keycode) (st : state) : state :=
  mkState (masked_keycodes st) (recorder_alias_to_keycode st) (qmk_id_to_keycode st)
    (protocol st) v (KEYCODES_TAP_DANCE st) (KEYCODES_USER st)
    (KEYCODES_MACRO st) (KEYCODES_MIDI st) (KEYCODES st) (KEYCODES_MAP st) (RAWCODES_MAP st).

Definition set_KEYCODES_TAP_DANCE (v : list Keycode) (st : state) : state :=
  mkState (masked_keycodes st) (recorder_alias_to_keycode st) (qmk_id_to_keycode st)
    (protocol st) (KEYCODES_LAYERS st) v (KEYCODES_USER st)
    (KEYCODES_MACRO st) (KEYCODES_MIDI st) (KEYCODES st) (KEYCODES_MAP st) (RAWCODES_MAP st).

Definition set_KEYCODES_USER (v : list Keycode) (st : state) : state :=
  mkState (masked_keycodes st) (recorder_alias_to_keycode st) (qmk_id_to_keycode st)
    (protocol st) (KEYCODES_LAYERS st) (KEYCODES_TAP_DANCE st) v
    (KEYCODES_MACRO st) (KEYCODES_MIDI st) (KEYCODES st) (KEYCODES_MAP st) (RAWCODES_MAP st).

Definition set_KEYCODES_MACRO (v : list Keycode) (st : state) : state :=
  mkState (masked_keycodes st) (recorder_alias_to_keycode st) (qmk_id_to_keycode st)
    (protocol st) (KEYCODES_LAYERS st) (KEYCODES_TAP_DANCE st) (KEYCODES_USER st)
    v (KEYCODES_MIDI st) (KEYCODES st) (KEYCODES_MAP st) (RAWCODES_MAP st).

Definition set_KEYCODES_MIDI (v : list Keycode) (st : state) : state :=
  mkState (masked_keycodes st) (recorder_alias_to_keycode st) (qmk_id_to_keycode st)
    (protocol st) (KEYCODES_LAYERS st) (KEYCODES_TAP_DANCE st) (KEYCODES_USER st)
    (KEYCODES_MACRO st) v (KEYCODES st) (KEYCODES_MAP st) (RAWCODES_MAP st).

Definition set_KEYCODES (v : list Keycode) (st : state) : state :=
  mkState (masked_keycodes st) (recorder_alias_to_keycode st) (qmk_id_to_keycode st)
    (protocol st) (KEYCODES_LAYERS st) (KEYCODES_TAP_DANCE st) (KEYCODES_USER st)
    (KEYCODES_MACRO st) (KEYCODES_MIDI st) v (KEYCODES_MAP st) (RAWCODES_MAP st).

Definition set_KEYCODES_MAP (v : gmap string Keycode) (st : state) : state :=
  mkState (masked_keycodes st) (recorder_alias_to_keycode st) (qmk_id_to_keycode st)
    (protocol st) (KEYCODES_LAYERS st) (KEYCODES_TAP_DANCE st) (KEYCODES_USER st)
    (KEYCODES_MACRO st) (KEYCODES_MIDI st) (KEYCODES st) v (RAWCODES_MAP st).

Definition set_RAWCODES_MAP (v : gmap Z Keycode) (st : state) : state :=
  mkState (masked_keycodes st) (recorder_alias_to_keycode st) (qmk_id_to_keycode st)
    (protocol st) (KEYCODES_LAYERS st) (KEYCODES_TAP_DANCE st) (KEYCODES_USER st)
    (KEYCODES_MACRO st) (KEYCODES_MIDI st) (KEYCODES st) (KEYCODES_MAP st) v.

(** ** Class [Keycode]: the constructor *)

(** The object a constructor call builds: [self.alias = [self.qmk_id]]
    followed by the given aliases. *)
Definition Keycode_of (a : K_args) : Keycode :=
  mkKeycode (k_qmk_id a) (k_masked a) (k_qmk_id a :: k_alias a).

(** The key of [KEYCODES_MAP] and the element of [masked_keycodes] for an
    id: [qmk_id.replace("(kc)", "")]. *)
Definition strip_kc (id : string) : string := Py.replace id "(kc)" "".

(** [Keycode.__init__] *)
Definition Keycode_init (a : K_args) : M Keycode :=
  let self := Keycode_of a in
  do! modify (fun st =>
        set_qmk_id_to_keycode (<[k_qmk_id a := self]> (qmk_id_to_keycode st)) st) in
  do! for_each (k_recorder_alias a) (fun al =>
        let! st := get in
        match recorder_alias_to_keycode st !! al with
        | Some _ =>
            raise (RuntimeError ("Misconfigured: two keycodes claim the same alias " +:+ al))
        | None =>
            modify (fun st =>
              set_recorder_alias_to_keycode (<[al := self]> (recorder_alias_to_keycode st)) st)
        end) in
  do! (if k_masked a
       then if Py.endswith (k_qmk_id a) "(kc)"
            then modify (fun st =>
                   set_masked_keycodes ({[ strip_kc (k_qmk_id a) ]} ∪ masked_keycodes st) st)
            else raise AssertionError
       else ret tt) in
  ret self.

(** ** The keycode tables of the module

    Each [_src] list holds the constructor calls of one module-level list,
    in source order. *)

Definition KEYCODES_SPECIAL_src : list K_args :=
  [ K "KC_NO" false [] [];
    K "KC_TRNS" false [] ["KC_TRANSPARENT"] ].

Definition KEYCODES_BASIC_NUMPAD_src : list K_args :=
  [ K "KC_NUMLOCK" false ["num lock"] ["KC_NLCK"];
    K "KC_KP_SLASH" false [] ["KC_PSLS"];
    K "KC_KP_ASTERISK" false [] ["KC_PAST"];
    K "KC_KP_MINUS" false [] ["KC_PMNS"];
    K "KC_KP_PLUS" false [] ["KC_PPLS"];
    K "KC_KP_ENTER" false [] ["KC_PENT"];
    K "KC_KP_1" false [] ["KC_P1"];
    K "KC_KP_2" false [] ["KC_P2"];
    K "KC_KP_3" false [] ["KC_P3"];
    K "KC_KP_4" false [] ["KC_P4"];
    K "KC_KP_5" false [] ["KC_P5"];
    K "KC_KP_6" false [] ["KC_P6"];
    K "KC_KP_7" false [] ["KC_P7"];
    K "KC_KP_8" false [] ["KC_P8"];
    K "KC_KP_9" false [] ["KC_P9"];
    K "KC_KP_0" false [] ["KC_P0"];
    K "KC_KP_DOT" false [] ["KC_PDOT"];
    K "KC_KP_EQUAL" false [] ["KC_PEQL"];
    K "KC_KP_COMMA" false [] ["KC_PCMM"] ].

Definition KEYCODES_BASIC_NAV_src : list K_args :=
  [ K "KC_PSCREEN" false [] ["KC_PSCR"];
    K "KC_SCROLLLOCK" false ["scroll lock"] ["KC_SLCK"; "KC_BRMD"];
    K "KC_PAUSE" false ["pause"; "break"] ["KC_PAUS"; "KC_BRK"; "KC_BRMU"];
    K "KC_INSERT" false ["insert"] ["KC_INS"];
    K "KC_HOME" false ["home"] [];
    K "KC_PGUP" false ["page up"] [];
    K "KC_DELETE" false ["delete"] ["KC_DEL"];
    K "KC_END" false ["end"] [];
    K "KC_PGDOWN" false ["page down"] ["KC_PGDN"];
    K "KC_RIGHT" false ["right"] ["KC_RGHT"];
    K "KC_LEFT" false ["left"] [];
    K "KC_DOWN" false ["down"] [];
    K "KC_UP" false ["up"] [] ].

Definition KEYCODES_BASIC_src : list K_args :=
  [ K "KC_A" false ["a"] [];
    K "KC_B" false ["b"] [];
    K "KC_C" false ["c"] [];
    K "KC_D" false ["d"] [];
    K "KC_E" false ["e"] [];
    K "KC_F" false ["f"] [];
    K "KC_G" false ["g"] [];
    K "KC_H" false ["h"] [];
    K "KC_I" false ["i"] [];
    K "KC_J" false ["j"] [];
    K "KC_K" false ["k"] [];
    K "KC_L" false ["l"] [];
    K "KC_M" false ["m"] [];
    K "KC_N" false ["n"] [];
    K "KC_O" false ["o"] [];
    K "KC_P" false ["p"] [];
    K "KC_Q" false ["q"] [];
    K "KC_R" false ["r"] [];
    K "KC_S" false ["s"] [];
    K "KC_T" false ["t"] [];
    K "KC_U" false ["u"] [];
    K "KC_V" false ["v"] [];
    K "KC_W" false ["w"] [];
    K "KC_X" false ["x"] [];
    K "KC_Y" false ["y"] [];
    K "KC_Z" false ["z"] [];
    K "KC_1" false ["1"] [];
    K "KC_2" false ["2"] [];
    K "KC_3" false ["3"] [];
    K "KC_4" false ["4"] [];
    K "KC_5" false ["5"] [];
    K "KC_6" false ["6"] [];
    K "KC_7" false ["7"] [];
    K "KC_8" false ["8"] [];
    K "KC_9" false ["9"] [];
    K "KC_0" false ["0"] [];
    K "KC_ENTER" false ["enter"] ["KC_ENT"];
    K "KC_ESCAPE" false ["esc"] ["KC_ESC"];
    K "KC_BSPACE" false ["backspace"] ["KC_BSPC"];
    K "KC_TAB" false ["tab"] [];
    K "KC_SPACE" false ["space"] ["KC_SPC"];
    K "KC_MINUS" false ["-"] ["KC_MINS"];
    K "KC_EQUAL" false ["="] ["KC_EQL"];
    K "KC_LBRACKET" false ["["] ["KC_LBRC"];
    K "KC_RBRACKET" false ["]"] ["KC_RBRC"];
    K "KC_BSLASH" false ["\"] ["KC_BSLS"];
    K "KC_SCOLON" false [";"] ["KC_SCLN"];
    K "KC_QUOTE" false ["'"] ["KC_QUOT"];
    K "KC_GRAVE" false ["`"] ["KC_GRV"; "KC_ZKHK"];
    K "KC_COMMA" false [","] ["KC_COMM"];
    K "KC_DOT" false ["."] [];
    K "KC_SLASH" false ["/"] ["KC_SLSH"];
    K "KC_CAPSLOCK" false ["caps lock"] ["KC_CLCK"; "KC_CAPS"];
    K "KC_F1" false ["f1"] [];
    K "KC_F2" false ["f2"] [];
    K "KC_F3" false ["f3"] [];
    K "KC_F4" false ["f4"] [];
    K "KC_F5" false ["f5"] [];
    K "KC_F6" false ["f6"] [];
    K "KC_F7" false ["f7"] [];
    K "KC_F8" false ["f8"] [];
    K "KC_F9" false ["f9"] [];
    K "KC_F10" false ["f10"] [];
    K "KC_F11" false ["f11"] [];
    K "KC_F12" false ["f12"] [];
    K "KC_APPLICATION" false ["menu"; "left menu"; "right menu"] ["KC_APP"];
    K "KC_LCTRL" false ["left ctrl"; "ctrl"] ["KC_LCTL"];
    K "KC_LSHIFT" false ["left shift"; "shift"] ["KC_LSFT"];
    K "KC_LALT" false ["alt"] ["KC_LOPT"];
    K "KC_LGUI" false ["left windows"; "windows"] ["KC_LCMD"; "KC_LWIN"];
    K "KC_RCTRL" false ["right ctrl"] ["KC_RCTL"];
    K "KC_RSHIFT" false ["right shift"] ["KC_RSFT"];
    K "KC_RALT" false [] ["KC_ALGR"; "KC_ROPT"];
    K "KC_RGUI" false ["right windows"] ["KC_RCMD"; "KC_RWIN"] ].

Definition KEYCODES_SHIFTED_src : list K_args :=
  [ K "KC_TILD" false [] [];
    K "KC_EXLM" false [] [];
    K "KC_AT" false [] [];
    K "KC_HASH" false [] [];
    K "KC_DLR" false [] [];
    K "KC_PERC" false [] [];
    K "KC_CIRC" false [] [];
    K "KC_AMPR" false [] [];
    K "KC_ASTR" false [] [];
    K "KC_LPRN" false [] [];
    K "KC_RPRN" false [] [];
    K "KC_UNDS" false [] [];
    K "KC_PLUS" false [] [];
    K "KC_LCBR" false [] [];
    K "KC_RCBR" false [] [];
    K "KC_LT" false [] [];
    K "KC_GT" false [] [];
    K "KC_COLN" false [] [];
    K "KC_PIPE" false [] [];
    K "KC_QUES" false [] [];
    K "KC_DQUO" false [] [] ].

Definition KEYCODES_ISO_src : list K_args :=
  [ K "KC_NONUS_HASH" false [] ["KC_NUHS"];
    K "KC_NONUS_BSLASH" false [] ["KC_NUBS"];
    K "KC_RO" false [] ["KC_INT1"];
    K "KC_KANA" false [] ["KC_INT2"];
    K "KC_JYEN" false [] ["KC_INT3"];
    K "KC_HENK" false [] ["KC_INT4"];
    K "KC_MHEN" false [] ["KC_INT5"] ].

Definition KEYCODES_ISO_KR_src : list K_args :=
  [ K "KC_LANG1" false [] ["KC_HAEN"];
    K "KC_LANG2" false [] ["KC_HANJ"] ].

Definition KEYCODES_BOOT_src : list K_args :=
  [ K "RESET" false [] [] ].

Definition KEYCODES_MODIFIERS_src : list K_args :=
  [ K "OSM(MOD_LSFT)" false [] [];
    K "OSM(MOD_LCTL)" false [] [];
    K "OSM(MOD_LALT)" false [] [];
    K "OSM(MOD_LGUI)" false [] [];
    K "OSM(MOD_RSFT)" false [] [];
    K "OSM(MOD_RCTL)" false [] [];
    K "OSM(MOD_RALT)" false [] [];
    K "OSM(MOD_RGUI)" false [] [];
    K "OSM(MOD_LCTL|MOD_LSFT)" false [] [];
    K "OSM(MOD_LCTL|MOD_LALT)" false [] [];
    K "OSM(MOD_LCTL|MOD_LGUI)" false [] [];
    K "OSM(MOD_LSFT|MOD_LALT)" false [] [];
    K "OSM(MOD_LSFT|MOD_LGUI)" false [] [];
    K "OSM(MOD_LALT|MOD_LGUI)" false [] [];
    K "OSM(MOD_RCTL|MOD_RSFT)" false [] [];
    K "OSM(MOD_RCTL|MOD_RALT)" false [] [];
    K "OSM(MOD_RCTL|MOD_RGUI)" false [] [];
    K "OSM(MOD_RSFT|MOD_RALT)" false [] [];
    K "OSM(MOD_RSFT|MOD_RGUI)" false [] [];
    K "OSM(MOD_RALT|MOD_RGUI)" false [] [];
    K "OSM(MOD_LCTL|MOD_LSFT|MOD_LGUI)" false [] [];
    K "OSM(MOD_LCTL|MOD_LALT|MOD_LGUI)" false [] [];
    K "OSM(MOD_LSFT|MOD_LALT|MOD_LGUI)" false [] [];
    K "OSM(MOD_RCTL|MOD_RSFT|MOD_RGUI)" false [] [];
    K "OSM(MOD_RCTL|MOD_RALT|MOD_RGUI)" false [] [];
    K "OSM(MOD_RSFT|MOD_RALT|MOD_RGUI)" false [] [];
    K "OSM(MOD_MEH)" false [] [];
    K "OSM(MOD_HYPR)" false [] [];
    K "OSM(MOD_RCTL|MOD_RSFT|MOD_RALT)" false [] [];
    K "OSM(MOD_RCTL|MOD_RSFT|MOD_RALT|MOD_RGUI)" false [] [];
    K "LSFT(kc)" true [] [];
    K "LCTL(kc)" true [] [];
    K "LALT(kc)" true [] [];
    K "LGUI(kc)" true [] [];
    K "RSFT(kc)" true [] [];
    K "RCTL(kc)" true [] [];
    K "RALT(kc)" true [] [];
    K "RGUI(kc)" true [] [];
    K "C_S(kc)" true [] ["LCS(kc)"];
    K "LCA(kc)" true [] [];
    K "LCG(kc)" true [] [];
    K "LSA(kc)" true [] [];
    K "SGUI(kc)" true [] ["LSG(kc)"];
    K "LCAG(kc)" true [] [];
    K "RCG(kc)" true [] [];
    K "MEH(kc)" true [] [];
    K "HYPR(kc)" true [] [];
    K "LSFT_T(kc)" true [] [];
    K "LCTL_T(kc)" true [] [];
    K "LALT_T(kc)" true [] [];
    K "LGUI_T(kc)" true [] [];
    K "RSFT_T(kc)" true [] [];
    K "RCTL_T(kc)" true [] [];
    K "RALT_T(kc)" true [] [];
    K "RGUI_T(kc)" true [] [];
    K "C_S_T(kc)" true [] ["LCS_T(kc)"];
    K "LCA_T(kc)" true [] [];
    K "LCG_T(kc)" true [] [];
    K "LSA_T(kc)" true [] [];
    K "SGUI_T(kc)" true [] ["LSG_T(kc)"];
    K "LCAG_T(kc)" true [] [];
    K "RCG_T(kc)" true [] [];
    K "RCAG_T(kc)" true [] [];
    K "MEH_T(kc)" true [] [];
    K "ALL_T(kc)" true [] [];
    K "KC_GESC" false [] [];
    K "KC_LSPO" false [] [];
    K "KC_RSPC" false [] [];
    K "KC_LCPO" false [] [];
    K "KC_RCPC" false [] [];
    K "KC_LAPO" false [] [];
    K "KC_RAPC" false [] [];
    K "KC_SFTENT" false [] [] ].

Definition KEYCODES_QUANTUM_src : list K_args :=
  [ K "MAGIC_SWAP_CONTROL_CAPSLOCK" false [] ["CL_SWAP"];
    K "MAGIC_UNSWAP_CONTROL_CAPSLOCK" false [] ["CL_NORM"];
    K "MAGIC_CAPSLOCK_TO_CONTROL" false [] ["CL_CTRL"];
    K "MAGIC_UNCAPSLOCK_TO_CONTROL" false [] ["CL_CAPS"];
    K "MAGIC_SWAP_LCTL_LGUI" false [] ["LCG_SWP"];
    K "MAGIC_UNSWAP_LCTL_LGUI" false [] ["LCG_NRM"];
    K "MAGIC_SWAP_RCTL_RGUI" false [] ["RCG_SWP"];
    K "MAGIC_UNSWAP_RCTL_RGUI" false [] ["RCG_NRM"];
    K "MAGIC_SWAP_CTL_GUI" false [] ["CG_SWAP"];
    K "MAGIC_UNSWAP_CTL_GUI" false [] ["CG_NORM"];
    K "MAGIC_TOGGLE_CTL_GUI" false [] ["CG_TOGG"];
    K "MAGIC_SWAP_LALT_LGUI" false [] ["LAG_SWP"];
    K "MAGIC_UNSWAP_LALT_LGUI" false [] ["LAG_NRM"];
    K "MAGIC_SWAP_RALT_RGUI" false [] ["RAG_SWP"];
    K "MAGIC_UNSWAP_RALT_RGUI" false [] ["RAG_NRM"];
    K "MAGIC_SWAP_ALT_GUI" false [] ["AG_SWAP"];
    K "MAGIC_UNSWAP_ALT_GUI" false [] ["AG_NORM"];
    K "MAGIC_TOGGLE_ALT_GUI" false [] ["AG_TOGG"];
    K "MAGIC_NO_GUI" false [] ["GUI_OFF"];
    K "MAGIC_UNNO_GUI" false [] ["GUI_ON"];
    K "MAGIC_SWAP_GRAVE_ESC" false [] ["GE_SWAP"];
    K "MAGIC_UNSWAP_GRAVE_ESC" false [] ["GE_NORM"];
    K "MAGIC_SWAP_BACKSLASH_BACKSPACE" false [] ["BS_SWAP"];
    K "MAGIC_UNSWAP_BACKSLASH_BACKSPACE" false [] ["BS_NORM"];
    K "MAGIC_HOST_NKRO" false [] ["NK_ON"];
    K "MAGIC_UNHOST_NKRO" false [] ["NK_OFF"];
    K "MAGIC_TOGGLE_NKRO" false [] ["NK_TOGG"];
    K "MAGIC_EE_HANDS_LEFT" false [] ["EH_LEFT"];
    K "MAGIC_EE_HANDS_RIGHT" false [] ["EH_RGHT"];
    K "AU_ON" false [] [];
    K "AU_OFF" false [] [];
    K "AU_TOG" false [] [];
    K "CLICKY_TOGGLE" false [] ["CK_TOGG"];
    K "CLICKY_UP" false [] ["CK_UP"];
    K "CLICKY_DOWN" false [] ["CK_DOWN"];
    K "CLICKY_RESET" false [] ["CK_RST"];
    K "MU_ON" false [] [];
    K "MU_OFF" false [] [];
    K "MU_TOG" false [] [];
    K "MU_MOD" false [] [];
    K "HPT_ON" false [] [];
    K "HPT_OFF" false [] [];
    K "HPT_TOG" false [] [];
    K "HPT_RST" false [] [];
    K "HPT_FBK" false [] [];
    K "HPT_BUZ" false [] [];
    K "HPT_MODI" false [] [];
    K "HPT_MODD" false [] [];
    K "HPT_CONT" false [] [];
    K "HPT_CONI" false [] [];
    K "HPT_COND" false [] [];
    K "HPT_DWLI" false [] [];
    K "HPT_DWLD" false [] [];
    K "KC_ASDN" false [] [];
    K "KC_ASUP" false [] [];
    K "KC_ASRP" false [] [];
    K "KC_ASON" false [] [];
    K "KC_ASOFF" false [] [];
    K "KC_ASTG" false [] [];
    K "CMB_ON" false [] [];
    K "CMB_OFF" false [] [];
    K "CMB_TOG" false [] [] ].

Definition KEYCODES_BACKLIGHT_src : list K_args :=
  [ K "BL_TOGG" false [] [];
    K "BL_STEP" false [] [];
    K "BL_BRTG" false [] [];
    K "BL_ON" false [] [];
    K "BL_OFF" false [] [];
    K "BL_INC" false [] [];
    K "BL_DEC" false [] [];
    K "RGB_TOG" false [] [];
    K "RGB_MOD" false [] [];
    K "RGB_RMOD" false [] [];
    K "RGB_HUI" false [] [];
    K "RGB_HUD" false [] [];
    K "RGB_SAI" false [] [];
    K "RGB_SAD" false [] [];
    K "RGB_VAI" false [] [];
    K "RGB_VAD" false [] [];
    K "RGB_SPI" false [] [];
    K "RGB_SPD" false [] [];
    K "RGB_M_P" false [] [];
    K "RGB_M_B" false [] [];
    K "RGB_M_R" false [] [];
    K "RGB_M_SW" false [] [];
    K "RGB_M_SN" false [] [];
    K "RGB_M_K" false [] [];
    K "RGB_M_X" false [] [];
    K "RGB_M_G" false [] [];
    K "RGB_M_T" false [] [] ].

Definition KEYCODES_MEDIA_src : list K_args :=
  [ K "KC_F13" false [] [];
    K "KC_F14" false [] [];
    K "KC_F15" false [] [];
    K "KC_F16" false [] [];
    K "KC_F17" false [] [];
    K "KC_F18" false [] [];
    K "KC_F19" false [] [];
    K "KC_F20" false [] [];
    K "KC_F21" false [] [];
    K "KC_F22" false [] [];
    K "KC_F23" false [] [];
    K "KC_F24" false [] [];
    K "KC_PWR" false [] ["KC_SYSTEM_POWER"];
    K "KC_SLEP" false [] ["KC_SYSTEM_SLEEP"];
    K "KC_WAKE" false [] ["KC_SYSTEM_WAKE"];
    K "KC_EXEC" false [] ["KC_EXECUTE"];
    K "KC_HELP" false [] [];
    K "KC_SLCT" false [] ["KC_SELECT"];
    K "KC_STOP" false [] [];
    K "KC_AGIN" false [] ["KC_AGAIN"];
    K "KC_UNDO" false [] [];
    K "KC_CUT" false [] [];
    K "KC_COPY" false [] [];
    K "KC_PSTE" false [] ["KC_PASTE"];
    K "KC_FIND" false [] [];
    K "KC_CALC" false [] ["KC_CALCULATOR"];
    K "KC_MAIL" false [] [];
    K "KC_MSEL" false [] ["KC_MEDIA_SELECT"];
    K "KC_MYCM" false [] ["KC_MY_COMPUTER"];
    K "KC_WSCH" false [] ["KC_WWW_SEARCH"];
    K "KC_WHOM" false [] ["KC_WWW_HOME"];
    K "KC_WBAK" false [] ["KC_WWW_BACK"];
    K "KC_WFWD" false [] ["KC_WWW_FORWARD"];
    K "KC_WSTP" false [] ["KC_WWW_STOP"];
    K "KC_WREF" false [] ["KC_WWW_REFRESH"];
    K "KC_WFAV" false [] ["KC_WWW_FAVORITES"];
    K "KC_BRIU" false [] ["KC_BRIGHTNESS_UP"];
    K "KC_BRID" false [] ["KC_BRIGHTNESS_DOWN"];
    K "KC_MPRV" false [] ["KC_MEDIA_PREV_TRACK"];
    K "KC_MNXT" false [] ["KC_MEDIA_NEXT_TRACK"];
    K "KC_MUTE" false [] ["KC_AUDIO_MUTE"];
    K "KC_VOLD" false [] ["KC_AUDIO_VOL_DOWN"];
    K "KC_VOLU" false [] ["KC_AUDIO_VOL_UP"];
    K "KC__VOLDOWN" false [] [];
    K "KC__VOLUP" false [] [];
    K "KC_MSTP" false [] ["KC_MEDIA_STOP"];
    K "KC_MPLY" false [] ["KC_MEDIA_PLAY_PAUSE"];
    K "KC_MRWD" false [] ["KC_MEDIA_REWIND"];
    K "KC_MFFD" false [] ["KC_MEDIA_FAST_FORWARD"];
    K "KC_EJCT" false [] ["KC_MEDIA_EJECT"];
    K "KC_MS_U" false [] ["KC_MS_UP"];
    K "KC_MS_D" false [] ["KC_MS_DOWN"];
    K "KC_MS_L" false [] ["KC_MS_LEFT"];
    K "KC_MS_R" false [] ["KC_MS_RIGHT"];
    K "KC_BTN1" false [] ["KC_MS_BTN1"];
    K "KC_BTN2" false [] ["KC_MS_BTN2"];
    K "KC_BTN3" false [] ["KC_MS_BTN3"];
    K "KC_BTN4" false [] ["KC_MS_BTN4"];
    K "KC_BTN5" false [] ["KC_MS_BTN5"];
    K "KC_WH_U" false [] ["KC_MS_WH_UP"];
    K "KC_WH_D" false [] ["KC_MS_WH_DOWN"];
    K "KC_WH_L" false [] ["KC_MS_WH_LEFT"];
    K "KC_WH_R" false [] ["KC_MS_WH_RIGHT"];
    K "KC_ACL0" false [] ["KC_MS_ACCEL0"];
    K "KC_ACL1" false [] ["KC_MS_ACCEL1"];
    K "KC_ACL2" false [] ["KC_MS_ACCEL2"];
    K "KC_LCAP" false [] ["KC_LOCKING_CAPS"];
    K "KC_LNUM" false [] ["KC_LOCKING_NUM"];
    K "KC_LSCR" false [] ["KC_LOCKING_SCROLL"] ].

Definition KEYCODES_MACRO_BASE_src : list K_args :=
  [ K "DYN_REC_START1" false [] ["DM_REC1"];
    K "DYN_REC_START2" false [] ["DM_REC2"];
    K "DYN_REC_STOP" false [] ["DM_RSTP"];
    K "DYN_MACRO_PLAY1" false [] ["DM_PLY1"];
    K "DYN_MACRO_PLAY2" false [] ["DM_PLY2"] ].

Definition KEYCODES_MIDI_BASIC_src : list K_args :=
  [ K "MI_C" false [] [];
    K "MI_Cs" false [] ["MI_Db"];
    K "MI_D" false [] [];
    K "MI_Ds" false [] ["MI_Eb"];
    K "MI_E" false [] [];
    K "MI_F" false [] [];
    K "MI_Fs" false [] ["MI_Gb"];
    K "MI_G" false [] [];
    K "MI_Gs" false [] ["MI_Ab"];
    K "MI_A" false [] [];
    K "MI_As" false [] ["MI_Bb"];
    K "MI_B" false [] [];
    K "MI_C_1" false [] [];
    K "MI_Cs_1" false [] ["MI_Db_1"];
    K "MI_D_1" false [] [];
    K "MI_Ds_1" false [] ["MI_Eb_1"];
    K "MI_E_1" false [] [];
    K "MI_F_1" false [] [];
    K "MI_Fs_1" false [] ["MI_Gb_1"];
    K "MI_G_1" false [] [];
    K "MI_Gs_1" false [] ["MI_Ab_1"];
    K "MI_A_1" false [] [];
    K "MI_As_1" false [] ["MI_Bb_1"];
    K "MI_B_1" false [] [];
    K "MI_C_2" false [] [];
    K "MI_Cs_2" false [] ["MI_Db_2"];
    K "MI_D_2" false [] [];
    K "MI_Ds_2" false [] ["MI_Eb_2"];
    K "MI_E_2" false [] [];
    K "MI_F_2" false [] [];
    K "MI_Fs_2" false [] ["MI_Gb_2"];
    K "MI_G_2" false [] [];
    K "MI_Gs_2" false [] ["MI_Ab_2"];
    K "MI_A_2" false [] [];
    K "MI_As_2" false [] ["MI_Bb_2"];
    K "MI_B_2" false [] [];
    K "MI_C_3" false [] [];
    K "MI_Cs_3" false [] ["MI_Db_3"];
    K "MI_D_3" false [] [];
    K "MI_Ds_3" false [] ["MI_Eb_3"];
    K "MI_E_3" false [] [];
    K "MI_F_3" false [] [];
    K "MI_Fs_3" false [] ["MI_Gb_3"];
    K "MI_G_3" false [] [];
    K "MI_Gs_3" false [] ["MI_Ab_3"];
    K "MI_A_3" false [] [];
    K "MI_As_3" false [] ["MI_Bb_3"];
    K "MI_B_3" false [] [];
    K "MI_C_4" false [] [];
    K "MI_Cs_4" false [] ["MI_Db_4"];
    K "MI_D_4" false [] [];
    K "MI_Ds_4" false [] ["MI_Eb_4"];
    K "MI_E_4" false [] [];
    K "MI_F_4" false [] [];
    K "MI_Fs_4" false [] ["MI_Gb_4"];
    K "MI_G_4" false [] [];
    K "MI_Gs_4" false [] ["MI_Ab_4"];
    K "MI_A_4" false [] [];
    K "MI_As_4" false [] ["MI_Bb_4"];
    K "MI_B_4" false [] [];
    K "MI_C_5" false [] [];
    K "MI_Cs_5" false [] ["MI_Db_5"];
    K "MI_D_5" false [] [];
    K "MI_Ds_5" false [] ["MI_Eb_5"];
    K "MI_E_5" false [] [];
    K "MI_F_5" false [] [];
    K "MI_Fs_5" false [] ["MI_Gb_5"];
    K "MI_G_5" false [] [];
    K "MI_Gs_5" false [] ["MI_Ab_5"];
    K "MI_A_5" false [] [];
    K "MI_As_5" false [] ["MI_Bb_5"];
    K "MI_B_5" false [] [];
    K "MI_ALLOFF" false [] [] ].

Definition KEYCODES_MIDI_ADVANCED_src : list K_args :=
  [ K "MI_OCT_N2" false [] [];
    K "MI_OCT_N1" false [] [];
    K "MI_OCT_0" false [] [];
    K "MI_OCT_1" false [] [];
    K "MI_OCT_2" false [] [];
    K "MI_OCT_3" false [] [];
    K "MI_OCT_4" false [] [];
    K "MI_OCT_5" false [] [];
    K "MI_OCT_6" false [] [];
    K "MI_OCT_7" false [] [];
    K "MI_OCTD" false [] [];
    K "MI_OCTU" false [] [];
    K "MI_TRNS_N6" false [] [];
    K "MI_TRNS_N5" false [] [];
    K "MI_TRNS_N4" false [] [];
    K "MI_TRNS_N3" false [] [];
    K "MI_TRNS_N2" false [] [];
    K "MI_TRNS_N1" false [] [];
    K "MI_TRNS_0" false [] [];
    K "MI_TRNS_1" false [] [];
    K "MI_TRNS_2" false [] [];
    K "MI_TRNS_3" false [] [];
    K "MI_TRNS_4" false [] [];
    K "MI_TRNS_5" false [] [];
    K "MI_TRNS_6" false [] [];
    K "MI_TRNSD" false [] [];
    K "MI_TRNSU" false [] [];
    K "MI_VEL_1" false [] ["MI_VEL_0"];
    K "MI_VEL_2" false [] [];
    K "MI_VEL_3" false [] [];
    K "MI_VEL_4" false [] [];
    K "MI_VEL_5" false [] [];
    K "MI_VEL_6" false [] [];
    K "MI_VEL_7" false [] [];
    K "MI_VEL_8" false [] [];
    K "MI_VEL_9" false [] [];
    K "MI_VEL_10" false [] [];
    K "MI_VELD" false [] [];
    K "MI_VELU" false [] [];
    K "MI_CH1" false [] [];
    K "MI_CH2" false [] [];
    K "MI_CH3" false [] [];
    K "MI_CH4" false [] [];
    K "MI_CH5" false [] [];
    K "MI_CH6" false [] [];
    K "MI_CH7" false [] [];
    K "MI_CH8" false [] [];
    K "MI_CH9" false [] [];
    K "MI_CH10" false [] [];
    K "MI_CH11" false [] [];
    K "MI_CH12" false [] [];
    K "MI_CH13" false [] [];
    K "MI_CH14" false [] [];
    K "MI_CH15" false [] [];
    K "MI_CH16" false [] [];
    K "MI_CHD" false [] [];
    K "MI_CHU" false [] [];
    K "MI_SUS" false [] [];
    K "MI_PORT" false [] [];
    K "MI_SOST" false [] [];
    K "MI_SOFT" false [] [];
    K "MI_LEG" false [] [];
    K "MI_MOD" false [] [];
    K "MI_MODSD" false [] [];
    K "MI_MODSU" false [] [];
    K "MI_BENDD" false [] [];
    K "MI_BENDU" false [] [] ].

(** [for x in range(256): KEYCODES_HIDDEN.append(K("TD({})".format(x), ...))] *)
Definition KEYCODES_HIDDEN_src : list K_args :=
  map (fun x => K ("TD(" +:+ Py.str x +:+ ")") false [] []) (Py.range 256).

(** The lists as they stand once the module is imported;
    [KEYCODES_BASIC.extend(KEYCODES_BASIC_NUMPAD)],
    [KEYCODES_BASIC.extend(KEYCODES_BASIC_NAV)] and
    [KEYCODES_ISO.extend(KEYCODES_ISO_KR)] have run. *)
Definition KEYCODES_SPECIAL : list Keycode := map Keycode_of KEYCODES_SPECIAL_src.
Definition KEYCODES_BASIC_NUMPAD : list Keycode := map Keycode_of KEYCODES_BASIC_NUMPAD_src.
Definition KEYCODES_BASIC_NAV : list Keycode := map Keycode_of KEYCODES_BASIC_NAV_src.
Definition KEYCODES_BASIC : list Keycode :=
  map Keycode_of KEYCODES_BASIC_src ++ KEYCODES_BASIC_NUMPAD ++ KEYCODES_BASIC_NAV.
Definition KEYCODES_SHIFTED : list Keycode := map Keycode_of KEYCODES_SHIFTED_src.
Definition KEYCODES_ISO_KR : list Keycode := map Keycode_of KEYCODES_ISO_KR_src.
Definition KEYCODES_ISO : list Keycode := map Keycode_of KEYCODES_ISO_src ++ KEYCODES_ISO_KR.
Definition KEYCODES_BOOT : list Keycode := map Keycode_of KEYCODES_BOOT_src.
Definition KEYCODES_MODIFIERS : list Keycode := map Keycode_of KEYCODES_MODIFIERS_src.
Definition KEYCODES_QUANTUM : list Keycode := map Keycode_of KEYCODES_QUANTUM_src.
Definition KEYCODES_BACKLIGHT : list Keycode := map Keycode_of KEYCODES_BACKLIGHT_src.
Definition KEYCODES_MEDIA : list Keycode := map Keycode_of KEYCODES_MEDIA_src.
Definition KEYCODES_MACRO_BASE : list Keycode := map Keycode_of KEYCODES_MACRO_BASE_src.
Definition KEYCODES_MIDI_BASIC : list Keycode := map Keycode_of KEYCODES_MIDI_BASIC_src.
Definition KEYCODES_MIDI_ADVANCED : list Keycode := map Keycode_of KEYCODES_MIDI_ADVANCED_src.
Definition KEYCODES_HIDDEN : list Keycode := map Keycode_of KEYCODES_HIDDEN_src.

(** Every constructor call the import runs, in the order of the source. *)
Definition static_src : list K_args :=
  KEYCODES_SPECIAL_src ++ KEYCODES_BASIC_NUMPAD_src ++ KEYCODES_BASIC_NAV_src ++
  KEYCODES_BASIC_src ++ KEYCODES_SHIFTED_src ++ KEYCODES_ISO_src ++ KEYCODES_ISO_KR_src ++
  KEYCODES_BOOT_src ++ KEYCODES_MODIFIERS_src ++ KEYCODES_QUANTUM_src ++
  KEYCODES_BACKLIGHT_src ++ KEYCODES_MEDIA_src ++ KEYCODES_MACRO_BASE_src ++
  KEYCODES_MIDI_BASIC_src ++ KEYCODES_MIDI_ADVANCED_src ++ KEYCODES_HIDDEN_src.

(** The class attributes as the class statement leaves them, and the
    module lists that start empty. *)
Definition empty_state : state :=
  mkState ∅ ∅ ∅ 0%Z [] [] [] [] [] [] ∅ ∅.

(** The state once every module-level constructor call has run. *)
Definition static_state : state :=
  snd (for_each static_src (fun a => do! Keycode_init a in ret tt) empty_state).

(** ** A sample environment

    The protocol tables of the repository are not among the sources, so
    the examples below run on tables written here in the shape of the two
    numberings: basic keys in the low byte, a modifier wrapper in bits
    8 to 12, layer-tap at 0x4000, mod-tap, layer actions, tap dance,
    macros and user keycodes at the bases of [numbering].  The remaining
    ids are numbered in sequence so that every id of the module resolves.
    The masked set holds the values of the ids that end in (kc). *)

Record numbering : Type := mkNumbering {
  n_mod_tap : Z;
  n_to : Z; n_momentary : Z; n_def_layer : Z; n_toggle_layer : Z;
  n_one_shot_layer : Z; n_one_shot_mod : Z; n_tap_toggle : Z;
  n_tap_dance : Z; n_quantum : Z; n_fn_mo13 : Z; n_macro : Z; n_user : Z
}.

Definition numbering_v5 : numbering :=
  mkNumbering 0x6000 0x5010 0x5100 0x5200 0x5300 0x5400 0x5500 0x5800
    0x5700 0x5C00 0x5F10 0x5F12 0x5F80.

Definition numbering_v6 : numbering :=
  mkNumbering 0x2000 0x5200 0x5220 0x5240 0x5260 0x5280 0x52A0 0x52C0
    0x5700 0x7000 0x7C77 0x7700 0x7E00.

(** [ids] numbered from [start] on. *)
Definition number_from (start : Z) (ids : list string) : list (string * Z) :=
  zip ids (map (fun i => (start + Z.of_nat i)%Z) (seq 0 (length ids))).

Definition ids_of (l : list K_args) : list string := map k_qmk_id l.

(** The modifier wrappers and the modifier bits each one stands for
    (control 1, shift 2, alt 4, gui 8, right-hand 16). *)
Definition sample_mods : list (string * Z) :=
  [ ("LCTL", 0x01); ("LSFT", 0x02); ("LALT", 0x04); ("LGUI", 0x08);
    ("RCTL", 0x11); ("RSFT", 0x12); ("RALT", 0x14); ("RGUI", 0x18);
    ("C_S", 0x03); ("LCA", 0x05); ("LCG", 0x09); ("LSA", 0x06); ("SGUI", 0x0A);
    ("LCAG", 0x0D); ("RCG", 0x19); ("RCAG", 0x1D); ("MEH", 0x07); ("HYPR", 0x0F);
    ("ALL", 0x0F) ]%Z.

(** The shifted keys and the basic key each one shifts. *)
Definition sample_shifted : list (string * string) :=
  [ ("KC_TILD", "KC_GRAVE"); ("KC_EXLM", "KC_1"); ("KC_AT", "KC_2"); ("KC_HASH", "KC_3");
    ("KC_DLR", "KC_4"); ("KC_PERC", "KC_5"); ("KC_CIRC", "KC_6"); ("KC_AMPR", "KC_7");
    ("KC_ASTR", "KC_8"); ("KC_LPRN", "KC_9"); ("KC_RPRN", "KC_0"); ("KC_UNDS", "KC_MINUS");
    ("KC_PLUS", "KC_EQUAL"); ("KC_LCBR", "KC_LBRACKET"); ("KC_RCBR", "KC_RBRACKET");
    ("KC_LT", "KC_COMMA"); ("KC_GT", "KC_DOT"); ("KC_COLN", "KC_SCOLON");
    ("KC_PIPE", "KC_BSLASH"); ("KC_QUES", "KC_SLASH"); ("KC_DQUO", "KC_QUOTE") ].

(** The basic keys, in the low byte. *)
Definition sample_basic : list (string * Z) :=
  number_from 0 (ids_of KEYCODES_SPECIAL_src) ++
  number_from 4 (ids_of (KEYCODES_BASIC_src ++ KEYCODES_BASIC_NUMPAD_src ++
                         KEYCODES_BASIC_NAV_src ++ KEYCODES_ISO_src ++
                         KEYCODES_ISO_KR_src ++ KEYCODES_MEDIA_src)).

Definition sample_entries (n : numbering) : list (string * Z) :=
  let basic : gmap string Z := list_to_map sample_basic in
  sample_basic ++
  map (fun '(s, b) => (s, Z.lor 0x0200 (default 0%Z (basic !! b)))) sample_shifted ++
  flat_map (fun '(m, bits) =>
    [ (m +:+ "(kc)", Z.shiftl bits 8);
      (m +:+ "_T(kc)", Z.lor (n_mod_tap n) (Z.shiftl bits 8)) ]) sample_mods ++
  map (fun x => ("LT" +:+ Py.str x +:+ "(kc)", Z.lor 0x4000 (Z.shiftl x 8))) (Py.range 16) ++
  flat_map (fun x =>
    [ ("TO(" +:+ Py.str x +:+ ")", n_to n + x);
      ("MO(" +:+ Py.str x +:+ ")", n_momentary n + x);
      ("DF(" +:+ Py.str x +:+ ")", n_def_layer n + x);
      ("TG(" +:+ Py.str x +:+ ")", n_toggle_layer n + x);
      ("OSL(" +:+ Py.str x +:+ ")", n_one_shot_layer n + x);
      ("TT(" +:+ Py.str x +:+ ")", n_tap_toggle n + x) ]%Z) (Py.range 32) ++
  number_from (n_one_shot_mod n + 1)
    (filter (fun s => negb (Py.endswith s "(kc)") && String.prefix "OSM(" s)
       (ids_of KEYCODES_MODIFIERS_src)) ++
  map (fun x => ("TD(" +:+ Py.str x +:+ ")", n_tap_dance n + x)%Z) (Py.range 256) ++
  number_from (n_quantum n)
    (ids_of KEYCODES_BOOT_src ++
     filter (fun s => negb (Py.endswith s "(kc)") && negb (String.prefix "OSM(" s))
       (ids_of KEYCODES_MODIFIERS_src) ++
     ids_of (KEYCODES_QUANTUM_src ++ KEYCODES_BACKLIGHT_src ++ KEYCODES_MACRO_BASE_src ++
             KEYCODES_MIDI_BASIC_src ++ KEYCODES_MIDI_ADVANCED_src)) ++
  [ ("FN_MO13", n_fn_mo13 n); ("FN_MO23", n_fn_mo13 n + 1)%Z ] ++
  map (fun x => ("M" +:+ Py.str x, n_macro n + x)%Z) (Py.range 110) ++
  map (fun x => ("USER" +:+ Py.str02 x, n_user n + x)%Z) (Py.range 64).

Definition sample_table (n : numbering) : protocol_table :=
  let entries := sample_entries n in
  mkTable (list_to_map entries)
    (list_to_set (map snd (filter (fun e => Py.endswith (fst e) "(kc)") entries))).

Definition sample_v5 : protocol_table := sample_table numbering_v5.
Definition sample_v6 : protocol_table := sample_table numbering_v6.

(** A sample parser: it reads the hexadecimal literals that [hex] writes
    and rejects every other text. *)
Definition sample_decode (st : state) (text : string) : outcome Z :=
  match text with
  | String "0" (String "x" digits) =>
      match HexadecimalString.NilZero.uint_of_string digits with
      | Some u => Return (Z.of_hex_uint u)
      | None => Raise (ParseError ("invalid expression: " +:+ text))
      end
  | _ => Raise (ParseError ("invalid expression: " +:+ text))
  end.

(** Keycodes of the static tables that the examples name. *)
Definition LSFT_kc : Keycode := mkKeycode "LSFT(kc)" true ["LSFT(kc)"].
Definition KC_A : Keycode := mkKeycode "KC_A" false ["KC_A"].
Definition KC_TRNS : Keycode := mkKeycode "KC_TRNS" false ["KC_TRNS"; "KC_TRANSPARENT"].
Definition RESET : Keycode := mkKeycode "RESET" false ["RESET"].

(** Keyboards with four layers and two macros, with one layer, and with
    two layers; the first comes with an empty custom list. *)
Definition kb_empty_custom : keyboard := mkKeyboard 0 4 2 0 (Some []) None.
Definition kb_one_layer : keyboard := mkKeyboard 0 1 0 0 None None.
Definition kb_two_layers : keyboard := mkKeyboard 0 2 0 0 None None.

(** A keyboard with more layers than the sample tables number, and one
    with a custom list of two entries, the second without a name. *)
Definition kb_many_layers : keyboard := mkKeyboard 0 33 0 0 None None.
Definition kb_custom : keyboard :=
  mkKeyboard 0 1 0 0
    (Some [mkCustom (Some "Lock") (Some "Lock the screen") (Some "MY_LOCK");
           mkCustom None None None])
    (Some "basic").

(** The fullwidth right parenthesis U+FF09, a character of three bytes. *)
Definition fullwidth_paren : string :=
  String (ascii_of_nat 239) (String (ascii_of_nat 188) (String (ascii_of_nat 137) "")).

(** ** The dialog for an arbitrary keycode

    Source: [src/main/python/any_keycode_dialog.py].  Of the dialog the
    embedding keeps what [on_change] computes: the attribute [value],
    the text put on [lbl_computed] and whether the OK button is
    enabled. *)

(** [str(e)] for the exceptions above; a failed [assert] without a
    message has the empty text. *)
Definition exn_str (e : exn) : string :=
  match e with
  | RuntimeError msg => msg
  | AssertionError => ""
  | ParseError msg => msg
  end.

Module AnyKeycodeDialog.

(** The four texts [on_change] can put on [lbl_computed]: the prompt
    for an expression, the invalid input with the text of the error, the
    computed value (shown as capital hexadecimal digits after 0x), and
    the bare invalid input. *)
Inductive label : Type :=
  | EnterExpression
  | InvalidInputError (err : string)
  | ComputedValue (value : Z)
  | InvalidInput.

Record t : Type := mk {
  value : string;
  lbl_computed : label;
  ok_enabled : bool
}.

End AnyKeycodeDialog.

(** ** The check boxes of the key override editor

    Source: [src/main/python/editor/key_override.py].  A row of check
    boxes is the list of their states: [setChecked] assigns a state and
    [isChecked] reads it.  The signals of the widgets are not modelled. *)

(** [enumerate(l)] *)
Definition enumerate {A} (l : list A) : list (Z * A) :=
  zip (Py.range (Z.of_nat (length l))) l.

Module ModsUI.

(** [self.mods] as [__init__] leaves it: eight check boxes, unchecked. *)
Definition mods : list bool := replicate 8 false.

(** [load]: [chk.setChecked(bool(data & (1 << x)))] for each box. *)
Definition load (mods : list bool) (data : Z) : list bool :=
  map (fun '(x, _) => negb (Z.land data (Z.shiftl 1 x) =? 0)%Z) (enumerate mods).

(** [save]: [out |= int(chk.isChecked()) << x] for each box, from 0. *)
Definition save (mods : list bool) : Z :=
  foldl (fun out '(x, chk) => Z.lor out (Z.shiftl (Z.b2z chk) x)) 0%Z (enumerate mods).

End ModsUI.

Module LayersUI.

(** [self.layer_chks] as [__init__] leaves it: sixteen check boxes,
    unchecked. *)
Definition layer_chks : list bool := replicate 16 false.

(** [load]: [w.setChecked(bool(data & (1 << x)))] for each box. *)
Definition load (layer_chks : list bool) (data : Z) : list bool :=
  map (fun '(x, _) => negb (Z.land data (Z.shiftl 1 x) =? 0)%Z) (enumerate layer_chks).

(** [save]: [out |= int(w.isChecked()) << x] for each box, from 0. *)
Definition save (layer_chks : list bool) : Z :=
  foldl (fun out '(x, w) => Z.lor out (Z.shiftl (Z.b2z w) x)) 0%Z (enumerate layer_chks).

(** [on_enable_all_layers], [on_disable_all_layers] *)
Definition on_enable_all_layers (layer_chks : list bool) : list bool :=
  map (fun '(_, _) => true) (enumerate layer_chks).

Definition on_disable_all_layers (layer_chks : list bool) : list bool :=
  map (fun '(_, _) => false) (enumerate layer_chks).

End LayersUI.

(** ** Class methods and the rebuild *)

Section Registry.

(** The two protocol tables, and [AnyKeycode().decode(text)]: the parser
    is built from the registry at the moment of the call, so it is given
    the state; it returns an integer or raises.  Importing the parser's
    module and constructing the parser are taken to return: only [decode]
    stands inside the [try] of [deserialize]. *)
Variable keycodes_v5 keycodes_v6 : protocol_table.
Variable AnyKeycode_decode : state -> string -> outcome Z.

(** The table selected by [if cls.protocol == 6: ... else: ...]. *)
Definition active_table (st : state) : protocol_table :=
  if (protocol st =? 6)%Z then keycodes_v6 else keycodes_v5.

(** [Keycode.find] *)
Definition find (st : state) (qmk_id : string) : option Keycode :=
  let qmk_id := if String.eqb qmk_id "kc" then "KC_NO" else qmk_id in
  KEYCODES_MAP st !! qmk_id.

(** [Keycode.is_mask] *)
Definition is_mask (st : state) (qmk_id : string) : bool :=
  Py.contains "(" qmk_id &&
  bool_decide (Py.slice_to qmk_id (Py.find "(" qmk_id) ∈ masked_keycodes st).

(** [Keycode.find_outer_keycode] *)
Definition find_outer_keycode (st : state) (qmk_id : string) : option Keycode :=
  let qmk_id :=
    if is_mask st qmk_id then Py.slice_to qmk_id (Py.find "(" qmk_id) else qmk_id in
  find st qmk_id.

(** [Keycode.find_inner_keycode]: [qmk_id[qmk_id.find("(")+1:-1]] starts
    right after the first parenthesis, which [is_mask] has found, and
    leaves out the last character of the text. *)
Definition find_inner_keycode (st : state) (qmk_id : string) : option Keycode :=
  let qmk_id :=
    if is_mask st qmk_id
    then Py.slice_but_last qmk_id (Py.find "(" qmk_id + 1)%Z
    else qmk_id in
  find st qmk_id.

(** [Keycode.find_by_recorder_alias] *)
Definition find_by_recorder_alias (st : state) (al : string) : option Keycode :=
  recorder_alias_to_keycode st !! al.

(** [Keycode.find_by_qmk_id] *)
Definition find_by_qmk_id (st : state) (qmk_id : string) : option Keycode :=
  qmk_id_to_keycode st !! qmk_id.

(** [Keycode.resolve] *)
Definition resolve (st : state) (qmk_constant : string) : outcome Z :=
  match kc (active_table st) !! qmk_constant with
  | None => Raise (RuntimeError ("unable to resolve qmk_id=" +:+ qmk_constant))
  | Some v => Return v
  end.

(** [Keycode.serialize] *)
Definition serialize (st : state) (code : Z) : string :=
  let masked := masked_raw (active_table st) in
  if negb (bool_decide (Z.land code 0xFF00 ∈ masked))
  then match RAWCODES_MAP st !! code with
       | Some kc => qmk_id kc
       | None => Py.hex code
       end
  else match RAWCODES_MAP st !! Z.land code 0xFF00, RAWCODES_MAP st !! Z.land code 0x00FF with
       | Some outer, Some inner => Py.replace (qmk_id outer) "kc" (qmk_id inner)
       | _, _ => Py.hex code
       end.

(** [Keycode.deserialize] *)
Definition deserialize (st : state) (val : pyval) (reraise : bool) : outcome Z :=
  match val with
  | VInt n => Return n
  | VStr s =>
      match qmk_id_to_keycode st !! s with
      | Some k => resolve st (qmk_id k)
      | None =>
          match AnyKeycode_decode st s with
          | Return v => Return v
          | Raise e => if reraise then Raise e else Return 0%Z
          end
      end
  end.

(** [Keycode.normalize] *)
Definition normalize (st : state) (code : pyval) : outcome string :=
  match deserialize st code false with
  | Return v => Return (serialize st v)
  | Raise e => Raise e
  end.

(** [Keycode.is_basic] *)
Definition is_basic (st : state) (qmk_id : string) : outcome bool :=
  match deserialize st (VStr qmk_id) false with
  | Return v => Return (v <? 0x00FF)%Z
  | Raise e => Raise e
  end.

(** The body of the loop of [recreate_keycodes]. *)
Definition register (keycode : Keycode) : M unit := fun st =>
  let st := set_KEYCODES_MAP (<[strip_kc (qmk_id keycode) := keycode]> (KEYCODES_MAP st)) st in
  match deserialize st (VStr (qmk_id keycode)) false with
  | Return v => (Return tt, set_RAWCODES_MAP (<[v := keycode]> (RAWCODES_MAP st)) st)
  | Raise e => (Raise e, st)
  end.

(** [recreate_keycodes] *)
Definition recreate_keycodes : M unit :=
  let! st := get in
  let all :=
    KEYCODES_SPECIAL ++ KEYCODES_BASIC ++ KEYCODES_SHIFTED ++ KEYCODES_ISO ++
    KEYCODES_LAYERS st ++ KEYCODES_BOOT ++ KEYCODES_MODIFIERS ++ KEYCODES_QUANTUM ++
    KEYCODES_BACKLIGHT ++ KEYCODES_MEDIA ++ KEYCODES_TAP_DANCE st ++ KEYCODES_MACRO st ++
    KEYCODES_USER st ++ KEYCODES_HIDDEN ++ KEYCODES_MIDI st in
  do! modify (set_KEYCODES all) in
  do! modify (set_KEYCODES_MAP ∅) in
  do! modify (set_RAWCODES_MAP ∅) in
  for_each all register.

(** [create_user_keycodes] *)
Definition create_user_keycodes : M unit :=
  do! modify (set_KEYCODES_USER []) in
  for_each (Py.range 16) (fun x =>
    let! k := Keycode_init (K ("USER" +:+ Py.str02 x) false [] []) in
    modify (fun st => set_KEYCODES_USER (KEYCODES_USER st ++ [k]) st)).

(** [create_custom_user_keycodes]; [enumerate] pairs each entry with its
    index. *)
Definition create_custom_user_keycodes (custom : list custom_keycode) : M unit :=
  do! modify (set_KEYCODES_USER []) in
  for_each (zip (Py.range (Z.of_nat (length custom))) custom) (fun '(x, c_keycode) =>
    let! k := Keycode_init
      (K ("USER" +:+ Py.str02 x) false []
         [default ("USER" +:+ Py.str02 x) (name c_keycode)]) in
    modify (fun st => set_KEYCODES_USER (KEYCODES_USER st ++ [k]) st)).

(** [create_midi_keycodes] *)
Definition create_midi_keycodes (midiSettingLevel : option string) : M unit :=
  do! modify (set_KEYCODES_MIDI []) in
  do! (if bool_decide (midiSettingLevel = Some "basic")
          || bool_decide (midiSettingLevel = Some "advanced")
       then modify (fun st => set_KEYCODES_MIDI (KEYCODES_MIDI st ++ KEYCODES_MIDI_BASIC) st)
       else ret tt) in
  if bool_decide (midiSettingLevel = Some "advanced")
  then modify (fun st => set_KEYCODES_MIDI (KEYCODES_MIDI st ++ KEYCODES_MIDI_ADVANCED) st)
  else ret tt.

(** The local function [generate_keycodes_for_mask] of
    [recreate_keyboard_keycodes]. *)
Definition generate_keycodes_for_mask (layers : Z) (label : string) : M (list Keycode) :=
  collect (Py.range layers) (fun layer =>
    Keycode_init (K (label +:+ "(" +:+ Py.str layer +:+ ")") false [] [])).

(** [KEYCODES_LAYERS.extend(generate_keycodes_for_mask(label, ...))] *)
Definition extend_layers (layers : Z) (label : string) : M unit :=
  let! ks := generate_keycodes_for_mask layers label in
  modify (fun st => set_KEYCODES_LAYERS (KEYCODES_LAYERS st ++ ks) st).

(** [recreate_keyboard_keycodes] *)
Definition recreate_keyboard_keycodes (keyboard : keyboard) : M unit :=
  do! modify (set_protocol (vial_protocol keyboard)) in
  let layers := layers keyboard in
  do! modify (set_KEYCODES_LAYERS []) in
  do! (if (4 <=? layers)%Z
       then let! k13 := Keycode_init (K "FN_MO13" false [] []) in
            do! modify (fun st => set_KEYCODES_LAYERS (KEYCODES_LAYERS st ++ [k13]) st) in
            let! k23 := Keycode_init (K "FN_MO23" false [] []) in
            modify (fun st => set_KEYCODES_LAYERS (KEYCODES_LAYERS st ++ [k23]) st)
       else ret tt) in
  do! extend_layers layers "MO" in
  do! extend_layers layers "DF" in
  do! extend_layers layers "TG" in
  do! extend_layers layers "TT" in
  do! extend_layers layers "OSL" in
  do! extend_layers layers "TO" in
  do! for_each (Py.range (Z.min layers 16)) (fun x =>
        let! k := Keycode_init (K ("LT" +:+ Py.str x +:+ "(kc)") true [] []) in
        modify (fun st => set_KEYCODES_LAYERS (KEYCODES_LAYERS st ++ [k]) st)) in
  do! modify (set_KEYCODES_MACRO []) in
  do! for_each (Py.range (macro_count keyboard)) (fun x =>
        let! k := Keycode_init (K ("M" +:+ Py.str x) false [] []) in
        modify (fun st => set_KEYCODES_MACRO (KEYCODES_MACRO st ++ [k]) st)) in
  do! for_each KEYCODES_MACRO_BASE (fun kc =>
        modify (fun st => set_KEYCODES_MACRO (KEYCODES_MACRO st ++ [kc]) st)) in
  do! modify (set_KEYCODES_TAP_DANCE []) in
  do! for_each (Py.range (tap_dance_count keyboard)) (fun x =>
        let! k := Keycode_init (K ("TD(" +:+ Py.str x +:+ ")") false [] []) in
        modify (fun st => set_KEYCODES_TAP_DANCE (KEYCODES_TAP_DANCE st ++ [k]) st)) in
  do! match custom_keycodes keyboard with
      | Some (c :: cs) => create_custom_user_keycodes (c :: cs)
      | _ => create_user_keycodes
      end in
  do! create_midi_keycodes (midi keyboard) in
  recreate_keycodes.

(** The import of the module: the constructor calls of the tables, then
    the call of [recreate_keycodes] on its last line. *)
Definition import_module : M unit :=
  do! for_each static_src (fun a => do! Keycode_init a in ret tt) in
  recreate_keycodes.

(** The state a client of the module first sees. *)
Definition module_state : state := snd (import_module empty_state).

(** The states the registry goes through: the imported module, then any
    number of calls of [recreate_keyboard_keycodes]. *)
Inductive reachable : state -> Prop :=
  | reachable_import : reachable module_state
  | reachable_rebuild (kb : keyboard) (st : state) :
      reachable st -> reachable (snd (recreate_keyboard_keycodes kb st)).


(** ** Specification-level views of the rebuild *)

(** The key under which [recreate_keycodes] files a keycode. *)
Definition key_of (d : Keycode) : string := strip_kc (qmk_id d).

(** [KEYCODES_MAP] after filing the keycodes of [l] in order into [m]. *)
Definition keymap_of (l : list Keycode) (m : gmap string Keycode) : gmap string Keycode :=
  foldl (fun m d => <[key_of d := d]> m) m l.

(** The last keycode of [l] filed under [k]. *)
Definition last_keyed (k : string) (l : list Keycode) : option Keycode :=
  List.find (fun d => bool_decide (key_of d = k)) (rev l).

(** [RAWCODES_MAP] after filing the keycodes of [l] in order into [m],
    each under the value of its id in table [t]. *)
Definition rawmap_of (t : protocol_table) (l : list Keycode) (m : gmap Z Keycode) :
    gmap Z Keycode :=
  foldl (fun m d =>
    match kc t !! qmk_id d with
    | Some v => <[v := d]> m
    | None => m
    end) m l.

(** Each keycode of [l] is known to [deserialize] by its own id. *)
Definition known_ids (st : state) (l : list Keycode) : Prop :=
  forall d, d ∈ l ->
    exists k, qmk_id_to_keycode st !! qmk_id d = Some k /\ qmk_id k = qmk_id d.

(** What a constructor call without recorder aliases does to the class
    attributes when it returns. *)
Definition add_qmk (m : gmap string Keycode) (a : K_args) : gmap string Keycode :=
  <[k_qmk_id a := Keycode_of a]> m.

Definition add_masked (s : gset string) (a : K_args) : gset string :=
  if k_masked a then {[ strip_kc (k_qmk_id a) ]} ∪ s else s.

Definition init_pure (a : K_args) (st : state) : state :=
  set_masked_keycodes (add_masked (masked_keycodes st) a)
    (set_qmk_id_to_keycode (add_qmk (qmk_id_to_keycode st) a) st).

Definition init_all (l : list K_args) (st : state) : state :=
  foldl (fun st a => init_pure a st) st l.

(** A constructor call that cannot raise: no recorder alias, and a masked
    id ends in (kc). *)
Definition safe (a : K_args) : Prop :=
  k_recorder_alias a = [] /\ (k_masked a = true -> Py.endswith (k_qmk_id a) "(kc)" = true).

(** The constructor calls of one rebuild, by the list they feed. *)
Definition fn_src (kb : keyboard) : list K_args :=
  if (4 <=? layers kb)%Z then [K "FN_MO13" false [] []; K "FN_MO23" false [] []] else [].

Definition mask_src (kb : keyboard) (label : string) : list K_args :=
  map (fun layer => K (label +:+ "(" +:+ Py.str layer +:+ ")") false [] [])
    (Py.range (layers kb)).

Definition lt_src (kb : keyboard) : list K_args :=
  map (fun x => K ("LT" +:+ Py.str x +:+ "(kc)") true [] []) (Py.range (Z.min (layers kb) 16)).

Definition layers_src (kb : keyboard) : list K_args :=
  fn_src kb ++ mask_src kb "MO" ++ mask_src kb "DF" ++ mask_src kb "TG" ++
  mask_src kb "TT" ++ mask_src kb "OSL" ++ mask_src kb "TO" ++ lt_src kb.

Definition macro_src (kb : keyboard) : list K_args :=
  map (fun x => K ("M" +:+ Py.str x) false [] []) (Py.range (macro_count kb)).

Definition tap_dance_src (kb : keyboard) : list K_args :=
  map (fun x => K ("TD(" +:+ Py.str x +:+ ")") false [] []) (Py.range (tap_dance_count kb)).

Definition generic_user_src : list K_args :=
  map (fun x => K ("USER" +:+ Py.str02 x) false [] []) (Py.range 16).

Definition custom_user_src (custom : list custom_keycode) : list K_args :=
  map (fun '(x, c) =>
         K ("USER" +:+ Py.str02 x) false [] [default ("USER" +:+ Py.str02 x) (name c)])
    (zip (Py.range (Z.of_nat (length custom))) custom).

Definition user_src (kb : keyboard) : list K_args :=
  match custom_keycodes kb with
  | Some (c :: cs) => custom_user_src (c :: cs)
  | _ => generic_user_src
  end.

Definition midi_list (kb : keyboard) : list Keycode :=
  (if bool_decide (midi kb = Some "basic") || bool_decide (midi kb = Some "advanced")
   then KEYCODES_MIDI_BASIC else []) ++
  (if bool_decide (midi kb = Some "advanced") then KEYCODES_MIDI_ADVANCED else []).

Definition dyn_src (kb : keyboard) : list K_args :=
  layers_src kb ++ macro_src kb ++ tap_dance_src kb ++ user_src kb.

(** The state in which [recreate_keyboard_keycodes] calls
    [recreate_keycodes]. *)
Definition prepared (kb : keyboard) (st : state) : state :=
  mkState (foldl add_masked (masked_keycodes st) (dyn_src kb))
    (recorder_alias_to_keycode st)
    (foldl add_qmk (qmk_id_to_keycode st) (dyn_src kb))
    (vial_protocol kb)
    (map Keycode_of (layers_src kb))
    (map Keycode_of (tap_dance_src kb))
    (map Keycode_of (user_src kb))
    (map Keycode_of (macro_src kb) ++ KEYCODES_MACRO_BASE)
    (midi_list kb)
    (KEYCODES st) (KEYCODES_MAP st) (RAWCODES_MAP st).

(** The list [recreate_keycodes] files, read off a state. *)
Definition all_keycodes (st : state) : list Keycode :=
  KEYCODES_SPECIAL ++ KEYCODES_BASIC ++ KEYCODES_SHIFTED ++ KEYCODES_ISO ++
  KEYCODES_LAYERS st ++ KEYCODES_BOOT ++ KEYCODES_MODIFIERS ++ KEYCODES_QUANTUM ++
  KEYCODES_BACKLIGHT ++ KEYCODES_MEDIA ++ KEYCODES_TAP_DANCE st ++ KEYCODES_MACRO st ++
  KEYCODES_USER st ++ KEYCODES_HIDDEN ++ KEYCODES_MIDI st.

(** [recreate_keycodes] up to its loop. *)
Definition cleared (st : state) : state :=
  set_RAWCODES_MAP ∅ (set_KEYCODES_MAP ∅ (set_KEYCODES (all_keycodes st) st)).

(** The registry right after a rebuild that returned: the import, or a
    call of [recreate_keyboard_keycodes] in a reachable state. *)
Inductive rebuilt : state -> Prop :=
  | rebuilt_import :
      fst (import_module empty_state) = Return tt -> rebuilt module_state
  | rebuilt_keyboard (kb : keyboard) (st : state) :
      reachable st ->
      fst (recreate_keyboard_keycodes kb st) = Return tt ->
      rebuilt (snd (recreate_keyboard_keycodes kb st)).

(** The prefixes of the masked keycodes on file. *)
Definition registered_masked_prefixes (st : state) : gset string :=
  list_to_set (map key_of (filter (fun d => masked d = true) (KEYCODES st))).

(** Every keycode the import constructs. *)
Definition static_keycodes : list Keycode := map Keycode_of static_src.

(** The layer-tap keycodes a rebuild can construct. *)
Definition lt_keycodes : list Keycode :=
  map (fun x => Keycode_of (K ("LT" +:+ Py.str x +:+ "(kc)") true [] [])) (Py.range 16).

(** A character a formatted integer can start with. *)
Definition is_dec_char (c : ascii) : bool :=
  Py.contains c "0123456789-".

(** [s] starts with [p]. *)
Fixpoint starts_with (p s : string) : bool :=
  match p, s with
  | EmptyString, _ => true
  | String a p', String b s' => Ascii.eqb a b && starts_with p' s'
  | String _ _, EmptyString => false
  end.

(** The shapes of the ids that a rebuild constructs besides layer-tap:
    they tell these ids from the ids of the masked keycodes. *)
Definition dyn_family (s : string) : bool :=
  existsb (fun p => starts_with p s)
    ["FN_MO"; "MO("; "DF("; "TG("; "TT("; "OSL("; "TO("; "TD("; "USER"] ||
  match s with
  | String "M" (String c _) => is_dec_char c
  | _ => false
  end.

(** What holds of the class attributes in every reachable state: an
    entry of [qmk_id_to_keycode] carries its own id, and the keycodes of
    the static tables are entered, the masked ones with their prefix. *)
Definition attributes_ok (st : state) : Prop :=
  (forall id k, qmk_id_to_keycode st !! id = Some k -> qmk_id k = id) /\
  (forall d, d ∈ static_keycodes -> is_Some (qmk_id_to_keycode st !! qmk_id d)) /\
  (forall d, d ∈ static_keycodes -> masked d = true -> key_of d ∈ masked_keycodes st).

(** The states in which [recreate_keycodes] is called. *)
Inductive rebuild_input : state -> Prop :=
  | input_import : rebuild_input static_state
  | input_keyboard (kb : keyboard) (st : state) :
      reachable st -> rebuild_input (prepared kb st).

(** The keycodes a rebuild takes from fixed tables or builds from a
    number below 16, and the masked ones among them. *)
Definition keycode_pool : list Keycode := static_keycodes ++ lt_keycodes.

Definition masked_pool : list Keycode := filter (fun d => masked d = true) keycode_pool.

(** The static tables [recreate_keycodes] files, one after the other. *)
Definition static_lists : list Keycode :=
  KEYCODES_SPECIAL ++ KEYCODES_BASIC ++ KEYCODES_SHIFTED ++ KEYCODES_ISO ++
  KEYCODES_BOOT ++ KEYCODES_MODIFIERS ++ KEYCODES_QUANTUM ++ KEYCODES_BACKLIGHT ++
  KEYCODES_MEDIA ++ KEYCODES_MACRO_BASE ++ KEYCODES_HIDDEN ++ KEYCODES_MIDI_BASIC ++
  KEYCODES_MIDI_ADVANCED.

(** What the lookups by stripped id need of a masked keycode [c] of the
    pool: its id is its prefix followed by (kc), the prefix has no
    parenthesis, neither is the placeholder kc or of a generated shape,
    and in the pool only [c] is filed under its prefix and nothing under
    its id. *)
Definition masked_entry_ok (c : Keycode) : bool :=
  String.eqb (qmk_id c) (key_of c +:+ "(kc)") &&
  negb (Py.contains "(" (key_of c)) &&
  negb (String.eqb (key_of c) "kc") && negb (String.eqb (qmk_id c) "kc") &&
  negb (dyn_family (key_of c)) && negb (dyn_family (qmk_id c)) &&
  forallb (fun d =>
    (if String.eqb (key_of d) (key_of c) then bool_decide (d = c) else true) &&
    negb (String.eqb (key_of d) (qmk_id c))) keycode_pool.

(** The id of the hidden tap-dance keycode [n]. *)
Definition TD_id (n : Z) : string := "TD(" +:+ Py.str n +:+ ")".

(** The three lists [create_midi_keycodes] can leave, and the empty one
    of the import. *)
Definition midi_lists : list (list Keycode) :=
  [[]; KEYCODES_MIDI_BASIC; KEYCODES_MIDI_BASIC ++ KEYCODES_MIDI_ADVANCED].

(** The two maps hold what filing the list [KEYCODES] in order leaves,
    and every keycode of the list is known by its id and resolves. *)
Definition filed (st : state) (t : protocol_table) : Prop :=
  KEYCODES_MAP st = keymap_of (KEYCODES st) ∅ /\
  RAWCODES_MAP st = rawmap_of t (KEYCODES st) ∅ /\
  Forall (fun d => is_Some (kc t !! qmk_id d)) (KEYCODES st) /\
  known_ids st (KEYCODES st).

(** A keycode of the pool, its prefix entered if it is masked, or a plain
    keycode of a generated shape. *)
Definition classified (st : state) (d : Keycode) : Prop :=
  (d ∈ keycode_pool /\ (masked d = true -> key_of d ∈ masked_keycodes st)) \/
  (masked d = false /\ dyn_family (key_of d) = true).

(** ** Further views, for the constructor and the lookups *)

(** The loop of the constructor over [recorder_alias], for the object
    [self]. *)
Definition claim_aliases (self : Keycode) (l : list string) : M unit :=
  for_each l (fun al =>
    let! st := get in
    match recorder_alias_to_keycode st !! al with
    | Some _ =>
        raise (RuntimeError ("Misconfigured: two keycodes claim the same alias " +:+ al))
    | None =>
        modify (fun st =>
          set_recorder_alias_to_keycode (<[al := self]> (recorder_alias_to_keycode st)) st)
    end).

(** [recorder_alias_to_keycode] once the aliases of [l] are entered. *)
Definition with_aliases (self : Keycode) (l : list string) (m : gmap string Keycode) :
    gmap string Keycode :=
  foldl (fun m al => <[al := self]> m) m l.

(** The recorder aliases are distinct and none is taken. *)
Definition aliases_free (st : state) (l : list string) : Prop :=
  NoDup l /\ forall al, al ∈ l -> recorder_alias_to_keycode st !! al = None.

(** The labels of the layer actions and of tap dance. *)
Definition action_labels : list string := ["MO"; "DF"; "TG"; "TT"; "OSL"; "TO"; "TD"].

(** The prefixes [masked_keycodes] can hold. *)
Definition pool_prefixes : list string := map key_of masked_pool.

(** What [is_mask] reads of an id: nothing when it has no parenthesis,
    else what stands before the first one. *)
Definition mask_prefix (id : string) : option string :=
  if Py.contains "(" id then Some (Py.slice_to id (Py.find "(" id)) else None.

(** A plain keycode of the pool is not taken for a mask, and its id has
    no (kc) to strip and is not empty. *)
Definition plain_entry_ok (c : Keycode) : bool :=
  match mask_prefix (qmk_id c) with
  | Some p => negb (bool_decide (p ∈ pool_prefixes))
  | None => true
  end &&
  String.eqb (key_of c) (qmk_id c).

(** [AnyKeycodeDialog.on_change] for the text of the entry field:
    [deserialize] is called first, also for an empty text; an error
    whose text is empty is not taken for an error by [elif err]. *)
Definition on_change (st : state) (text : string) : AnyKeycodeDialog.t :=
  let '(value, err) :=
    match deserialize st (VStr text) true with
    | Return v => (Some v, None)
    | Raise e => (None, Some (exn_str e))
    end in
  let '(self_value, lbl) :=
    if String.eqb text "" then ("", AnyKeycodeDialog.EnterExpression)
    else match err with
         | Some (String c s) => ("", AnyKeycodeDialog.InvalidInputError (String c s))
         | _ =>
             match value with
             | Some v => (serialize st v, AnyKeycodeDialog.ComputedValue v)
             | None => ("", AnyKeycodeDialog.InvalidInput)
             end
         end in
  AnyKeycodeDialog.mk self_value lbl (negb (String.eqb self_value "")).

(** The keycodes a rebuild can file besides the MIDI ones and the plain
    ones it builds. *)
Definition nonmidi_pool : list Keycode :=
  KEYCODES_SPECIAL ++ KEYCODES_BASIC ++ KEYCODES_SHIFTED ++ KEYCODES_ISO ++
  KEYCODES_BOOT ++ KEYCODES_MODIFIERS ++ KEYCODES_QUANTUM ++ KEYCODES_BACKLIGHT ++
  KEYCODES_MEDIA ++ KEYCODES_MACRO_BASE ++ KEYCODES_HIDDEN ++ lt_keycodes.

(** The id of [d] is its own key, is not of a generated shape, and is
    the key of none of [others]. *)
Definition own_key_only (others : list Keycode) (d : Keycode) : bool :=
  String.eqb (key_of d) (qmk_id d) &&
  negb (String.eqb (qmk_id d) "kc") &&
  negb (dyn_family (qmk_id d)) &&
  forallb (fun d' => negb (String.eqb (key_of d') (qmk_id d))) others.

(** * Properties *)

(** Let [simpl] compute the concatenation of a literal with a string. *)
#[local] Arguments String.append !_ _ / : simpl nomatch.

(** ** The monad and the loops *)

Ltac unfold_setters :=
  unfold modify, ret, set_masked_keycodes, set_recorder_alias_to_keycode,
    set_qmk_id_to_keycode, set_protocol, set_KEYCODES_LAYERS, set_KEYCODES_TAP_DANCE,
    set_KEYCODES_USER, set_KEYCODES_MACRO, set_KEYCODES_MIDI, set_KEYCODES,
    set_KEYCODES_MAP, set_RAWCODES_MAP in *.

Lemma bind_run {A B} (c : M A) (k : A -> M B) st a st' :
  c st = (Return a, st') -> bind c k st = k a st'.
Proof. unfold bind. intros ->. reflexivity. Qed.

Lemma bind_raise {A B} (c : M A) (k : A -> M B) st e st' :
  c st = (Raise e, st') -> bind c k st = (Raise e, st').
Proof. unfold bind. intros ->. reflexivity. Qed.

Lemma for_each_ext {A} (f g : A -> M unit) l st :
  (forall x st, f x st = g x st) -> for_each l f st = for_each l g st.
Proof.
  intros Hfg. revert st. induction l as [|x l IH]; intros st; [reflexivity|].
  cbn [for_each]. unfold bind. rewrite Hfg.
  destruct (g x st) as [[[]|e] st']; [apply IH | reflexivity].
Qed.

Lemma for_each_app {A} (f : A -> M unit) l1 l2 st :
  for_each (l1 ++ l2) f st =
  match for_each l1 f st with
  | (Return _, st') => for_each l2 f st'
  | (Raise e, st') => (Raise e, st')
  end.
Proof.
  revert st. induction l1 as [|x l1 IH]; intros st; [reflexivity|].
  cbn [for_each app]. unfold bind.
  destruct (f x st) as [[[]|e] st']; [apply IH | reflexivity].
Qed.

(** Reduce the field reads of a state written out field by field. *)
Ltac cbn_fields :=
  cbn [masked_keycodes recorder_alias_to_keycode qmk_id_to_keycode protocol
       KEYCODES_LAYERS KEYCODES_TAP_DANCE KEYCODES_USER KEYCODES_MACRO KEYCODES_MIDI
       KEYCODES KEYCODES_MAP RAWCODES_MAP] in *.

(** ** The constructor *)

Lemma set_masked_keycodes_same st : set_masked_keycodes (masked_keycodes st) st = st.
Proof. destruct st; reflexivity. Qed.

Lemma Keycode_init_safe a st :
  safe a -> Keycode_init a st = (Return (Keycode_of a), init_pure a st).
Proof.
  intros [Hr Hm]. unfold Keycode_init, init_pure, add_masked, bind, modify, ret.
  rewrite Hr. cbn [for_each ret].
  destruct (k_masked a).
  - rewrite Hm by reflexivity. reflexivity.
  - destruct st; reflexivity.
Qed.

Lemma init_all_app l1 l2 st : init_all (l1 ++ l2) st = init_all l2 (init_all l1 st).
Proof. unfold init_all. apply foldl_app. Qed.

(** The constructor calls touch two class attributes only. *)
Lemma init_all_fields l st :
  init_all l st =
  mkState (foldl add_masked (masked_keycodes st) l) (recorder_alias_to_keycode st)
    (foldl add_qmk (qmk_id_to_keycode st) l) (protocol st) (KEYCODES_LAYERS st)
    (KEYCODES_TAP_DANCE st) (KEYCODES_USER st) (KEYCODES_MACRO st) (KEYCODES_MIDI st)
    (KEYCODES st) (KEYCODES_MAP st) (RAWCODES_MAP st).
Proof.
  revert st. induction l as [|a l IH]; intros st; [destruct st; reflexivity|].
  cbn [init_all foldl]. change (foldl (fun st a => init_pure a st) (init_pure a st) l)
    with (init_all l (init_pure a st)).
  rewrite IH. destruct st; reflexivity.
Qed.

Lemma collect_init {A} (mk : A -> K_args) l st :
  Forall (fun x => safe (mk x)) l ->
  collect l (fun x => Keycode_init (mk x)) st =
  (Return (map (fun x => Keycode_of (mk x)) l), init_all (map mk l) st).
Proof.
  intros HF. revert st. induction HF as [|x l Hx HF IH]; intros st; [reflexivity|].
  cbn [collect]. rewrite (bind_run _ _ _ _ _ (Keycode_init_safe _ st Hx)).
  rewrite (bind_run _ _ _ _ _ (IH _)). reflexivity.
Qed.

Section AppendLoop.

(** One of the module lists, read and assigned. *)
Variable getL : state -> list Keycode.
Variable setL : list Keycode -> state -> state.
Hypothesis get_set : forall v st, getL (setL v st) = v.
Hypothesis set_get : forall st, setL (getL st) st = st.
Hypothesis set_set : forall v w st, setL v (setL w st) = setL v st.
Hypothesis get_init : forall a st, getL (init_pure a st) = getL st.
Hypothesis set_init : forall a v st, setL v (init_pure a st) = init_pure a (setL v st).

Lemma set_init_all l v st : setL v (init_all l st) = init_all l (setL v st).
Proof.
  revert st. induction l as [|a l IH]; intros st; [reflexivity|].
  cbn [init_all foldl]. change (foldl (fun st a => init_pure a st) ?s l) with (init_all l s).
  rewrite IH, set_init. reflexivity.
Qed.

(** [for x in l: L.append(Keycode(...))] *)
Lemma append_loop {A} (mk : A -> K_args) l st :
  Forall (fun x => safe (mk x)) l ->
  for_each l (fun x =>
    let! k := Keycode_init (mk x) in
    modify (fun st => setL (getL st ++ [k]) st)) st =
  (Return tt,
   setL (getL st ++ map (fun x => Keycode_of (mk x)) l) (init_all (map mk l) st)).
Proof.
  intros HF. revert st. induction HF as [|x l Hx HF IH]; intros st.
  - cbn. rewrite app_nil_r, set_get. reflexivity.
  - cbn [for_each].
    erewrite bind_run; cycle 1.
    { erewrite bind_run by (apply Keycode_init_safe, Hx). reflexivity. }
    rewrite IH. f_equal.
    rewrite get_set, get_init, <- set_init_all, set_set.
    cbn [map init_all foldl]. rewrite <- app_assoc. reflexivity.
Qed.

End AppendLoop.

Lemma endswith_app s suffix : Py.endswith (s +:+ suffix) suffix = true.
Proof.
  induction s as [|c s IH]; cbn [String.append].
  - destruct suffix; cbn [Py.endswith]; rewrite String.eqb_refl; reflexivity.
  - cbn [Py.endswith]. rewrite IH. apply orb_true_r.
Qed.

Lemma safe_plain id al : safe (K id false [] al).
Proof. split; [reflexivity | discriminate]. Qed.

Lemma safe_masked s : safe (K (s +:+ "(kc)") true [] []).
Proof. split; [reflexivity | intros _; apply endswith_app]. Qed.

Lemma safe_lt x : safe (K ("LT" +:+ Py.str x +:+ "(kc)") true [] []).
Proof. apply (safe_masked ("LT" +:+ Py.str x)). Qed.

Lemma Forall_safe_map {A} (mk : A -> K_args) l :
  (forall x, safe (mk x)) -> Forall (fun x => safe (mk x)) l.
Proof. intros H. apply Forall_forall. intros x _. apply H. Qed.

(** ** [recreate_keyboard_keycodes] up to the call of [recreate_keycodes] *)

Lemma extend_layers_run n label st :
  extend_layers n label st =
  (Return tt,
   set_KEYCODES_LAYERS
     (KEYCODES_LAYERS st ++
      map (fun layer => Keycode_of (K (label +:+ "(" +:+ Py.str layer +:+ ")") false [] []))
        (Py.range n))
     (init_all
        (map (fun layer => K (label +:+ "(" +:+ Py.str layer +:+ ")") false [] [])
           (Py.range n)) st)).
Proof.
  unfold extend_layers, generate_keycodes_for_mask.
  erewrite bind_run by (apply collect_init, Forall_safe_map; intros; apply safe_plain).
  unfold modify. rewrite !init_all_fields. reflexivity.
Qed.

Lemma lt_loop_run n st :
  for_each (Py.range n) (fun x =>
    let! k := Keycode_init (K ("LT" +:+ Py.str x +:+ "(kc)") true [] []) in
    modify (fun st => set_KEYCODES_LAYERS (KEYCODES_LAYERS st ++ [k]) st)) st =
  (Return tt,
   set_KEYCODES_LAYERS
     (KEYCODES_LAYERS st ++
      map (fun x => Keycode_of (K ("LT" +:+ Py.str x +:+ "(kc)") true [] [])) (Py.range n))
     (init_all (map (fun x => K ("LT" +:+ Py.str x +:+ "(kc)") true [] []) (Py.range n)) st)).
Proof.
  apply (append_loop KEYCODES_LAYERS set_KEYCODES_LAYERS);
    try (intros; repeat match goal with s : state |- _ => destruct s end; reflexivity).
  apply Forall_safe_map. intros; apply safe_lt.
Qed.

Lemma macro_loop_run n st :
  for_each (Py.range n) (fun x =>
    let! k := Keycode_init (K ("M" +:+ Py.str x) false [] []) in
    modify (fun st => set_KEYCODES_MACRO (KEYCODES_MACRO st ++ [k]) st)) st =
  (Return tt,
   set_KEYCODES_MACRO
     (KEYCODES_MACRO st ++ map (fun x => Keycode_of (K ("M" +:+ Py.str x) false [] [])) (Py.range n))
     (init_all (map (fun x => K ("M" +:+ Py.str x) false [] []) (Py.range n)) st)).
Proof.
  apply (append_loop KEYCODES_MACRO set_KEYCODES_MACRO);
    try (intros; repeat match goal with s : state |- _ => destruct s end; reflexivity).
  apply Forall_safe_map. intros; apply safe_plain.
Qed.

Lemma macro_base_loop_run l st :
  for_each l (fun kc =>
    modify (fun st => set_KEYCODES_MACRO (KEYCODES_MACRO st ++ [kc]) st)) st =
  (Return tt, set_KEYCODES_MACRO (KEYCODES_MACRO st ++ l) st).
Proof.
  revert st. induction l as [|d l IH]; intros st.
  - cbn. rewrite app_nil_r. destruct st; reflexivity.
  - cbn [for_each]. erewrite bind_run by reflexivity. rewrite IH. f_equal.
    destruct st; cbn. rewrite <- app_assoc. reflexivity.
Qed.

Lemma tap_dance_loop_run n st :
  for_each (Py.range n) (fun x =>
    let! k := Keycode_init (K ("TD(" +:+ Py.str x +:+ ")") false [] []) in
    modify (fun st => set_KEYCODES_TAP_DANCE (KEYCODES_TAP_DANCE st ++ [k]) st)) st =
  (Return tt,
   set_KEYCODES_TAP_DANCE
     (KEYCODES_TAP_DANCE st ++
      map (fun x => Keycode_of (K ("TD(" +:+ Py.str x +:+ ")") false [] [])) (Py.range n))
     (init_all (map (fun x => K ("TD(" +:+ Py.str x +:+ ")") false [] []) (Py.range n)) st)).
Proof.
  apply (append_loop KEYCODES_TAP_DANCE set_KEYCODES_TAP_DANCE);
    try (intros; repeat match goal with s : state |- _ => destruct s end; reflexivity).
  apply Forall_safe_map. intros; apply safe_plain.
Qed.

Lemma create_user_keycodes_run st :
  create_user_keycodes st =
  (Return tt,
   set_KEYCODES_USER (map Keycode_of generic_user_src) (init_all generic_user_src st)).
Proof.
  unfold create_user_keycodes. erewrite bind_run by reflexivity.
  rewrite (append_loop KEYCODES_USER set_KEYCODES_USER);
    try (intros; repeat match goal with s : state |- _ => destruct s end; reflexivity).
  apply Forall_safe_map. intros; apply safe_plain.
Qed.

Lemma create_custom_user_keycodes_run custom st :
  create_custom_user_keycodes custom st =
  (Return tt,
   set_KEYCODES_USER (map Keycode_of (custom_user_src custom))
     (init_all (custom_user_src custom) st)).
Proof.
  unfold create_custom_user_keycodes. erewrite bind_run by reflexivity.
  erewrite for_each_ext; cycle 1.
  { intros [x c] s.
    instantiate (1 := fun p =>
      let! k := Keycode_init
        ((fun '(x, c) =>
            K ("USER" +:+ Py.str02 x) false []
              [default ("USER" +:+ Py.str02 x) (name c)]) p) in
      modify (fun st => set_KEYCODES_USER (KEYCODES_USER st ++ [k]) st)).
    reflexivity. }
  rewrite (append_loop KEYCODES_USER set_KEYCODES_USER);
    try (intros; repeat match goal with s : state |- _ => destruct s end; reflexivity).
  - unfold custom_user_src. rewrite !init_all_fields, map_map. reflexivity.
  - apply Forall_safe_map. intros [x c]; apply safe_plain.
Qed.

Lemma create_midi_keycodes_run level st :
  create_midi_keycodes level st =
  (Return tt,
   set_KEYCODES_MIDI
     ((if bool_decide (level = Some "basic") || bool_decide (level = Some "advanced")
       then KEYCODES_MIDI_BASIC else []) ++
      (if bool_decide (level = Some "advanced") then KEYCODES_MIDI_ADVANCED else [])) st).
Proof.
  unfold create_midi_keycodes. erewrite bind_run by reflexivity.
  destruct (bool_decide (level = Some "basic") || bool_decide (level = Some "advanced"));
    destruct (bool_decide (level = Some "advanced"));
    unfold bind, modify, ret; cbn [set_KEYCODES_MIDI]; f_equal;
    destruct st; cbn; rewrite ?app_nil_r; reflexivity.
Qed.

(** The static lists stay folded while the rebuild is unfolded. *)
#[local] Opaque KEYCODES_SPECIAL KEYCODES_BASIC KEYCODES_SHIFTED KEYCODES_ISO KEYCODES_BOOT
  KEYCODES_MODIFIERS KEYCODES_QUANTUM KEYCODES_BACKLIGHT KEYCODES_MEDIA KEYCODES_HIDDEN
  KEYCODES_MACRO_BASE KEYCODES_MIDI_BASIC KEYCODES_MIDI_ADVANCED.


(** Assignments and constructor calls on a state written out field by
    field.  Rewriting with these from the inside out keeps the states
    small: unfolding an assignment around a state that is not written out
    copies that state into every field. *)
Lemma set_masked_keycodes_mk v m r q p ll lt lu lm li lk km rm :
  set_masked_keycodes v (mkState m r q p ll lt lu lm li lk km rm) = mkState v r q p ll lt lu lm li lk km rm.
Proof. reflexivity. Qed.

Lemma set_recorder_alias_to_keycode_mk v m r q p ll lt lu lm li lk km rm :
  set_recorder_alias_to_keycode v (mkState m r q p ll lt lu lm li lk km rm) = mkState m v q p ll lt lu lm li lk km rm.
Proof. reflexivity. Qed.

Lemma set_qmk_id_to_keycode_mk v m r q p ll lt lu lm li lk km rm :
  set_qmk_id_to_keycode v (mkState m r q p ll lt lu lm li lk km rm) = mkState m r v p ll lt lu lm li lk km rm.
Proof. reflexivity. Qed.

Lemma set_protocol_mk v m r q p ll lt lu lm li lk km rm :
  set_protocol v (mkState m r q p ll lt lu lm li lk km rm) = mkState m r q v ll lt lu lm li lk km rm.
Proof. reflexivity. Qed.

Lemma set_KEYCODES_LAYERS_mk v m r q p ll lt lu lm li lk km rm :
  set_KEYCODES_LAYERS v (mkState m r q p ll lt lu lm li lk km rm) = mkState m r q p v lt lu lm li lk km rm.
Proof. reflexivity. Qed.

Lemma set_KEYCODES_TAP_DANCE_mk v m r q p ll lt lu lm li lk km rm :
  set_KEYCODES_TAP_DANCE v (mkState m r q p ll lt lu lm li lk km rm) = mkState m r q p ll v lu lm li lk km rm.
Proof. reflexivity. Qed.

Lemma set_KEYCODES_USER_mk v m r q p ll lt lu lm li lk km rm :
  set_KEYCODES_USER v (mkState m r q p ll lt lu lm li lk km rm) = mkState m r q p ll lt v lm li lk km rm.
Proof. reflexivity. Qed.

Lemma set_KEYCODES_MACRO_mk v m r q p ll lt lu lm li lk km rm :
  set_KEYCODES_MACRO v (mkState m r q p ll lt lu lm li lk km rm) = mkState m r q p ll lt lu v li lk km rm.
Proof. reflexivity. Qed.

Lemma set_KEYCODES_MIDI_mk v m r q p ll lt lu lm li lk km rm :
  set_KEYCODES_MIDI v (mkState m r q p ll lt lu lm li lk km rm) = mkState m r q p ll lt lu lm v lk km rm.
Proof. reflexivity. Qed.

Lemma set_KEYCODES_mk v m r q p ll lt lu lm li lk km rm :
  set_KEYCODES v (mkState m r q p ll lt lu lm li lk km rm) = mkState m r q p ll lt lu lm li v km rm.
Proof. reflexivity. Qed.

Lemma set_KEYCODES_MAP_mk v m r q p ll lt lu lm li lk km rm :
  set_KEYCODES_MAP v (mkState m r q p ll lt lu lm li lk km rm) = mkState m r q p ll lt lu lm li lk v rm.
Proof. reflexivity. Qed.

Lemma set_RAWCODES_MAP_mk v m r q p ll lt lu lm li lk km rm :
  set_RAWCODES_MAP v (mkState m r q p ll lt lu lm li lk km rm) = mkState m r q p ll lt lu lm li lk km v.
Proof. reflexivity. Qed.

Lemma init_all_mk l m r q p ll lt lu lm li lk km rm :
  init_all l (mkState m r q p ll lt lu lm li lk km rm) =
  mkState (foldl add_masked m l) r (foldl add_qmk q l) p ll lt lu lm li lk km rm.
Proof. apply init_all_fields. Qed.

Ltac norm_state :=
  repeat (progress (rewrite ?init_all_mk, ?set_masked_keycodes_mk, ?set_recorder_alias_to_keycode_mk, ?set_qmk_id_to_keycode_mk, ?set_protocol_mk, ?set_KEYCODES_LAYERS_mk, ?set_KEYCODES_TAP_DANCE_mk, ?set_KEYCODES_USER_mk, ?set_KEYCODES_MACRO_mk, ?set_KEYCODES_MIDI_mk, ?set_KEYCODES_mk, ?set_KEYCODES_MAP_mk, ?set_RAWCODES_MAP_mk; cbn_fields)).

Lemma fn_block_run kb st :
  (if (4 <=? layers kb)%Z
   then let! k13 := Keycode_init (K "FN_MO13" false [] []) in
        do! modify (fun st => set_KEYCODES_LAYERS (KEYCODES_LAYERS st ++ [k13]) st) in
        let! k23 := Keycode_init (K "FN_MO23" false [] []) in
        modify (fun st => set_KEYCODES_LAYERS (KEYCODES_LAYERS st ++ [k23]) st)
   else ret tt) st =
  (Return tt,
   set_KEYCODES_LAYERS (KEYCODES_LAYERS st ++ map Keycode_of (fn_src kb))
     (init_all (fn_src kb) st)).
Proof.
  unfold fn_src. destruct st. destruct (4 <=? layers kb)%Z.
  - erewrite bind_run by (apply Keycode_init_safe, safe_plain).
    erewrite bind_run by reflexivity.
    erewrite bind_run by (apply Keycode_init_safe, safe_plain).
    unfold modify, init_pure. norm_state.
    cbn [map foldl]. rewrite <- app_assoc. reflexivity.
  - unfold ret. norm_state. cbn [map foldl]. rewrite app_nil_r. reflexivity.
Qed.

Lemma user_block_run kb st :
  match custom_keycodes kb with
  | Some (c :: cs) => create_custom_user_keycodes (c :: cs)
  | _ => create_user_keycodes
  end st =
  (Return tt, set_KEYCODES_USER (map Keycode_of (user_src kb)) (init_all (user_src kb) st)).
Proof.
  unfold user_src. destruct (custom_keycodes kb) as [[|c cs]|].
  - apply create_user_keycodes_run.
  - apply create_custom_user_keycodes_run.
  - apply create_user_keycodes_run.
Qed.

Ltac step_with lem := erewrite bind_run by apply lem; norm_state.

Theorem recreate_keyboard_keycodes_prepared kb st :
  recreate_keyboard_keycodes kb st = recreate_keycodes (prepared kb st).
Proof.
  unfold recreate_keyboard_keycodes. destruct st.
  erewrite bind_run by reflexivity. norm_state.
  erewrite bind_run by reflexivity. norm_state.
  step_with fn_block_run.
  do 6 (step_with extend_layers_run).
  step_with lt_loop_run.
  erewrite bind_run by reflexivity. norm_state.
  step_with macro_loop_run.
  step_with macro_base_loop_run.
  erewrite bind_run by reflexivity. norm_state.
  step_with tap_dance_loop_run.
  step_with user_block_run.
  step_with create_midi_keycodes_run.
  f_equal.
  unfold prepared, dyn_src, layers_src, mask_src, lt_src, macro_src, tap_dance_src, midi_list.
  cbn_fields. rewrite !foldl_app, !map_app, !map_map.
  cbn [app]. rewrite <- !app_assoc. reflexivity.
Qed.

(** ** [recreate_keycodes] *)

Lemma recreate_keycodes_cleared st :
  recreate_keycodes st = for_each (all_keycodes st) register (cleared st).
Proof. reflexivity. Qed.

Lemma list_find_app {A} (f : A -> bool) l1 l2 :
  List.find f (l1 ++ l2) =
  match List.find f l1 with Some x => Some x | None => List.find f l2 end.
Proof.
  induction l1 as [|x l1 IH]; [reflexivity|]. cbn [List.find app].
  destruct (f x); [reflexivity | exact IH].
Qed.

Lemma keymap_of_lookup l m k :
  keymap_of l m !! k = match last_keyed k l with Some d => Some d | None => m !! k end.
Proof.
  revert m. induction l as [|d l IH]; intros m; [reflexivity|].
  cbn [keymap_of foldl]. change (foldl _ ?m' l) with (keymap_of l m'). rewrite IH.
  unfold last_keyed. cbn [rev]. rewrite list_find_app.
  destruct (List.find _ (rev l)); [reflexivity|]. cbn [List.find].
  case_bool_decide as Hk.
  - rewrite Hk. apply lookup_insert_eq.
  - apply lookup_insert_ne, Hk.
Qed.

Lemma last_keyed_Some k l d : last_keyed k l = Some d -> d ∈ l /\ key_of d = k.
Proof.
  unfold last_keyed. intros H. apply find_some in H as [Hin Hk].
  apply bool_decide_eq_true in Hk. split; [|exact Hk].
  apply list_elem_of_In, in_rev, Hin.
Qed.

Lemma last_keyed_None k l : last_keyed k l = None -> forall d, d ∈ l -> key_of d <> k.
Proof.
  unfold last_keyed. intros H d Hd Hk.
  assert (Hf := find_none _ _ H d). cbv beta in Hf.
  rewrite bool_decide_eq_true_2 in Hf by exact Hk.
  enough (true = false) by discriminate. apply Hf.
  apply in_rev. rewrite rev_involutive. apply list_elem_of_In, Hd.
Qed.

Lemma last_keyed_is_Some l d : d ∈ l -> is_Some (last_keyed (key_of d) l).
Proof.
  intros Hd. destruct (last_keyed (key_of d) l) eqn:E; [eauto|].
  exfalso. exact (last_keyed_None _ _ E d Hd eq_refl).
Qed.

Lemma last_keyed_app k l1 l2 :
  last_keyed k (l1 ++ l2) =
  match last_keyed k l2 with Some d => Some d | None => last_keyed k l1 end.
Proof. unfold last_keyed. rewrite rev_app_distr, list_find_app. reflexivity. Qed.

Lemma rawmap_of_lookup t l m r d :
  rawmap_of t l m !! r = Some d ->
  m !! r = Some d \/ (d ∈ l /\ kc t !! qmk_id d = Some r).
Proof.
  revert m. induction l as [|x l IH]; intros m H; [left; exact H|].
  cbn [rawmap_of foldl] in H. change (foldl _ ?m' l) with (rawmap_of t l m') in H.
  apply IH in H as [H|[H1 H2]].
  - destruct (kc t !! qmk_id x) as [v|] eqn:E; [|left; exact H].
    destruct (decide (v = r)) as [->|Hne].
    + rewrite lookup_insert_eq in H. injection H as ->. right. split; [left|exact E].
    + rewrite lookup_insert_ne in H by exact Hne. left; exact H.
  - right. split; [right; exact H1 | exact H2].
Qed.

Lemma rawmap_of_is_Some t l m r d :
  d ∈ l -> kc t !! qmk_id d = Some r -> is_Some (rawmap_of t l m !! r).
Proof.
  revert m. induction l as [|x l IH]; intros m Hd Hr; [inversion Hd|].
  cbn [rawmap_of foldl]. change (foldl _ ?m' l) with (rawmap_of t l m').
  destruct (decide (d ∈ l)) as [Hin|Hnin]; [apply IH; assumption|].
  apply elem_of_cons in Hd as [->|Hd]; [|contradiction].
  rewrite Hr. clear IH Hnin.
  assert (Hkeep : forall l m, is_Some (m !! r) -> is_Some (rawmap_of t l m !! r)).
  { clear. intros l. induction l as [|y l IH]; intros m Hm; [exact Hm|].
    cbn [rawmap_of foldl]. change (foldl _ ?m' l) with (rawmap_of t l m').
    apply IH. destruct (kc t !! qmk_id y) as [v|]; [|exact Hm].
    destruct (decide (v = r)) as [->|Hne].
    - rewrite lookup_insert_eq. eauto.
    - rewrite lookup_insert_ne by exact Hne. exact Hm. }
  apply Hkeep. rewrite lookup_insert_eq. eauto.
Qed.

Lemma active_table_protocol st st' :
  protocol st = protocol st' -> active_table st = active_table st'.
Proof. unfold active_table. intros ->. reflexivity. Qed.

Lemma active_table_set_RAWCODES_MAP v st :
  active_table (set_RAWCODES_MAP v st) = active_table st.
Proof. destruct st; reflexivity. Qed.

Lemma active_table_set_KEYCODES_MAP v st :
  active_table (set_KEYCODES_MAP v st) = active_table st.
Proof. destruct st; reflexivity. Qed.

Lemma active_table_set_KEYCODES v st :
  active_table (set_KEYCODES v st) = active_table st.
Proof. destruct st; reflexivity. Qed.

Lemma resolve_active st id :
  resolve st id =
  match kc (active_table st) !! id with
  | None => Raise (RuntimeError ("unable to resolve qmk_id=" +:+ id))
  | Some v => Return v
  end.
Proof. reflexivity. Qed.

(** A keycode known by its id is deserialized by [resolve]. *)
Lemma deserialize_known st d reraise :
  known_ids st [d] ->
  deserialize st (VStr (qmk_id d)) reraise = resolve st (qmk_id d).
Proof.
  intros H. destruct (H d) as (k & Hk & Hid); [left|].
  unfold deserialize. rewrite Hk, Hid. reflexivity.
Qed.

(** The loop of [recreate_keycodes] when it returns. *)
Lemma register_loop_return l st st' :
  known_ids st l ->
  for_each l register st = (Return tt, st') ->
  st' = set_RAWCODES_MAP (rawmap_of (active_table st) l (RAWCODES_MAP st))
          (set_KEYCODES_MAP (keymap_of l (KEYCODES_MAP st)) st) /\
  Forall (fun d => is_Some (kc (active_table st) !! qmk_id d)) l.
Proof.
  revert st. induction l as [|d l IH]; intros st Hknown Hrun.
  - cbn in Hrun. injection Hrun as <-. split; [destruct st; reflexivity | constructor].
  - cbn [for_each] in Hrun. unfold bind in Hrun.
    destruct (register d st) as [[[]|e] st1] eqn:Hreg; [|discriminate].
    unfold register in Hreg.
    rewrite deserialize_known in Hreg; cycle 1.
    { intros d' Hd'. apply list_elem_of_singleton in Hd' as ->.
      destruct (Hknown d) as (k & Hk & Hid); [left|]. exists k. split; [|exact Hid].
      destruct st; exact Hk. }
    rewrite resolve_active, active_table_set_KEYCODES_MAP in Hreg.
    destruct (kc (active_table st) !! qmk_id d) as [v|] eqn:Hv; [|discriminate].
    injection Hreg as <-.
    apply IH in Hrun as [-> HF].
    + rewrite active_table_set_RAWCODES_MAP, active_table_set_KEYCODES_MAP in *. split.
      * cbn [rawmap_of keymap_of foldl]. rewrite Hv.
        generalize (active_table st). intros t.
        destruct st. norm_state. reflexivity.
      * constructor; [rewrite Hv; eauto | exact HF].
    + intros d' Hd'. destruct (Hknown d') as (k & Hk & Hid); [right; exact Hd'|].
      exists k. split; [|exact Hid]. destruct st; exact Hk.
Qed.

(** The loop leaves everything but the two maps as it was, whatever its
    outcome, and files the keys without regard to the values. *)
Lemma register_loop_frame l st :
  exists m r, snd (for_each l register st) = set_RAWCODES_MAP r (set_KEYCODES_MAP m st).
Proof.
  revert st. induction l as [|d l IH]; intros st.
  - exists (KEYCODES_MAP st), (RAWCODES_MAP st). destruct st; reflexivity.
  - cbn [for_each]. unfold bind.
    destruct (register d st) as [[[]|e] st1] eqn:Hreg; unfold register in Hreg.
    + destruct (IH st1) as (m & r & ->).
      destruct (deserialize _ _ _) as [v|e] in Hreg; [|discriminate].
      injection Hreg as <-. exists m, r. destruct st; reflexivity.
    + destruct (deserialize _ _ _) as [v|e'] in Hreg; [discriminate|].
      injection Hreg as <- <-.
      exists (<[strip_kc (qmk_id d):=d]> (KEYCODES_MAP st)), (RAWCODES_MAP st).
      destruct st; reflexivity.
Qed.

(** The loop returns as soon as every id resolves. *)
Lemma register_loop_total l st :
  known_ids st l ->
  Forall (fun d => is_Some (kc (active_table st) !! qmk_id d)) l ->
  fst (for_each l register st) = Return tt.
Proof.
  revert st. induction l as [|d l IH]; intros st Hknown HF; [reflexivity|].
  inversion HF as [|? ? [v Hv] HF']; subst.
  cbn [for_each]. unfold bind.
  assert (Hreg : register d st =
    (Return tt, set_RAWCODES_MAP (<[v:=d]> (RAWCODES_MAP
             (set_KEYCODES_MAP (<[strip_kc (qmk_id d):=d]> (KEYCODES_MAP st)) st)))
             (set_KEYCODES_MAP (<[strip_kc (qmk_id d):=d]> (KEYCODES_MAP st)) st))).
  { unfold register. rewrite deserialize_known; cycle 1.
    { intros d' Hd'. apply list_elem_of_singleton in Hd' as ->.
      destruct (Hknown d) as (k & Hk & Hid); [left|]. exists k. split; [|exact Hid].
      destruct st; exact Hk. }
    rewrite resolve_active, active_table_set_KEYCODES_MAP, Hv. reflexivity. }
  rewrite Hreg. apply IH.
  - intros d' Hd'. destruct (Hknown d') as (k & Hk & Hid); [right; exact Hd'|].
    exists k. split; [|exact Hid]. destruct st; exact Hk.
  - rewrite active_table_set_RAWCODES_MAP, active_table_set_KEYCODES_MAP. exact HF'.
Qed.

(** ** The class attributes under repeated constructor calls *)

Lemma foldl_add_qmk_lookup l m k :
  foldl add_qmk m l !! k =
  match List.find (fun a => bool_decide (k_qmk_id a = k)) (rev l) with
  | Some a => Some (Keycode_of a)
  | None => m !! k
  end.
Proof.
  revert m. induction l as [|a l IH]; intros m; [reflexivity|].
  cbn [foldl rev]. rewrite IH, list_find_app.
  destruct (List.find _ (rev l)); [reflexivity|]. cbn [List.find].
  unfold add_qmk. case_bool_decide as Hk.
  - rewrite Hk. apply lookup_insert_eq.
  - apply lookup_insert_ne, Hk.
Qed.

Lemma foldl_add_qmk_idem l m : foldl add_qmk (foldl add_qmk m l) l = foldl add_qmk m l.
Proof.
  apply map_eq. intros k. rewrite !foldl_add_qmk_lookup.
  destruct (List.find _ (rev l)); reflexivity.
Qed.

Lemma elem_of_foldl_add_masked l s x :
  x ∈ foldl add_masked s l <->
  x ∈ s \/ exists a, a ∈ l /\ k_masked a = true /\ strip_kc (k_qmk_id a) = x.
Proof.
  revert s. induction l as [|a l IH]; intros s; cbn [foldl].
  - split; [left; assumption|]. intros [H|(a & Ha & _)]; [exact H | inversion Ha].
  - rewrite IH. unfold add_masked at 1. split.
    + intros [H|(b & Hb & Hm & Hx)].
      * destruct (k_masked a) eqn:Ea; [|left; exact H].
        apply elem_of_union in H as [H|H]; [|left; exact H].
        apply elem_of_singleton in H. right. exists a. split; [left|]. split; congruence.
      * right. exists b. split; [right; exact Hb|]. split; assumption.
    + intros [H|(b & Hb & Hm & Hx)].
      * left. destruct (k_masked a); [apply elem_of_union; right|]; exact H.
      * apply elem_of_cons in Hb as [->|Hb].
        -- left. rewrite Hm. apply elem_of_union; left. apply elem_of_singleton. congruence.
        -- right. exists b. split; [exact Hb|]. split; assumption.
Qed.

Lemma foldl_add_masked_idem l s :
  foldl add_masked (foldl add_masked s l) l = foldl add_masked s l.
Proof.
  apply set_eq. intros x. rewrite !elem_of_foldl_add_masked. tauto.
Qed.

Lemma foldl_add_masked_subseteq l s : s ⊆ foldl add_masked s l.
Proof. intros x Hx. apply elem_of_foldl_add_masked. left; exact Hx. Qed.

(** ** A rebuild depends on the earlier state through the class
    attributes only *)

Lemma all_keycodes_prepared kb st :
  all_keycodes (prepared kb st) =
  KEYCODES_SPECIAL ++ KEYCODES_BASIC ++ KEYCODES_SHIFTED ++ KEYCODES_ISO ++
  map Keycode_of (layers_src kb) ++ KEYCODES_BOOT ++ KEYCODES_MODIFIERS ++
  KEYCODES_QUANTUM ++ KEYCODES_BACKLIGHT ++ KEYCODES_MEDIA ++
  map Keycode_of (tap_dance_src kb) ++ (map Keycode_of (macro_src kb) ++ KEYCODES_MACRO_BASE) ++
  map Keycode_of (user_src kb) ++ KEYCODES_HIDDEN ++ midi_list kb.
Proof. reflexivity. Qed.

Lemma cleared_prepared_again kb st m r :
  cleared (prepared kb (set_RAWCODES_MAP r (set_KEYCODES_MAP m (cleared (prepared kb st))))) =
  cleared (prepared kb st).
Proof.
  unfold cleared. rewrite !all_keycodes_prepared.
  generalize (KEYCODES_SPECIAL ++ KEYCODES_BASIC ++ KEYCODES_SHIFTED ++ KEYCODES_ISO ++
  map Keycode_of (layers_src kb) ++ KEYCODES_BOOT ++ KEYCODES_MODIFIERS ++
  KEYCODES_QUANTUM ++ KEYCODES_BACKLIGHT ++ KEYCODES_MEDIA ++
  map Keycode_of (tap_dance_src kb) ++ (map Keycode_of (macro_src kb) ++ KEYCODES_MACRO_BASE) ++
  map Keycode_of (user_src kb) ++ KEYCODES_HIDDEN ++ midi_list kb).
  intros all. unfold prepared. destruct st. norm_state.
  rewrite foldl_add_qmk_idem, foldl_add_masked_idem. reflexivity.
Qed.

Lemma recreate_keyboard_keycodes_loop kb st :
  recreate_keyboard_keycodes kb st =
  for_each (all_keycodes (prepared kb st)) register (cleared (prepared kb st)).
Proof. rewrite recreate_keyboard_keycodes_prepared. apply recreate_keycodes_cleared. Qed.

(** Running the rebuild again on its own result changes nothing: same
    outcome, same state. *)
Lemma rebuild_again kb st :
  recreate_keyboard_keycodes kb (snd (recreate_keyboard_keycodes kb st)) =
  recreate_keyboard_keycodes kb st.
Proof.
  rewrite (recreate_keyboard_keycodes_loop kb st).
  destruct (register_loop_frame (all_keycodes (prepared kb st)) (cleared (prepared kb st)))
    as (m & r & ->).
  rewrite recreate_keyboard_keycodes_loop, cleared_prepared_again.
  rewrite !all_keycodes_prepared. reflexivity.
Qed.

(** ** The static tables, by computation *)

Lemma static_import_returns :
  for_each static_src (fun a => do! Keycode_init a in ret tt) empty_state =
  (Return tt, static_state).
Proof.
  unfold static_state.
  destruct (for_each static_src _ empty_state) as [o s] eqn:E.
  assert (Ho : fst (for_each static_src (fun a => do! Keycode_init a in ret tt) empty_state)
               = Return tt) by (vm_compute; reflexivity).
  rewrite E in Ho. cbn in Ho. subst o. reflexivity.
Qed.

Lemma static_state_lists :
  KEYCODES_LAYERS static_state = [] /\ KEYCODES_TAP_DANCE static_state = [] /\
  KEYCODES_USER static_state = [] /\ KEYCODES_MACRO static_state = [] /\
  KEYCODES_MIDI static_state = [] /\ protocol static_state = 0%Z.
Proof. vm_compute. repeat split. Qed.

Lemma static_attributes_ok : attributes_ok static_state.
Proof.
  split; [|split].
  - assert (H : map_Forall (fun id k => qmk_id k = id) (qmk_id_to_keycode static_state)).
    { refine (bool_decide_eq_true_1 (map_Forall _ _) _). vm_compute. reflexivity. }
    intros id k Hk. exact (H id k Hk).
  - apply (proj1 (Forall_forall (fun d => is_Some (qmk_id_to_keycode static_state !! qmk_id d)) _)).
    refine (bool_decide_eq_true_1 (Forall _ _) _). vm_compute. reflexivity.
  - intros d Hd. revert d Hd.
    apply (proj1 (Forall_forall
      (fun d => masked d = true -> key_of d ∈ masked_keycodes static_state) _)).
    refine (bool_decide_eq_true_1 (Forall _ _) _). vm_compute. reflexivity.
Qed.

Lemma static_lists_static d : d ∈ static_lists -> d ∈ static_keycodes.
Proof.
  revert d. apply (proj1 (Forall_forall (fun d => d ∈ static_keycodes) _)).
  refine (bool_decide_eq_true_1 (Forall _ _) _). vm_compute. reflexivity.
Qed.

Lemma masked_pool_ok c : c ∈ masked_pool -> masked_entry_ok c = true.
Proof.
  revert c. apply (proj1 (Forall_forall (fun c => masked_entry_ok c = true) _)).
  refine (bool_decide_eq_true_1 (Forall _ _) _). vm_compute. reflexivity.
Qed.

Lemma pool_key_not_kc d : d ∈ keycode_pool -> key_of d <> "kc".
Proof.
  revert d. apply (proj1 (Forall_forall (fun d => key_of d <> "kc") _)).
  refine (bool_decide_eq_true_1 (Forall _ _) _). vm_compute. reflexivity.
Qed.

Lemma hidden_last_keyed midi n :
  midi ∈ midi_lists -> n ∈ Py.range 256 ->
  exists d, last_keyed (TD_id n) (KEYCODES_HIDDEN ++ midi) = Some d /\ qmk_id d = TD_id n.
Proof.
  intros Hm Hn.
  assert (H : forallb (fun midi => forallb (fun n =>
              match last_keyed (TD_id n) (KEYCODES_HIDDEN ++ midi) with
              | Some d => String.eqb (qmk_id d) (TD_id n)
              | None => false
              end) (Py.range 256)) midi_lists = true) by (vm_compute; reflexivity).
  rewrite forallb_forall in H. specialize (H midi (proj1 (list_elem_of_In _ _) Hm)).
  rewrite forallb_forall in H. specialize (H n (proj1 (list_elem_of_In _ _) Hn)).
  destruct (last_keyed (TD_id n) (KEYCODES_HIDDEN ++ midi)) as [d|]; [|discriminate].
  exists d. split; [reflexivity | apply String.eqb_eq, H].
Qed.

(** ** Ids built from a formatted number *)

Lemma str_head x : exists c r, Py.str x = String c r /\ is_dec_char c = true.
Proof.
  unfold Py.str. destruct (Z.to_int x) as [u|u].
  - destruct u; cbn; eauto.
  - cbn. eauto.
Qed.

Lemma is_dec_char_not c : is_dec_char c = true -> c <> "("%char /\ c <> "k"%char.
Proof. intros H; split; intros ->; vm_compute in H; discriminate. Qed.

Lemma strip_kc_cons c s :
  c <> "("%char -> strip_kc (String c s) = String c (Py.replace_go "(kc)" "" 0 s).
Proof.
  intros Hc. unfold strip_kc, Py.replace. cbn [Py.replace_go String.prefix].
  destruct (ascii_dec "(" c) as [E|_]; [congruence | reflexivity].
Qed.

Lemma replace_go_paren c s :
  c <> "k"%char ->
  Py.replace_go "(kc)" "" 0 (String "(" (String c s)) =
  String "(" (Py.replace_go "(kc)" "" 0 (String c s)).
Proof.
  intros Hc. cbn [Py.replace_go String.prefix].
  destruct (ascii_dec "(" "(") as [_|N]; [|congruence].
  destruct (ascii_dec "k" c) as [E|_]; [congruence | reflexivity].
Qed.

Lemma replace_go_cons c s :
  c <> "("%char ->
  Py.replace_go "(kc)" "" 0 (String c s) = String c (Py.replace_go "(kc)" "" 0 s).
Proof. apply strip_kc_cons. Qed.

(** The stripped id of a layer action: the label, the parenthesis, and
    what is left of the number. *)
Lemma mask_family label x :
  label ∈ ["MO"; "DF"; "TG"; "TT"; "OSL"; "TO"; "TD"] ->
  dyn_family (strip_kc (label +:+ "(" +:+ Py.str x +:+ ")")) = true.
Proof.
  intros Hl. destruct (str_head x) as (c & r & -> & Hc).
  apply is_dec_char_not in Hc as [_ Hk].
  repeat (apply elem_of_cons in Hl as [->|Hl]);
    try (cbn [String.append]; rewrite !strip_kc_cons by discriminate;
         rewrite ?replace_go_cons by discriminate;
         rewrite replace_go_paren by exact Hk; reflexivity).
  inversion Hl.
Qed.

Lemma macro_family x : dyn_family (strip_kc ("M" +:+ Py.str x)) = true.
Proof.
  destruct (str_head x) as (c & r & -> & Hc).
  pose proof (is_dec_char_not _ Hc) as [Hp _].
  cbn [String.append]. rewrite strip_kc_cons by discriminate.
  rewrite replace_go_cons by exact Hp.
  unfold dyn_family. rewrite Hc. apply orb_true_r.
Qed.

Lemma user_family s : dyn_family (strip_kc ("USER" +:+ s)) = true.
Proof.
  cbn [String.append]. rewrite strip_kc_cons by discriminate.
  rewrite !replace_go_cons by discriminate. reflexivity.
Qed.

(** [s[:s.find("(")]] is what stands before the first parenthesis. *)
Lemma find_from_app p rest i :
  Py.contains "(" p = false ->
  Py.find_from "(" (p +:+ String "(" rest) i = (i + Z.of_nat (String.length p))%Z.
Proof.
  revert i. induction p as [|c p IH]; intros i Hp; cbn [String.append Py.find_from String.length].
  - cbn. lia.
  - cbn [Py.contains] in Hp. apply orb_false_iff in Hp as [Hc Hp].
    rewrite Hc. rewrite IH by exact Hp. lia.
Qed.

Lemma substring_app_prefix p s : String.substring 0 (String.length p) (p +:+ s) = p.
Proof.
  induction p as [|c p IH]; cbn [String.append String.length String.substring].
  - destruct s; reflexivity.
  - rewrite IH. reflexivity.
Qed.

Lemma length_append p s : String.length (p +:+ s) = (String.length p + String.length s)%nat.
Proof. induction p as [|c p IH]; cbn [String.append String.length]; [reflexivity | lia]. Qed.

Lemma slice_to_paren p rest :
  Py.contains "(" p = false ->
  Py.slice_to (p +:+ String "(" rest) (Py.find "(" (p +:+ String "(" rest)) = p.
Proof.
  intros Hp. unfold Py.find. rewrite find_from_app by exact Hp.
  unfold Py.slice_to, Py.slice, Py.bound. rewrite length_append.
  cbn [String.length].
  replace (0 <? 0)%Z with false by reflexivity.
  destruct (Z.ltb_spec (0 + Z.of_nat (String.length p)) 0) as [Hlt|_]; [lia|].
  replace (Z.to_nat (Z.min (Z.of_nat (String.length p + S (String.length rest))) 0)) with 0%nat by lia.
  replace (Z.to_nat (Z.min (Z.of_nat (String.length p + S (String.length rest)))
             (0 + Z.of_nat (String.length p)))) with (String.length p) by lia.
  rewrite Nat.sub_0_r. apply substring_app_prefix.
Qed.

Lemma contains_paren p rest : Py.contains "(" (p +:+ String "(" rest) = true.
Proof.
  induction p as [|c p IH]; cbn [String.append Py.contains].
  - reflexivity.
  - rewrite IH. apply orb_true_r.
Qed.

(** ** What every rebuild leaves *)

Lemma loop_fields l X :
  masked_keycodes (snd (for_each l register (cleared X))) = masked_keycodes X /\
  qmk_id_to_keycode (snd (for_each l register (cleared X))) = qmk_id_to_keycode X /\
  protocol (snd (for_each l register (cleared X))) = protocol X /\
  KEYCODES (snd (for_each l register (cleared X))) = all_keycodes X /\
  KEYCODES_USER (snd (for_each l register (cleared X))) = KEYCODES_USER X.
Proof.
  destruct (register_loop_frame l (cleared X)) as (m & r & ->).
  destruct X; repeat split.
Qed.

Lemma import_module_loop :
  import_module empty_state =
  for_each (all_keycodes static_state) register (cleared static_state).
Proof.
  unfold import_module. erewrite bind_run by apply static_import_returns.
  apply recreate_keycodes_cleared.
Qed.

Lemma reachable_inv st :
  reachable st ->
  exists X, rebuild_input X /\ st = snd (for_each (all_keycodes X) register (cleared X)).
Proof.
  intros [|kb st0 H0].
  - exists static_state. split; [constructor|].
    unfold module_state. rewrite import_module_loop. reflexivity.
  - exists (prepared kb st0). split; [constructor; exact H0|].
    rewrite recreate_keyboard_keycodes_loop. reflexivity.
Qed.

Lemma rebuilt_inv st :
  rebuilt st ->
  exists X, rebuild_input X /\
    for_each (all_keycodes X) register (cleared X) = (Return tt, st).
Proof.
  intros [H|kb st0 H0 H].
  - exists static_state. split; [constructor|].
    unfold module_state. rewrite import_module_loop in *.
    destruct (for_each _ register _) as [o s]. cbn in *. subst o. reflexivity.
  - exists (prepared kb st0). split; [constructor; exact H0|].
    rewrite recreate_keyboard_keycodes_loop in *.
    destruct (for_each _ register _) as [o s]. cbn in *. subst o. reflexivity.
Qed.

Lemma rebuilt_reachable st : rebuilt st -> reachable st.
Proof. intros [H|kb st0 H0 H]; constructor; assumption. Qed.

Lemma attributes_ok_ext st st' :
  masked_keycodes st' = masked_keycodes st ->
  qmk_id_to_keycode st' = qmk_id_to_keycode st ->
  attributes_ok st -> attributes_ok st'.
Proof. unfold attributes_ok. intros -> ->. exact (fun H => H). Qed.

Lemma attributes_ok_prepared kb st : attributes_ok st -> attributes_ok (prepared kb st).
Proof.
  intros (H1 & H2 & H3). unfold attributes_ok, prepared; cbn_fields.
  split; [|split].
  - intros id k. rewrite foldl_add_qmk_lookup.
    destruct (List.find _ _) as [a|] eqn:Ef.
    + apply find_some in Ef as [_ Ea]. apply bool_decide_eq_true_1 in Ea.
      intros [= <-]. exact Ea.
    + apply H1.
  - intros d Hd. rewrite foldl_add_qmk_lookup.
    destruct (List.find _ _) as [a|]; [eexists; reflexivity | apply H2, Hd].
  - intros d Hd Hm. apply foldl_add_masked_subseteq, H3; assumption.
Qed.

Lemma reachable_attributes st : reachable st -> attributes_ok st.
Proof.
  induction 1 as [|kb st H IH].
  - unfold module_state. rewrite import_module_loop.
    destruct (loop_fields (all_keycodes static_state) static_state) as (Hm & Hq & _).
    eapply attributes_ok_ext; [exact Hm | exact Hq | apply static_attributes_ok].
  - rewrite recreate_keyboard_keycodes_loop.
    destruct (loop_fields (all_keycodes (prepared kb st)) (prepared kb st)) as (Hm & Hq & _).
    eapply attributes_ok_ext; [exact Hm | exact Hq | apply attributes_ok_prepared, IH].
Qed.

Lemma input_attributes X : rebuild_input X -> attributes_ok X.
Proof.
  intros [|kb st H]; [apply static_attributes_ok|].
  apply attributes_ok_prepared, reachable_attributes, H.
Qed.

(** ** The keycodes a rebuild files *)

Lemma midi_list_cases kb : midi_list kb ∈ midi_lists.
Proof.
  unfold midi_list, midi_lists.
  destruct (bool_decide (midi kb = Some "basic")) eqn:Eb;
    destruct (bool_decide (midi kb = Some "advanced")) eqn:Ea; cbn [orb];
    rewrite ?app_nil_r, ?app_nil_l.
  - apply bool_decide_eq_true_1 in Eb. apply bool_decide_eq_true_1 in Ea.
    rewrite Eb in Ea. discriminate.
  - apply list_elem_of_further, list_elem_of_here.
  - apply list_elem_of_further, list_elem_of_further, list_elem_of_here.
  - apply list_elem_of_here.
Qed.

Lemma midi_lists_static midi d : midi ∈ midi_lists -> d ∈ midi -> d ∈ static_lists.
Proof.
  unfold midi_lists, static_lists. intros Hm Hd.
  repeat (apply elem_of_cons in Hm as [->|Hm]); rewrite ?elem_of_app in *.
  - inversion Hd.
  - tauto.
  - tauto.
  - inversion Hm.
Qed.

Lemma prepared_members kb st d :
  d ∈ all_keycodes (prepared kb st) ->
  d ∈ static_keycodes \/ exists a, a ∈ dyn_src kb /\ d = Keycode_of a.
Proof.
  rewrite all_keycodes_prepared. unfold dyn_src. intros Hd.
  pose proof (midi_lists_static (midi_list kb) d (midi_list_cases kb)) as Hmidi.
  assert (Hs : d ∈ static_lists \/
               d ∈ map Keycode_of (layers_src kb) \/ d ∈ map Keycode_of (tap_dance_src kb) \/
               d ∈ map Keycode_of (macro_src kb) \/ d ∈ map Keycode_of (user_src kb)).
  { unfold static_lists in *. rewrite !elem_of_app in *. tauto. }
  destruct Hs as [Hs|Hs]; [left; apply static_lists_static, Hs|right].
  rewrite !list_elem_of_In, !in_map_iff in Hs.
  destruct Hs as [(a & <- & Ha)|[(a & <- & Ha)|[(a & <- & Ha)|(a & <- & Ha)]]];
    exists a; (split; [|reflexivity]); rewrite !elem_of_app, !list_elem_of_In; tauto.
Qed.

Lemma static_members d :
  d ∈ all_keycodes static_state -> d ∈ static_keycodes.
Proof.
  unfold all_keycodes.
  destruct static_state_lists as (-> & -> & -> & -> & -> & _).
  intros Hd. apply static_lists_static. unfold static_lists.
  rewrite ?app_nil_r in *. rewrite !elem_of_app in *.
  repeat match goal with H : _ ∈ [] |- _ => inversion H
                    | H : _ \/ _ |- _ => destruct H end; tauto.
Qed.

Lemma range_le n m : (n <= m)%Z -> forall x, x ∈ Py.range n -> x ∈ Py.range m.
Proof.
  intros Hle x. unfold Py.range. rewrite !list_elem_of_In, !in_map_iff.
  intros (k & <- & Hk). exists k. split; [reflexivity|].
  apply in_seq in Hk. apply in_seq. lia.
Qed.

Ltac in_list := repeat first [apply list_elem_of_here | apply list_elem_of_further].

(** A keycode built by a rebuild is a layer-tap of the pool, masked, or
    plain and of a generated shape. *)
Lemma dyn_src_classify kb a :
  a ∈ dyn_src kb ->
  (Keycode_of a ∈ lt_keycodes /\ k_masked a = true) \/
  (k_masked a = false /\ dyn_family (strip_kc (k_qmk_id a)) = true).
Proof.
  unfold dyn_src, layers_src. rewrite !elem_of_app.
  assert (Hmask : forall label, label ∈ ["MO"; "DF"; "TG"; "TT"; "OSL"; "TO"; "TD"] ->
            a ∈ mask_src kb label ->
            k_masked a = false /\ dyn_family (strip_kc (k_qmk_id a)) = true).
  { intros label Hl. unfold mask_src. rewrite list_elem_of_In, in_map_iff.
    intros (x & <- & _). split; [reflexivity | apply mask_family, Hl]. }
  intros [[Ha|[Ha|[Ha|[Ha|[Ha|[Ha|[Ha|Ha]]]]]]]|[Ha|[Ha|Ha]]].
  - right. unfold fn_src in Ha. destruct (4 <=? layers kb)%Z; [|inversion Ha].
    repeat (apply elem_of_cons in Ha as [->|Ha]); [split; reflexivity ..|inversion Ha].
  - right. apply (Hmask "MO"); [in_list | exact Ha].
  - right. apply (Hmask "DF"); [in_list | exact Ha].
  - right. apply (Hmask "TG"); [in_list | exact Ha].
  - right. apply (Hmask "TT"); [in_list | exact Ha].
  - right. apply (Hmask "OSL"); [in_list | exact Ha].
  - right. apply (Hmask "TO"); [in_list | exact Ha].
  - left. unfold lt_src in Ha. rewrite list_elem_of_In, in_map_iff in Ha.
    destruct Ha as (x & <- & Hx). split; [|reflexivity].
    unfold lt_keycodes. rewrite list_elem_of_In, in_map_iff.
    exists x. split; [reflexivity|].
    apply list_elem_of_In, (range_le (Z.min (layers kb) 16) 16); [lia|].
    apply list_elem_of_In, Hx.
  - right. unfold macro_src in Ha. rewrite list_elem_of_In, in_map_iff in Ha.
    destruct Ha as (x & <- & _). split; [reflexivity | apply macro_family].
  - right. unfold tap_dance_src in Ha. rewrite list_elem_of_In, in_map_iff in Ha.
    destruct Ha as (x & <- & _). split; [reflexivity|].
    apply (mask_family "TD"). in_list.
  - right. unfold user_src, generic_user_src, custom_user_src in Ha.
    destruct (custom_keycodes kb) as [[|c cs]|];
      rewrite list_elem_of_In, in_map_iff in Ha;
      destruct Ha as (x & <- & _); try destruct x as [x c'];
      (split; [reflexivity | apply user_family]).
Qed.

Lemma input_classified X d : rebuild_input X -> d ∈ all_keycodes X -> classified X d.
Proof.
  intros HX Hd. pose proof (input_attributes X HX) as (_ & _ & H3).
  destruct HX as [|kb st H].
  - left. apply static_members in Hd. split.
    + apply elem_of_app. left; exact Hd.
    + apply H3, Hd.
  - apply prepared_members in Hd as [Hd|(a & Ha & ->)].
    + left. split; [apply elem_of_app; left; exact Hd | apply H3, Hd].
    + destruct (dyn_src_classify kb a Ha) as [[Hlt Hm]|[Hm Hf]].
      * left. split; [apply elem_of_app; right; exact Hlt|].
        intros _. unfold prepared; cbn_fields.
        apply elem_of_foldl_add_masked. right. exists a. repeat split; assumption.
      * right. split; assumption.
Qed.

Lemma qmk_cleared X : qmk_id_to_keycode (cleared X) = qmk_id_to_keycode X.
Proof. destruct X; reflexivity. Qed.

Lemma input_known_ids X : rebuild_input X -> known_ids (cleared X) (all_keycodes X).
Proof.
  intros HX d Hd. rewrite qmk_cleared.
  pose proof (input_attributes X HX) as (H1 & H2 & _).
  assert (Hs : d ∈ static_keycodes ->
               exists k, qmk_id_to_keycode X !! qmk_id d = Some k /\ qmk_id k = qmk_id d).
  { intros Hs. destruct (H2 d Hs) as [k Hk]. exists k. split; [exact Hk | apply H1, Hk]. }
  destruct HX as [|kb st H].
  - apply Hs, static_members, Hd.
  - apply prepared_members in Hd as [Hd|(a & Ha & ->)]; [apply Hs, Hd|].
    unfold prepared; cbn_fields. rewrite foldl_add_qmk_lookup.
    destruct (List.find _ _) as [a'|] eqn:Ef.
    + apply find_some in Ef as [_ Ea]. apply bool_decide_eq_true_1 in Ea.
      exists (Keycode_of a'). split; [reflexivity | exact Ea].
    + exfalso. eapply find_none in Ef; [|apply in_rev; rewrite rev_involutive;
        apply list_elem_of_In, Ha].
      cbn in Ef. rewrite bool_decide_eq_true_2 in Ef by reflexivity. discriminate.
Qed.

Lemma loop_filed X st :
  known_ids (cleared X) (all_keycodes X) ->
  for_each (all_keycodes X) register (cleared X) = (Return tt, st) ->
  filed st (active_table st).
Proof.
  intros Hk Hrun. apply register_loop_return in Hrun as [-> HF]; [|exact Hk].
  rewrite active_table_set_RAWCODES_MAP, active_table_set_KEYCODES_MAP in *.
  destruct X; unfold cleared, filed in *; norm_state.
  repeat split; try assumption.
Qed.

Lemma rebuilt_filed st : rebuilt st -> filed st (active_table st).
Proof.
  intros H. apply rebuilt_inv in H as (X & HX & Hrun).
  eapply loop_filed; [apply input_known_ids, HX | exact Hrun].
Qed.

Lemma reachable_classified st d : reachable st -> d ∈ KEYCODES st -> classified st d.
Proof.
  intros H Hd. apply reachable_inv in H as (X & HX & ->).
  destruct (loop_fields (all_keycodes X) X) as (Hm & _ & _ & Hl & _).
  rewrite Hl in Hd. unfold classified. rewrite Hm. apply input_classified; assumption.
Qed.

Lemma reachable_tail st :
  reachable st ->
  exists pre midi, KEYCODES st = pre ++ KEYCODES_HIDDEN ++ midi /\ midi ∈ midi_lists.
Proof.
  intros H. apply reachable_inv in H as (X & HX & ->).
  destruct (loop_fields (all_keycodes X) X) as (_ & _ & _ & -> & _).
  unfold all_keycodes. rewrite !app_assoc. rewrite <- app_assoc.
  eexists _, (KEYCODES_MIDI X). split; [reflexivity|].
  destruct HX as [|kb st H].
  - destruct static_state_lists as (_ & _ & _ & _ & -> & _). apply list_elem_of_here.
  - apply midi_list_cases.
Qed.

(** ** Lookups in a filed registry *)

Lemma find_filed st t k :
  filed st t -> k <> "kc" -> find st k = last_keyed k (KEYCODES st).
Proof.
  intros (Hmap & _) Hk. unfold find.
  destruct (String.eqb_spec k "kc") as [E|_]; [contradiction|].
  rewrite Hmap, keymap_of_lookup. destruct (last_keyed k (KEYCODES st)); [reflexivity|].
  apply lookup_empty.
Qed.

Lemma dyn_family_kc : dyn_family "kc" = false.
Proof. reflexivity. Qed.

Lemma classified_key_not_kc st d : classified st d -> key_of d <> "kc".
Proof.
  intros [[Hp _]|[_ Hf]]; [apply pool_key_not_kc, Hp|].
  intros E. rewrite E, dyn_family_kc in Hf. discriminate.
Qed.

Lemma last_keyed_last k l1 d l2 :
  key_of d = k -> (forall d', d' ∈ l2 -> key_of d' <> k) ->
  last_keyed k (l1 ++ d :: l2) = Some d.
Proof.
  intros Hd Hl2. rewrite last_keyed_app.
  change (d :: l2) with ([d] ++ l2). rewrite last_keyed_app.
  destruct (last_keyed k l2) as [d'|] eqn:E.
  - apply last_keyed_Some in E as [Hin Hk]. exfalso. exact (Hl2 d' Hin Hk).
  - unfold last_keyed. cbn. rewrite bool_decide_eq_true_2 by exact Hd. reflexivity.
Qed.

Lemma register_raise d st e :
  fst (register d st) = Raise e ->
  exists id, e = RuntimeError ("unable to resolve qmk_id=" +:+ id).
Proof.
  unfold register, deserialize.
  destruct (qmk_id_to_keycode _ !! qmk_id d) as [k|].
  - rewrite resolve_active. destruct (kc _ !! qmk_id k); cbn; [discriminate|].
    intros [= <-]. eexists; reflexivity.
  - destruct (AnyKeycode_decode _ _); cbn; discriminate.
Qed.

Lemma register_loop_raise l st e :
  fst (for_each l register st) = Raise e ->
  exists id, e = RuntimeError ("unable to resolve qmk_id=" +:+ id).
Proof.
  revert st. induction l as [|d l IH]; intros st; cbn [for_each].
  - discriminate.
  - unfold bind. destruct (register d st) as [[[]|e'] st'] eqn:E.
    + apply IH.
    + cbn. intros [= <-]. apply (register_raise d st). rewrite E. reflexivity.
Qed.

(** ** The byte masks of a composite value *)

Lemma composite_high o i :
  Z.land (Z.lor (Z.land o 0xFF00) (Z.land i 0x00FF)) 0xFF00 = Z.land o 0xFF00.
Proof.
  rewrite Z.land_lor_distr_l, <- !Z.land_assoc.
  change (Z.land 0xFF00 0xFF00) with 0xFF00%Z.
  change (Z.land 0x00FF 0xFF00) with 0%Z.
  rewrite Z.land_0_r, Z.lor_0_r. reflexivity.
Qed.

Lemma composite_low o i :
  Z.land (Z.lor (Z.land o 0xFF00) (Z.land i 0x00FF)) 0x00FF = Z.land i 0x00FF.
Proof.
  rewrite Z.land_lor_distr_l, <- !Z.land_assoc.
  change (Z.land 0xFF00 0x00FF) with 0%Z.
  change (Z.land 0x00FF 0x00FF) with 0x00FF%Z.
  rewrite Z.land_0_r, Z.lor_0_l. reflexivity.
Qed.

(** The value filed for an id is found again in [RAWCODES_MAP], under a
    keycode of the list with that value. *)
Lemma filed_raw st t d r :
  filed st t -> d ∈ KEYCODES st -> kc t !! qmk_id d = Some r ->
  exists d', RAWCODES_MAP st !! r = Some d' /\ d' ∈ KEYCODES st /\
             kc t !! qmk_id d' = Some r.
Proof.
  intros (_ & Hraw & _) Hd Hr.
  destruct (rawmap_of_is_Some t (KEYCODES st) ∅ r d Hd Hr) as [d' Hd'].
  exists d'. rewrite Hraw. split; [exact Hd'|].
  apply rawmap_of_lookup in Hd' as [Hd'|Hd']; [|exact Hd'].
  rewrite lookup_empty in Hd'. discriminate.
Qed.

(** * The properties of the specification *)

(** C2 (amended): in a registry right after a rebuild, take a registered
    outer keycode whose value [o] is one of the table's masked values and
    has an empty low byte, and a registered inner keycode whose value [i]
    fits in the low byte; if no other registered id shares either value,
    then serializing [(o & 0xFF00) | (i & 0x00FF)] gives the outer id with
    kc replaced by the inner id. *)
Theorem serialize_composite st outer inner o i :
  rebuilt st ->
  outer ∈ KEYCODES st -> inner ∈ KEYCODES st ->
  resolve st (qmk_id outer) = Return o ->
  resolve st (qmk_id inner) = Return i ->
  o ∈ masked_raw (active_table st) ->
  Z.land o 0xFF00 = o ->
  Z.land i 0x00FF = i ->
  (forall d, d ∈ KEYCODES st -> resolve st (qmk_id d) = Return o -> qmk_id d = qmk_id outer) ->
  (forall d, d ∈ KEYCODES st -> resolve st (qmk_id d) = Return i -> qmk_id d = qmk_id inner) ->
  serialize st (Z.lor (Z.land o 0xFF00) (Z.land i 0x00FF)) =
  Py.replace (qmk_id outer) "kc" (qmk_id inner).
Proof.
  intros Hst Hout Hin Ho Hi Hmask Hhigh Hlow Uo Ui.
  pose proof (rebuilt_filed st Hst) as Hf.
  rewrite resolve_active in Ho, Hi.
  destruct (kc (active_table st) !! qmk_id outer) as [o'|] eqn:Eo; [|discriminate].
  destruct (kc (active_table st) !! qmk_id inner) as [i'|] eqn:Ei; [|discriminate].
  injection Ho as ->. injection Hi as ->.
  destruct (filed_raw st _ outer o Hf Hout Eo) as (d1 & Hr1 & Hd1 & Hk1).
  destruct (filed_raw st _ inner i Hf Hin Ei) as (d2 & Hr2 & Hd2 & Hk2).
  unfold serialize. rewrite composite_high, composite_low, Hhigh, Hlow.
  rewrite bool_decide_eq_true_2 by exact Hmask. cbn [negb].
  rewrite Hr1, Hr2.
  rewrite (Uo d1 Hd1), (Ui d2 Hd2); [reflexivity | |];
    rewrite resolve_active; [rewrite Hk2 | rewrite Hk1]; reflexivity.
Qed.


(** C4: running [recreate_keyboard_keycodes] a second time with the same
    keyboard leaves the registry as the first run left it, so
    [KEYCODES_MAP] and [qmk_id_to_keycode] hold the same ids and the list
    of keycodes has not grown; the second run ends as the first did, and
    the only exception a run can end with is the one of [resolve], never
    the one for a duplicate. *)
Theorem rebuild_idempotent kb st :
  let once := recreate_keyboard_keycodes kb st in
  let twice := recreate_keyboard_keycodes kb (snd once) in
  snd twice = snd once /\
  dom (KEYCODES_MAP (snd twice)) = dom (KEYCODES_MAP (snd once)) /\
  dom (qmk_id_to_keycode (snd twice)) = dom (qmk_id_to_keycode (snd once)) /\
  KEYCODES (snd twice) = KEYCODES (snd once) /\
  fst twice = fst once /\
  (forall e, fst twice = Raise e ->
     exists id, e = RuntimeError ("unable to resolve qmk_id=" +:+ id)).
Proof.
  cbv zeta. rewrite rebuild_again. repeat split.
  intros e. rewrite recreate_keyboard_keycodes_loop. apply register_loop_raise.
Qed.

(** C5 (amended): in every reachable state the prefixes of the masked
    keycodes on file are all in [masked_keycodes], and a further rebuild
    only adds to [masked_keycodes]: the set can hold prefixes of keycodes
    that are no longer on file. *)
Theorem masked_prefixes_kept st :
  reachable st ->
  registered_masked_prefixes st ⊆ masked_keycodes st /\
  (forall kb, masked_keycodes st ⊆ masked_keycodes (snd (recreate_keyboard_keycodes kb st))).
Proof.
  intros Hst. split.
  - intros k. unfold registered_masked_prefixes.
    rewrite elem_of_list_to_set, list_elem_of_In, in_map_iff.
    intros (d & <- & Hd). apply list_elem_of_In, list_elem_of_filter in Hd as [Hm Hd].
    destruct (reachable_classified st d Hst Hd) as [[_ H]|[H _]]; [apply H, Hm|].
    rewrite Hm in H. discriminate.
  - intros kb. rewrite recreate_keyboard_keycodes_loop.
    destruct (loop_fields (all_keycodes (prepared kb st)) (prepared kb st)) as (-> & _).
    apply foldl_add_masked_subseteq.
Qed.

(** C6 (amended): right after a rebuild, a keycode of the list
    [KEYCODES] is found under its id with (kc) removed, provided no
    keycode later in the list has the same stripped id. *)
Theorem find_registered st l1 d l2 :
  rebuilt st ->
  KEYCODES st = l1 ++ d :: l2 ->
  (forall d', d' ∈ l2 -> key_of d' <> key_of d) ->
  find st (strip_kc (qmk_id d)) = Some d.
Proof.
  intros Hst Hl Hl2. change (strip_kc (qmk_id d)) with (key_of d).
  assert (Hd : d ∈ KEYCODES st).
  { rewrite Hl. apply elem_of_app. right. apply list_elem_of_here. }
  rewrite (find_filed st _ (key_of d) (rebuilt_filed st Hst)).
  - rewrite Hl. apply last_keyed_last; [reflexivity | exact Hl2].
  - eapply classified_key_not_kc, reachable_classified; [apply rebuilt_reachable|]; eassumption.
Qed.

(** C7 (amended): after [recreate_keyboard_keycodes] the list
    [KEYCODES_USER] has one keycode per entry of the custom list when
    that list has an entry, and the sixteen keycodes USER00 to USER15
    when the list is absent and also when it is empty. *)
Theorem user_keycodes_of_rebuild kb st :
  KEYCODES_USER (snd (recreate_keyboard_keycodes kb st)) =
    match custom_keycodes kb with
    | Some (c :: cs) => map Keycode_of (custom_user_src (c :: cs))
    | Some [] | None => map Keycode_of generic_user_src
    end /\
  length (KEYCODES_USER (snd (recreate_keyboard_keycodes kb st))) =
    match custom_keycodes kb with
    | Some (c :: cs) => length (c :: cs)
    | Some [] | None => 16%nat
    end.
Proof.
  rewrite recreate_keyboard_keycodes_loop.
  destruct (loop_fields (all_keycodes (prepared kb st)) (prepared kb st))
    as (_ & _ & _ & _ & ->).
  unfold prepared; cbn_fields. unfold user_src.
  destruct (custom_keycodes kb) as [[|c cs]|]; (split; [reflexivity|]);
    try reflexivity.
  unfold custom_user_src. rewrite !length_map.
  apply length_zip_with_r_eq.
  unfold Py.range. rewrite length_map, length_seq. lia.
Qed.

(** C9: right after a rebuild, a masked keycode of the list [KEYCODES]
    has an id of the form OUTER(kc); [find] returns it for OUTER and
    returns nothing for OUTER(kc), and [find_outer_keycode] returns it
    for every text OUTER(INNER). *)
Theorem masked_keyed_by_prefix st d :
  rebuilt st -> d ∈ KEYCODES st -> masked d = true ->
  exists outer,
    qmk_id d = outer +:+ "(kc)" /\
    find st outer = Some d /\
    find st (qmk_id d) = None /\
    (forall inner, find_outer_keycode st (outer +:+ "(" +:+ inner +:+ ")") = Some d).
Proof.
  intros Hst Hd Hm.
  pose proof (rebuilt_filed st Hst) as Hf.
  pose proof (rebuilt_reachable st Hst) as Hr.
  destruct (reachable_classified st d Hr Hd) as [[Hp Hk]|[H _]];
    [|rewrite Hm in H; discriminate].
  specialize (Hk Hm).
  assert (Hok : masked_entry_ok d = true).
  { apply masked_pool_ok. unfold masked_pool. apply list_elem_of_filter. split; assumption. }
  unfold masked_entry_ok in Hok.
  repeat (apply andb_true_iff in Hok as [Hok ?]).
  repeat match goal with H : negb _ = true |- _ => apply negb_true_iff in H end.
  apply String.eqb_eq in Hok.
  repeat match goal with H : String.eqb _ _ = false |- _ => apply String.eqb_neq in H end.
  match goal with H : forallb _ _ = true |- _ => rename H into Hall end.
  rewrite forallb_forall in Hall.
  assert (Hfind : find st (key_of d) = Some d).
  { rewrite (find_filed st _ _ Hf) by assumption.
    destruct (last_keyed_is_Some (KEYCODES st) d Hd) as [d' Hd'].
    rewrite Hd'. apply last_keyed_Some in Hd' as [Hin' Hk'].
    destruct (reachable_classified st d' Hr Hin') as [[Hp' _]|[_ Hf']].
    - specialize (Hall d' (proj1 (list_elem_of_In _ _) Hp')).
      apply andb_true_iff in Hall as [Hall _].
      rewrite (proj2 (String.eqb_eq _ _) Hk') in Hall.
      apply bool_decide_eq_true_1 in Hall. congruence.
    - congruence. }
  exists (key_of d). split; [exact Hok|]. split; [exact Hfind|]. split.
  - rewrite (find_filed st _ _ Hf) by assumption.
    destruct (last_keyed (qmk_id d) (KEYCODES st)) as [d'|] eqn:Hd'; [|reflexivity].
    exfalso. apply last_keyed_Some in Hd' as [Hin' Hk'].
    destruct (reachable_classified st d' Hr Hin') as [[Hp' _]|[_ Hf']].
    + specialize (Hall d' (proj1 (list_elem_of_In _ _) Hp')).
      apply andb_true_iff in Hall as [_ Hall]. apply negb_true_iff in Hall.
      apply String.eqb_neq in Hall. contradiction.
    + congruence.
  - intros inner. unfold find_outer_keycode, is_mask.
    change ("(" +:+ inner +:+ ")") with (String "(" (inner +:+ ")")).
    rewrite contains_paren, slice_to_paren by assumption.
    rewrite bool_decide_eq_true_2 by exact Hk. cbn [andb]. exact Hfind.
Qed.

(** C10: right after a rebuild, for every n from 0 to 255 [find]
    returns a keycode of the list [KEYCODES] whose id is TD(n), whatever
    the tap-dance count of the keyboard. *)
Theorem hidden_tap_dance_found st n :
  rebuilt st -> (0 <= n < 256)%Z ->
  exists d, find st ("TD(" +:+ Py.str n +:+ ")") = Some d /\
            qmk_id d = "TD(" +:+ Py.str n +:+ ")" /\ d ∈ KEYCODES st.
Proof.
  intros Hst Hn. change ("TD(" +:+ Py.str n +:+ ")") with (TD_id n).
  pose proof (rebuilt_filed st Hst) as Hf.
  destruct (reachable_tail st (rebuilt_reachable st Hst)) as (pre & midi & Hl & Hmidi).
  assert (Hrange : n ∈ Py.range 256).
  { unfold Py.range. apply list_elem_of_In, in_map_iff. exists (Z.to_nat n).
    split; [lia|]. apply in_seq. lia. }
  destruct (hidden_last_keyed midi n Hmidi Hrange) as (d & Hd & Hid).
  exists d. rewrite (find_filed st _ _ Hf) by (cbn; discriminate).
  assert (Hlast : last_keyed (TD_id n) (KEYCODES st) = Some d).
  { rewrite Hl, last_keyed_app, Hd. reflexivity. }
  split; [exact Hlast|]. split; [exact Hid|].
  apply last_keyed_Some in Hlast as [Hin _]. exact Hin.
Qed.

(** ** Round trips outside the masked values *)

(** X1: right after a rebuild, if the value of a registered id has a
    high byte that is not one of the table's masked values, then
    serializing the value and deserializing the text gives the value
    back. *)
Theorem flat_round_trip st d r reraise :
  rebuilt st -> d ∈ KEYCODES st ->
  resolve st (qmk_id d) = Return r ->
  Z.land r 0xFF00 ∉ masked_raw (active_table st) ->
  deserialize st (VStr (serialize st r)) reraise = Return r.
Proof.
  intros Hst Hd Hr Hflat.
  pose proof (rebuilt_filed st Hst) as Hf.
  rewrite resolve_active in Hr.
  destruct (kc (active_table st) !! qmk_id d) as [r'|] eqn:Er; [|discriminate].
  injection Hr as ->.
  destruct (filed_raw st _ d r Hf Hd Er) as (d' & Hr' & Hd' & Hk').
  unfold serialize. rewrite bool_decide_eq_false_2 by exact Hflat. cbn [negb].
  rewrite Hr'. rewrite deserialize_known.
  - rewrite resolve_active, Hk'. reflexivity.
  - destruct Hf as (_ & _ & _ & Hknown). intros x Hx.
    apply list_elem_of_singleton in Hx as ->. apply Hknown, Hd'.
Qed.

(** X2: right after a rebuild, normalizing a registered id whose value
    has a high byte outside the table's masked values returns a text
    that normalizes to itself. *)
Theorem flat_normalize_idempotent st d r :
  rebuilt st -> d ∈ KEYCODES st ->
  resolve st (qmk_id d) = Return r ->
  Z.land r 0xFF00 ∉ masked_raw (active_table st) ->
  exists s, normalize st (VStr (qmk_id d)) = Return s /\
            normalize st (VStr s) = Return s.
Proof.
  intros Hst Hd Hr Hflat.
  pose proof (rebuilt_filed st Hst) as Hf.
  assert (Hdes : deserialize st (VStr (qmk_id d)) false = Return r).
  { rewrite deserialize_known; [exact Hr|].
    destruct Hf as (_ & _ & _ & Hknown). intros x Hx.
    apply list_elem_of_singleton in Hx as ->. apply Hknown, Hd. }
  assert (Hback : deserialize st (VStr (serialize st r)) false = Return r).
  { rewrite resolve_active in Hr.
    destruct (kc (active_table st) !! qmk_id d) as [r'|] eqn:Er; [|discriminate].
    injection Hr as ->.
    destruct (filed_raw st _ d r Hf Hd Er) as (d' & Hr' & Hd' & Hk').
    unfold serialize. rewrite bool_decide_eq_false_2 by exact Hflat. cbn [negb].
    rewrite Hr'. rewrite deserialize_known.
    - rewrite resolve_active, Hk'. reflexivity.
    - destruct Hf as (_ & _ & _ & Hknown). intros x Hx.
      apply list_elem_of_singleton in Hx as ->. apply Hknown, Hd'. }
  exists (serialize st r). unfold normalize. rewrite Hdes, Hback. split; reflexivity.
Qed.

(** * Further properties of the module *)

(** ** The constructor *)

Lemma set_recorder_same st :
  set_recorder_alias_to_keycode (recorder_alias_to_keycode st) st = st.
Proof. destruct st; reflexivity. Qed.

Lemma set_recorder_twice v w st :
  set_recorder_alias_to_keycode v (set_recorder_alias_to_keycode w st) =
  set_recorder_alias_to_keycode v st.
Proof. destruct st; reflexivity. Qed.

Lemma recorder_set v st :
  recorder_alias_to_keycode (set_recorder_alias_to_keycode v st) = v.
Proof. destruct st; reflexivity. Qed.

Lemma claim_aliases_cons self al l st :
  claim_aliases self (al :: l) st =
  match recorder_alias_to_keycode st !! al with
  | Some _ =>
      (Raise (RuntimeError ("Misconfigured: two keycodes claim the same alias " +:+ al)), st)
  | None =>
      claim_aliases self l
        (set_recorder_alias_to_keycode (<[al:=self]> (recorder_alias_to_keycode st)) st)
  end.
Proof.
  unfold claim_aliases. cbn [for_each]. unfold bind at 1, bind at 1, get.
  destruct (recorder_alias_to_keycode st !! al); reflexivity.
Qed.

(** The loop over the recorder aliases only writes
    [recorder_alias_to_keycode], and only adds to it. *)
Lemma claim_aliases_frame self l st :
  exists m, snd (claim_aliases self l st) = set_recorder_alias_to_keycode m st /\
            recorder_alias_to_keycode st ⊆ m.
Proof.
  revert st. induction l as [|al l IH]; intros st.
  - exists (recorder_alias_to_keycode st). rewrite set_recorder_same. split; reflexivity.
  - rewrite claim_aliases_cons.
    destruct (recorder_alias_to_keycode st !! al) as [k|] eqn:E.
    + exists (recorder_alias_to_keycode st). rewrite set_recorder_same. split; reflexivity.
    + destruct (IH (set_recorder_alias_to_keycode
                      (<[al:=self]> (recorder_alias_to_keycode st)) st)) as (m & Hm & Hsub).
      exists m. rewrite Hm, set_recorder_twice. split; [reflexivity|].
      rewrite recorder_set in Hsub. etransitivity; [|exact Hsub].
      apply insert_subseteq, E.
Qed.

Lemma claim_aliases_free self l st :
  aliases_free st l ->
  claim_aliases self l st =
  (Return tt,
   set_recorder_alias_to_keycode (with_aliases self l (recorder_alias_to_keycode st)) st).
Proof.
  revert st. induction l as [|al l IH]; intros st [Hnd Hfree].
  - cbn. rewrite set_recorder_same. reflexivity.
  - apply NoDup_cons in Hnd as [Hal Hnd].
    rewrite claim_aliases_cons.
    rewrite (Hfree al) by apply list_elem_of_here. rewrite IH.
    + rewrite recorder_set, set_recorder_twice. reflexivity.
    + split; [exact Hnd|]. intros al' Hal'. rewrite recorder_set.
      rewrite lookup_insert_ne by (intros ->; contradiction).
      apply Hfree. apply list_elem_of_further, Hal'.
Qed.

Lemma claim_aliases_taken self l st :
  ~ aliases_free st l ->
  exists al, al ∈ l /\
    fst (claim_aliases self l st) =
    Raise (RuntimeError ("Misconfigured: two keycodes claim the same alias " +:+ al)).
Proof.
  revert st. induction l as [|al l IH]; intros st Hnot.
  - exfalso. apply Hnot. split; [constructor | intros al Hal; inversion Hal].
  - rewrite claim_aliases_cons.
    destruct (recorder_alias_to_keycode st !! al) as [k|] eqn:E.
    + exists al. split; [apply list_elem_of_here | reflexivity].
    + destruct (IH (set_recorder_alias_to_keycode
                      (<[al:=self]> (recorder_alias_to_keycode st)) st)) as (al' & Hin & Hr).
      * intros [Hnd Hfree]. apply Hnot. split.
        -- apply NoDup_cons. split; [|exact Hnd].
           intros Hal. specialize (Hfree al Hal).
           rewrite recorder_set, lookup_insert_eq in Hfree. discriminate.
        -- intros al' Hal'. apply elem_of_cons in Hal' as [->|Hal']; [exact E|].
           specialize (Hfree al' Hal'). rewrite recorder_set in Hfree.
           destruct (decide (al = al')) as [->|Hne]; [exact E|].
           rewrite lookup_insert_ne in Hfree by exact Hne. exact Hfree.
      * exists al'. split; [apply list_elem_of_further, Hin | exact Hr].
Qed.

Lemma with_aliases_lookup self l m al :
  al ∈ l -> with_aliases self l m !! al = Some self.
Proof.
  unfold with_aliases. revert m. induction l as [|a l IH] using rev_ind; intros m Hal.
  - inversion Hal.
  - rewrite foldl_app. cbn [foldl].
    destruct (decide (a = al)) as [->|Hne]; [apply lookup_insert_eq|].
    rewrite lookup_insert_ne by exact Hne. apply IH.
    apply elem_of_app in Hal as [Hal|Hal]; [exact Hal|].
    apply list_elem_of_singleton in Hal. congruence.
Qed.

(** The constructor as three steps on a state. *)
Lemma Keycode_init_steps a st :
  Keycode_init a st =
  let self := Keycode_of a in
  let st1 := set_qmk_id_to_keycode (<[k_qmk_id a := self]> (qmk_id_to_keycode st)) st in
  match claim_aliases self (k_recorder_alias a) st1 with
  | (Raise e, st2) => (Raise e, st2)
  | (Return _, st2) =>
      if k_masked a
      then if Py.endswith (k_qmk_id a) "(kc)"
           then (Return self,
                 set_masked_keycodes ({[ strip_kc (k_qmk_id a) ]} ∪ masked_keycodes st2) st2)
           else (Raise AssertionError, st2)
      else (Return self, st2)
  end.
Proof.
  unfold Keycode_init, claim_aliases. cbv zeta. unfold bind at 1. unfold modify at 1.
  unfold bind at 1.
  destruct (for_each (k_recorder_alias a) _ _) as [[[]|e] st2]; [|reflexivity].
  unfold bind, modify, ret, raise.
  destruct (k_masked a); [|reflexivity].
  destruct (Py.endswith (k_qmk_id a) "(kc)"); reflexivity.
Qed.

(** X3: a constructor call whose recorder aliases are distinct and not
    yet claimed, and whose id ends in (kc) if it is masked, returns the
    new keycode; afterwards [find_by_qmk_id] returns it for its id,
    [find_by_recorder_alias] returns it for each of its recorder
    aliases, and the stripped id of a masked keycode is in
    [masked_keycodes]. *)
Theorem Keycode_init_registers a st :
  NoDup (k_recorder_alias a) ->
  (forall al, al ∈ k_recorder_alias a -> find_by_recorder_alias st al = None) ->
  (k_masked a = true -> Py.endswith (k_qmk_id a) "(kc)" = true) ->
  fst (Keycode_init a st) = Return (Keycode_of a) /\
  find_by_qmk_id (snd (Keycode_init a st)) (k_qmk_id a) = Some (Keycode_of a) /\
  (forall al, al ∈ k_recorder_alias a ->
     find_by_recorder_alias (snd (Keycode_init a st)) al = Some (Keycode_of a)) /\
  (k_masked a = true -> strip_kc (k_qmk_id a) ∈ masked_keycodes (snd (Keycode_init a st))).
Proof.
  intros Hnd Hfree Hm. rewrite Keycode_init_steps. cbv zeta.
  rewrite claim_aliases_free; cycle 1.
  { split; [exact Hnd|]. intros al Hal. specialize (Hfree al Hal).
    destruct st; exact Hfree. }
  unfold find_by_qmk_id, find_by_recorder_alias.
  destruct (k_masked a).
  - rewrite Hm by reflexivity. destruct st; norm_state. cbn [fst snd]; cbn_fields.
    split; [reflexivity|]. split; [apply lookup_insert_eq|].
    split; [intros al Hal; apply with_aliases_lookup, Hal|].
    intros _. apply elem_of_union. left. apply elem_of_singleton. reflexivity.
  - destruct st; norm_state. cbn [fst snd]; cbn_fields.
    split; [reflexivity|]. split; [apply lookup_insert_eq|].
    split; [intros al Hal; apply with_aliases_lookup, Hal | discriminate].
Qed.

(** X4: a constructor call with a recorder alias that is already
    claimed, or that stands twice in its list, raises the RuntimeError
    that names one of its aliases; the new keycode is by then entered in
    [qmk_id_to_keycode], and [masked_keycodes] is as before. *)
Theorem Keycode_init_alias_taken a st :
  (~ NoDup (k_recorder_alias a) \/
   exists al, al ∈ k_recorder_alias a /\ is_Some (find_by_recorder_alias st al)) ->
  exists al, al ∈ k_recorder_alias a /\
    fst (Keycode_init a st) =
      Raise (RuntimeError ("Misconfigured: two keycodes claim the same alias " +:+ al)) /\
    find_by_qmk_id (snd (Keycode_init a st)) (k_qmk_id a) = Some (Keycode_of a) /\
    masked_keycodes (snd (Keycode_init a st)) = masked_keycodes st.
Proof.
  intros Hbad. rewrite Keycode_init_steps. cbv zeta.
  set (st1 := set_qmk_id_to_keycode _ st).
  destruct (claim_aliases_taken (Keycode_of a) (k_recorder_alias a) st1) as (al & Hal & Hr).
  { intros [Hnd Hfree]. destruct Hbad as [Hbad|(al & Hal & [k Hk])]; [contradiction|].
    specialize (Hfree al Hal). unfold find_by_recorder_alias in Hk.
    subst st1. destruct st; cbn in Hfree, Hk. congruence. }
  destruct (claim_aliases_frame (Keycode_of a) (k_recorder_alias a) st1) as (m & Hsnd & _).
  destruct (claim_aliases _ _ st1) as [o st2]. cbn [fst snd] in Hr, Hsnd. subst o st2.
  exists al. split; [exact Hal|]. split; [reflexivity|].
  subst st1. unfold find_by_qmk_id. destruct st; norm_state. cbn [fst snd]; cbn_fields.
  split; [apply lookup_insert_eq | reflexivity].
Qed.

(** X5: a constructor call for a masked keycode whose id does not end
    in (kc) raises AssertionError after the keycode is entered in
    [qmk_id_to_keycode] and its recorder aliases are claimed;
    [masked_keycodes] is as before. *)
Theorem Keycode_init_not_a_mask a st :
  NoDup (k_recorder_alias a) ->
  (forall al, al ∈ k_recorder_alias a -> find_by_recorder_alias st al = None) ->
  k_masked a = true -> Py.endswith (k_qmk_id a) "(kc)" = false ->
  fst (Keycode_init a st) = Raise AssertionError /\
  find_by_qmk_id (snd (Keycode_init a st)) (k_qmk_id a) = Some (Keycode_of a) /\
  (forall al, al ∈ k_recorder_alias a ->
     find_by_recorder_alias (snd (Keycode_init a st)) al = Some (Keycode_of a)) /\
  masked_keycodes (snd (Keycode_init a st)) = masked_keycodes st.
Proof.
  intros Hnd Hfree Hm He. rewrite Keycode_init_steps. cbv zeta.
  rewrite claim_aliases_free; cycle 1.
  { split; [exact Hnd|]. intros al Hal. specialize (Hfree al Hal).
    destruct st; exact Hfree. }
  rewrite Hm, He. unfold find_by_qmk_id, find_by_recorder_alias.
  destruct st; norm_state. cbn [fst snd]; cbn_fields.
  split; [reflexivity|]. split; [apply lookup_insert_eq|].
  split; [intros al Hal; apply with_aliases_lookup, Hal | reflexivity].
Qed.

(** X6: whatever its outcome, a constructor call removes nothing: the
    other ids of [qmk_id_to_keycode] keep their keycodes, every claimed
    recorder alias keeps its keycode, [masked_keycodes] loses no prefix,
    and the lists and maps of the registry are not touched. *)
Theorem Keycode_init_keeps a st :
  (forall id, id <> k_qmk_id a ->
     find_by_qmk_id (snd (Keycode_init a st)) id = find_by_qmk_id st id) /\
  recorder_alias_to_keycode st ⊆ recorder_alias_to_keycode (snd (Keycode_init a st)) /\
  masked_keycodes st ⊆ masked_keycodes (snd (Keycode_init a st)) /\
  KEYCODES (snd (Keycode_init a st)) = KEYCODES st /\
  KEYCODES_MAP (snd (Keycode_init a st)) = KEYCODES_MAP st /\
  RAWCODES_MAP (snd (Keycode_init a st)) = RAWCODES_MAP st /\
  protocol (snd (Keycode_init a st)) = protocol st.
Proof.
  rewrite Keycode_init_steps. cbv zeta.
  set (st1 := set_qmk_id_to_keycode _ st).
  destruct (claim_aliases_frame (Keycode_of a) (k_recorder_alias a) st1) as (m & Hsnd & Hsub).
  destruct (claim_aliases _ _ st1) as [o st2]. cbn [snd] in Hsnd. subst st2.
  assert (Hrec : recorder_alias_to_keycode st ⊆ m).
  { subst st1. destruct st; exact Hsub. }
  clear Hsub. unfold find_by_qmk_id. subst st1.
  destruct o as [[]|e]; [destruct (k_masked a); [destruct (Py.endswith _ _)|]|];
    destruct st; norm_state; cbn [fst snd]; cbn_fields; cbn_fields;
    (split; [intros id Hid; apply lookup_insert_ne; congruence|]);
    (split; [exact Hrec|]); (split; [|repeat split]);
    try reflexivity.
  apply union_subseteq_r.
Qed.

(** ** The rebuild: what it keeps, when it returns, where it stops *)

Lemma loop_lists l X :
  recorder_alias_to_keycode (snd (for_each l register (cleared X))) =
    recorder_alias_to_keycode X /\
  KEYCODES_LAYERS (snd (for_each l register (cleared X))) = KEYCODES_LAYERS X /\
  KEYCODES_TAP_DANCE (snd (for_each l register (cleared X))) = KEYCODES_TAP_DANCE X /\
  KEYCODES_MACRO (snd (for_each l register (cleared X))) = KEYCODES_MACRO X /\
  KEYCODES_MIDI (snd (for_each l register (cleared X))) = KEYCODES_MIDI X.
Proof.
  destruct (register_loop_frame l (cleared X)) as (m & r & ->).
  destruct X; repeat split.
Qed.

Lemma active_table_cleared X : active_table (cleared X) = active_table X.
Proof. destruct X; reflexivity. Qed.

Lemma active_table_prepared kb st :
  active_table (prepared kb st) =
  if (vial_protocol kb =? 6)%Z then keycodes_v6 else keycodes_v5.
Proof. reflexivity. Qed.

Lemma active_table_loop l X :
  active_table (snd (for_each l register (cleared X))) = active_table X.
Proof.
  apply active_table_protocol.
  destruct (loop_fields l X) as (_ & _ & H & _). exact H.
Qed.

(** The loop of [recreate_keycodes] returns exactly when every id it
    files is in the active table. *)
Lemma input_returns_iff X :
  rebuild_input X ->
  fst (for_each (all_keycodes X) register (cleared X)) = Return tt <->
  Forall (fun d => is_Some (kc (active_table X) !! qmk_id d)) (all_keycodes X).
Proof.
  intros HX. pose proof (input_known_ids X HX) as Hk. split.
  - intros Hr.
    destruct (for_each (all_keycodes X) register (cleared X)) as [o s] eqn:E.
    cbn in Hr. subst o. apply register_loop_return in E as [_ HF]; [|exact Hk].
    rewrite active_table_cleared in HF. exact HF.
  - intros HF. apply register_loop_total; [exact Hk|].
    rewrite active_table_cleared. exact HF.
Qed.

(** The loop of [recreate_keycodes] when it raises: it stops at the
    first keycode whose id is not in the active table, with that keycode
    already filed in [KEYCODES_MAP]. *)
Lemma register_loop_stop l st e :
  known_ids st l ->
  fst (for_each l register st) = Raise e ->
  exists l1 d l2,
    l = l1 ++ d :: l2 /\
    Forall (fun d => is_Some (kc (active_table st) !! qmk_id d)) l1 /\
    kc (active_table st) !! qmk_id d = None /\
    e = RuntimeError ("unable to resolve qmk_id=" +:+ qmk_id d) /\
    snd (for_each l register st) =
      set_RAWCODES_MAP (rawmap_of (active_table st) l1 (RAWCODES_MAP st))
        (set_KEYCODES_MAP (keymap_of (l1 ++ [d]) (KEYCODES_MAP st)) st).
Proof.
  revert st. induction l as [|d l IH]; intros st Hknown Hr; [discriminate|].
  cbn [for_each] in *. unfold bind in *.
  assert (Hreg : register d st =
    match kc (active_table st) !! qmk_id d with
    | Some v =>
        (Return tt,
         set_RAWCODES_MAP (<[v:=d]> (RAWCODES_MAP st))
           (set_KEYCODES_MAP (<[key_of d:=d]> (KEYCODES_MAP st)) st))
    | None =>
        (Raise (RuntimeError ("unable to resolve qmk_id=" +:+ qmk_id d)),
         set_KEYCODES_MAP (<[key_of d:=d]> (KEYCODES_MAP st)) st)
    end).
  { unfold register. rewrite deserialize_known; cycle 1.
    { intros d' Hd'. apply list_elem_of_singleton in Hd' as ->.
      destruct (Hknown d) as (k & Hk & Hid); [left|]. exists k. split; [|exact Hid].
      destruct st; exact Hk. }
    rewrite resolve_active, active_table_set_KEYCODES_MAP.
    destruct (kc (active_table st) !! qmk_id d); [|reflexivity].
    destruct st; reflexivity. }
  rewrite Hreg in *. destruct (kc (active_table st) !! qmk_id d) as [v|] eqn:Hv.
  - assert (Hk1 : known_ids
        (set_RAWCODES_MAP (<[v:=d]> (RAWCODES_MAP st))
           (set_KEYCODES_MAP (<[key_of d:=d]> (KEYCODES_MAP st)) st)) l).
    { intros d' Hd'. destruct (Hknown d') as (k & Hk & Hid); [right; exact Hd'|].
      exists k. split; [destruct st; exact Hk | exact Hid]. }
    destruct (IH _ Hk1 Hr) as (l1 & d0 & l2 & -> & HF & Hnone & -> & Hsnd).
    rewrite active_table_set_RAWCODES_MAP, active_table_set_KEYCODES_MAP in *.
    exists (d :: l1), d0, l2. split; [reflexivity|].
    split; [constructor; [rewrite Hv; eauto | exact HF]|].
    split; [exact Hnone|]. split; [reflexivity|].
    rewrite Hsnd. cbn [app rawmap_of keymap_of foldl]. rewrite Hv.
    generalize (active_table st). intros t. destruct st; norm_state. reflexivity.
  - cbn in Hr. injection Hr as <-. exists [], d, l. cbn [fst snd app].
    split; [reflexivity|]. split; [constructor|]. split; [exact Hv|].
    split; [reflexivity|]. destruct st; reflexivity.
Qed.

Lemma first_split_unique {A} (P : A -> Prop) l1 d l2 l1' d' l2' :
  l1 ++ d :: l2 = l1' ++ d' :: l2' ->
  Forall P l1 -> ~ P d -> Forall P l1' -> ~ P d' ->
  l1' = l1 /\ d' = d.
Proof.
  revert l1'. induction l1 as [|x l1 IH]; intros l1' Hl HF Hd HF' Hd'.
  - destruct l1' as [|x' l1']; cbn in Hl.
    + injection Hl as -> _. split; reflexivity.
    + injection Hl as -> _. inversion HF'; subst. contradiction.
  - inversion HF as [|? ? Hx HFt]; subst.
    destruct l1' as [|x' l1']; cbn in Hl.
    + injection Hl as <- _. contradiction.
    + injection Hl as <- Hl. inversion HF' as [|? ? ? HFt']; subst.
      destruct (IH l1' Hl HFt Hd HFt' Hd') as [-> ->]. split; reflexivity.
Qed.

(** The loop of [recreate_keycodes] on two states with the same table
    and the same two maps, each knowing the ids of the list: same
    outcome, same maps. *)
Lemma register_loop_agree l st st' :
  known_ids st l -> known_ids st' l ->
  active_table st = active_table st' ->
  KEYCODES_MAP st = KEYCODES_MAP st' -> RAWCODES_MAP st = RAWCODES_MAP st' ->
  fst (for_each l register st) = fst (for_each l register st') /\
  KEYCODES_MAP (snd (for_each l register st)) = KEYCODES_MAP (snd (for_each l register st')) /\
  RAWCODES_MAP (snd (for_each l register st)) = RAWCODES_MAP (snd (for_each l register st')).
Proof.
  intros Hk Hk' Ht Hm Hr.
  destruct (fst (for_each l register st)) as [[]|e] eqn:E.
  - pose proof (register_loop_return l st (snd (for_each l register st)) Hk) as H.
    destruct (for_each l register st) as [o s] eqn:Es. cbn in E. subst o.
    destruct (H eq_refl) as [Hs HF]. cbn [snd] in *.
    pose proof (register_loop_total l st' Hk') as Htot. rewrite <- Ht in Htot.
    specialize (Htot HF).
    destruct (for_each l register st') as [o' s'] eqn:Es'. cbn in Htot. subst o'.
    apply register_loop_return in Es' as [Hs' _]; [|exact Hk'].
    cbn [fst snd]. split; [reflexivity|]. subst s s'.
    rewrite <- Ht, <- Hm, <- Hr. destruct st, st'; split; reflexivity.
  - destruct (register_loop_stop l st e Hk E) as (l1 & d & l2 & Hl & HF & Hnone & He & Hs).
    assert (E' : fst (for_each l register st') = Raise e).
    { rewrite Hl, for_each_app.
      pose proof (register_loop_total l1 st') as Htot. rewrite <- Ht in Htot.
      assert (Hk1 : known_ids st' l1).
      { intros x Hx. apply Hk'. rewrite Hl. apply elem_of_app. left; exact Hx. }
      specialize (Htot Hk1 HF).
      destruct (for_each l1 register st') as [o1 s1] eqn:E1. cbn in Htot. subst o1.
      apply register_loop_return in E1 as [-> _]; [|exact Hk1].
      cbn [for_each]. unfold bind.
      set (s1 := set_RAWCODES_MAP _ _).
      assert (Hreg : fst (register d s1) = Raise e).
      { unfold register. rewrite deserialize_known; cycle 1.
        { intros x Hx. apply list_elem_of_singleton in Hx as ->.
          destruct (Hk' d) as (k & Hkd & Hid).
          { rewrite Hl. apply elem_of_app. right. left. }
          exists k. split; [|exact Hid]. subst s1. destruct st'; exact Hkd. }
        rewrite resolve_active, active_table_set_KEYCODES_MAP.
        subst s1. rewrite active_table_set_RAWCODES_MAP, active_table_set_KEYCODES_MAP.
        rewrite <- Ht, Hnone, He. reflexivity. }
      destruct (register d s1) as [[[]|e1] s2]; cbn in Hreg; [discriminate|].
      injection Hreg as ->. reflexivity. }
    destruct (register_loop_stop l st' e Hk' E') as
      (l1' & d' & l2' & Hl' & HF' & Hnone' & He' & Hs').
    assert (Hsame : l1' = l1 /\ d' = d).
    { rewrite <- Ht in *. rewrite Hl in Hl'.
      apply (first_split_unique (fun d => is_Some (kc (active_table st) !! qmk_id d))
               l1 d l2 l1' d' l2' Hl' HF); [|exact HF'|].
      - rewrite Hnone. intros [? ?]; discriminate.
      - rewrite Hnone'. intros [? ?]; discriminate. }
    destruct Hsame as [-> ->].
    rewrite E', Hs, Hs'. split; [reflexivity|].
    rewrite <- Ht, <- Hm, <- Hr. destruct st, st'; split; reflexivity.
Qed.

(** X7: in every reachable state a string that is an id of
    [qmk_id_to_keycode] is deserialized by [resolve] on that very string,
    whatever [reraise] is; so an id that the active table lacks makes
    [deserialize] raise the RuntimeError of [resolve] even when
    [reraise] is false. *)
Theorem deserialize_registered_id st s reraise :
  reachable st ->
  is_Some (find_by_qmk_id st s) ->
  deserialize st (VStr s) reraise = resolve st s /\
  (kc (active_table st) !! s = None ->
   deserialize st (VStr s) false = Raise (RuntimeError ("unable to resolve qmk_id=" +:+ s))).
Proof.
  intros Hst [k Hk]. destruct (reachable_attributes st Hst) as (H1 & _).
  unfold find_by_qmk_id in Hk. pose proof (H1 s k Hk) as Hid.
  unfold deserialize. rewrite Hk, Hid. split; [reflexivity|].
  intros Hnone. rewrite resolve_active, Hnone. reflexivity.
Qed.

(** X8: a rebuild forgets no id and no recorder alias: an id that
    [find_by_qmk_id] knows before [recreate_keyboard_keycodes] is known
    after it, whatever the keyboard and the outcome, and
    [find_by_recorder_alias] answers as before. *)
Theorem rebuild_keeps_ids kb st :
  (forall s, is_Some (find_by_qmk_id st s) ->
     is_Some (find_by_qmk_id (snd (recreate_keyboard_keycodes kb st)) s)) /\
  (forall al, find_by_recorder_alias (snd (recreate_keyboard_keycodes kb st)) al =
              find_by_recorder_alias st al).
Proof.
  rewrite recreate_keyboard_keycodes_loop. unfold find_by_qmk_id, find_by_recorder_alias.
  destruct (loop_fields (all_keycodes (prepared kb st)) (prepared kb st)) as (_ & -> & _).
  destruct (loop_lists (all_keycodes (prepared kb st)) (prepared kb st)) as (-> & _).
  unfold prepared; cbn_fields. split; [|reflexivity].
  intros s Hs. rewrite foldl_add_qmk_lookup.
  destruct (List.find _ _); [eexists; reflexivity | exact Hs].
Qed.

(** X9: from a reachable state, [recreate_keyboard_keycodes] returns
    exactly when the table of the keyboard's protocol (v6 for protocol
    6, v5 for any other) has every id of the list [KEYCODES] that the
    call assembles. *)
Theorem rebuild_returns_iff kb st :
  reachable st ->
  fst (recreate_keyboard_keycodes kb st) = Return tt <->
  Forall (fun d =>
      is_Some (kc (if (vial_protocol kb =? 6)%Z then keycodes_v6 else keycodes_v5)
                 !! qmk_id d))
    (KEYCODES (snd (recreate_keyboard_keycodes kb st))).
Proof.
  intros Hst. rewrite recreate_keyboard_keycodes_loop.
  destruct (loop_fields (all_keycodes (prepared kb st)) (prepared kb st))
    as (_ & _ & _ & -> & _).
  rewrite <- active_table_prepared with (st := st).
  apply input_returns_iff. constructor. exact Hst.
Qed.

(** X11: when [recreate_keyboard_keycodes] raises from a reachable
    state, the list [KEYCODES] is complete and splits at the first
    keycode [d] whose id the active table lacks: the exception is the
    RuntimeError for that id, [KEYCODES_MAP] holds the keycodes up to
    and including [d], and [RAWCODES_MAP] those before [d]. *)
Theorem rebuild_stops_at_unresolved kb st e :
  reachable st ->
  fst (recreate_keyboard_keycodes kb st) = Raise e ->
  exists l1 d l2,
    KEYCODES (snd (recreate_keyboard_keycodes kb st)) = l1 ++ d :: l2 /\
    Forall (fun d => is_Some (kc (active_table (snd (recreate_keyboard_keycodes kb st)))
                                !! qmk_id d)) l1 /\
    kc (active_table (snd (recreate_keyboard_keycodes kb st))) !! qmk_id d = None /\
    e = RuntimeError ("unable to resolve qmk_id=" +:+ qmk_id d) /\
    KEYCODES_MAP (snd (recreate_keyboard_keycodes kb st)) = keymap_of (l1 ++ [d]) ∅ /\
    RAWCODES_MAP (snd (recreate_keyboard_keycodes kb st)) =
      rawmap_of (active_table (snd (recreate_keyboard_keycodes kb st))) l1 ∅.
Proof.
  intros Hst. rewrite recreate_keyboard_keycodes_loop. intros Hr.
  set (X := prepared kb st) in *.
  assert (HX : rebuild_input X) by (constructor; exact Hst).
  destruct (register_loop_stop _ _ e (input_known_ids X HX) Hr)
    as (l1 & d & l2 & Hl & HF & Hnone & He & Hs).
  rewrite active_table_loop. rewrite active_table_cleared in *.
  destruct (loop_fields (all_keycodes X) X) as (_ & _ & _ & -> & _).
  exists l1, d, l2. rewrite Hs.
  split; [exact Hl|]. split; [exact HF|]. split; [exact Hnone|]. split; [exact He|].
  generalize (active_table X). intros t. destruct X; split; reflexivity.
Qed.

(** X12: the registry a rebuild leaves does not depend on what was
    registered before: from any two reachable states,
    [recreate_keyboard_keycodes] with the same keyboard ends the same
    way and leaves the same protocol, the same lists and the same two
    maps. *)
Theorem rebuild_ignores_history kb st1 st2 :
  reachable st1 -> reachable st2 ->
  fst (recreate_keyboard_keycodes kb st1) = fst (recreate_keyboard_keycodes kb st2) /\
  protocol (snd (recreate_keyboard_keycodes kb st1)) =
    protocol (snd (recreate_keyboard_keycodes kb st2)) /\
  KEYCODES (snd (recreate_keyboard_keycodes kb st1)) =
    KEYCODES (snd (recreate_keyboard_keycodes kb st2)) /\
  KEYCODES_MAP (snd (recreate_keyboard_keycodes kb st1)) =
    KEYCODES_MAP (snd (recreate_keyboard_keycodes kb st2)) /\
  RAWCODES_MAP (snd (recreate_keyboard_keycodes kb st1)) =
    RAWCODES_MAP (snd (recreate_keyboard_keycodes kb st2)).
Proof.
  intros H1 H2. rewrite !recreate_keyboard_keycodes_loop.
  assert (HX1 : rebuild_input (prepared kb st1)) by (constructor; exact H1).
  assert (HX2 : rebuild_input (prepared kb st2)) by (constructor; exact H2).
  pose proof (input_known_ids _ HX1) as Hk1.
  pose proof (input_known_ids _ HX2) as Hk2.
  destruct (loop_fields (all_keycodes (prepared kb st1)) (prepared kb st1))
    as (_ & _ & -> & -> & _).
  destruct (loop_fields (all_keycodes (prepared kb st2)) (prepared kb st2))
    as (_ & _ & -> & -> & _).
  rewrite !all_keycodes_prepared in *.
  set (l := KEYCODES_SPECIAL ++ _) in *.
  destruct (register_loop_agree l (cleared (prepared kb st1)) (cleared (prepared kb st2))
              Hk1 Hk2) as (Ho & Hm & Hr).
  - rewrite !active_table_cleared. reflexivity.
  - destruct st1, st2; reflexivity.
  - destruct st1, st2; reflexivity.
  - repeat split; assumption.
Qed.

(** ** Lookups after a rebuild *)

(** X13: right after a rebuild, [find] returns only keycodes of the
    list [KEYCODES], filed under the text asked for (under KC_NO when
    the text is kc); and every keycode of the list has its stripped id
    answered by [find] with a keycode of the list that has the same
    stripped id. *)
Theorem find_sound_and_complete st :
  rebuilt st ->
  (forall k d, find st k = Some d ->
     d ∈ KEYCODES st /\
     strip_kc (qmk_id d) = if String.eqb k "kc" then "KC_NO" else k) /\
  (forall d, d ∈ KEYCODES st ->
     exists d', find st (strip_kc (qmk_id d)) = Some d' /\
                strip_kc (qmk_id d') = strip_kc (qmk_id d) /\ d' ∈ KEYCODES st).
Proof.
  intros Hst. pose proof (rebuilt_filed st Hst) as Hf. split.
  - intros k d. unfold find. destruct Hf as (-> & _).
    rewrite keymap_of_lookup.
    destruct (last_keyed _ (KEYCODES st)) as [d'|] eqn:E;
      [|rewrite lookup_empty; discriminate].
    intros [= <-]. apply last_keyed_Some in E. exact E.
  - intros d Hd. change (strip_kc (qmk_id d)) with (key_of d).
    rewrite (find_filed st _ (key_of d) Hf); cycle 1.
    { eapply classified_key_not_kc, reachable_classified;
        [apply rebuilt_reachable|]; eassumption. }
    destruct (last_keyed_is_Some (KEYCODES st) d Hd) as [d' Hd'].
    exists d'. apply last_keyed_Some in Hd' as Hin. rewrite Hd'.
    destruct Hin as [Hin Hkey]. repeat split; assumption.
Qed.

Lemma rawmap_of_other t l m r :
  (forall d, d ∈ l -> kc t !! qmk_id d <> Some r) ->
  rawmap_of t l m !! r = m !! r.
Proof.
  unfold rawmap_of. revert m. induction l as [|d l IH]; intros m H; [reflexivity|].
  cbn [foldl]. rewrite IH by (intros d' Hd'; apply H; right; exact Hd').
  destruct (kc t !! qmk_id d) as [v|] eqn:E; [|reflexivity].
  apply lookup_insert_ne. intros ->. apply (H d); [left | exact E].
Qed.

Lemma rawmap_of_last t l1 d l2 m r :
  kc t !! qmk_id d = Some r ->
  (forall d', d' ∈ l2 -> kc t !! qmk_id d' <> Some r) ->
  rawmap_of t (l1 ++ d :: l2) m !! r = Some d.
Proof.
  intros Hd Hl2. unfold rawmap_of. rewrite foldl_app. cbn [foldl]. rewrite Hd.
  fold (rawmap_of t l1 m).
  change (foldl _ ?m0 l2) with (rawmap_of t l2 m0).
  rewrite rawmap_of_other by exact Hl2. apply lookup_insert_eq.
Qed.

(** X14: right after a rebuild, a value outside the masked values is
    serialized to the id of the last keycode of the list [KEYCODES]
    that resolves to it: if [d] resolves to [r] and no keycode later in
    the list does, [serialize] of [r] is the id of [d]. *)
Theorem serialize_last_registered st l1 d l2 r :
  rebuilt st ->
  KEYCODES st = l1 ++ d :: l2 ->
  resolve st (qmk_id d) = Return r ->
  Z.land r 0xFF00 ∉ masked_raw (active_table st) ->
  (forall d', d' ∈ l2 -> resolve st (qmk_id d') <> Return r) ->
  serialize st r = qmk_id d.
Proof.
  intros Hst Hl Hr Hflat Hl2.
  destruct (rebuilt_filed st Hst) as (_ & Hraw & _).
  rewrite resolve_active in Hr.
  destruct (kc (active_table st) !! qmk_id d) as [r'|] eqn:Er; [|discriminate].
  injection Hr as ->.
  unfold serialize. rewrite bool_decide_eq_false_2 by exact Hflat. cbn [negb].
  rewrite Hraw, Hl, (rawmap_of_last _ l1 d l2 ∅ r Er); [reflexivity|].
  intros d' Hd' E. apply (Hl2 d' Hd'). rewrite resolve_active, E. reflexivity.
Qed.

(** ** Masks *)

Lemma uint_no_paren u : Py.contains "(" (DecimalString.NilEmpty.string_of_uint u) = false.
Proof. induction u; cbn; assumption || reflexivity. Qed.

Lemma str_no_paren x : Py.contains "(" (Py.str x) = false.
Proof.
  unfold Py.str. destruct (Z.to_int x) as [u|u]; cbn.
  - destruct u; try reflexivity; apply (uint_no_paren (_ u)).
  - destruct u; try reflexivity; apply (uint_no_paren (_ u)).
Qed.

Lemma str02_no_paren x : Py.contains "(" (Py.str02 x) = false.
Proof.
  unfold Py.str02. destruct (_ <? _)%nat; [cbn|]; apply str_no_paren.
Qed.

Lemma mask_prefix_paren p rest :
  Py.contains "(" p = false -> mask_prefix (p +:+ String "(" rest) = Some p.
Proof.
  intros Hp. unfold mask_prefix. rewrite contains_paren, slice_to_paren by exact Hp.
  reflexivity.
Qed.

Lemma is_mask_prefix st id :
  is_mask st id =
  match mask_prefix id with
  | Some p => bool_decide (p ∈ masked_keycodes st)
  | None => false
  end.
Proof. unfold is_mask, mask_prefix. destruct (Py.contains "(" id); reflexivity. Qed.

Lemma plain_pool_ok c : c ∈ keycode_pool -> masked c = false -> plain_entry_ok c = true.
Proof.
  revert c.
  apply (proj1 (Forall_forall (fun c => masked c = false -> plain_entry_ok c = true) _)).
  refine (bool_decide_eq_true_1 (Forall _ _) _). vm_compute. reflexivity.
Qed.

Lemma action_labels_free label : label ∈ action_labels -> label ∉ pool_prefixes.
Proof.
  revert label. apply (proj1 (Forall_forall (fun label => label ∉ pool_prefixes) _)).
  refine (bool_decide_eq_true_1 (Forall _ _) _). vm_compute. reflexivity.
Qed.

Lemma static_masked_bound p : p ∈ masked_keycodes static_state -> p ∈ pool_prefixes.
Proof.
  intros Hp. apply elem_of_elements in Hp. revert p Hp.
  apply (proj1 (Forall_forall (fun p => p ∈ pool_prefixes) _)).
  refine (bool_decide_eq_true_1 (Forall _ _) _). vm_compute. reflexivity.
Qed.

(** [masked_keycodes] never holds anything but prefixes of the pool. *)
Lemma masked_bound st p : reachable st -> p ∈ masked_keycodes st -> p ∈ pool_prefixes.
Proof.
  intros Hst. revert p. induction Hst as [|kb st Hst IH]; intros p.
  - unfold module_state. rewrite import_module_loop.
    destruct (loop_fields (all_keycodes static_state) static_state) as (-> & _).
    apply static_masked_bound.
  - rewrite recreate_keyboard_keycodes_loop.
    destruct (loop_fields (all_keycodes (prepared kb st)) (prepared kb st)) as (-> & _).
    unfold prepared; cbn_fields. rewrite elem_of_foldl_add_masked.
    intros [Hp|(a & Ha & Hm & <-)]; [apply IH, Hp|].
    destruct (dyn_src_classify kb a Ha) as [[Hlt _]|[Hm' _]]; [|congruence].
    unfold pool_prefixes. apply list_elem_of_In, in_map_iff.
    exists (Keycode_of a). split; [reflexivity|].
    apply list_elem_of_In. unfold masked_pool. apply list_elem_of_filter.
    split; [exact Hm|]. apply elem_of_app. right. exact Hlt.
Qed.

(** A plain keycode built by a rebuild has no parenthesis in its id, or
    the label of a layer action or of tap dance before it. *)
Lemma dyn_src_prefix kb a :
  a ∈ dyn_src kb -> k_masked a = false ->
  mask_prefix (k_qmk_id a) = None \/
  exists label, label ∈ action_labels /\ mask_prefix (k_qmk_id a) = Some label.
Proof.
  unfold dyn_src, layers_src. rewrite !elem_of_app.
  assert (Hmask : forall label, label ∈ action_labels ->
            a ∈ mask_src kb label ->
            exists label, label ∈ action_labels /\ mask_prefix (k_qmk_id a) = Some label).
  { intros label Hl. unfold mask_src. rewrite list_elem_of_In, in_map_iff.
    intros (x & <- & _). exists label. split; [exact Hl|]. cbn [k_qmk_id].
    change ("(" +:+ Py.str x +:+ ")") with (String "(" (Py.str x +:+ ")")).
    apply mask_prefix_paren.
    unfold action_labels in Hl.
    repeat (apply elem_of_cons in Hl as [->|Hl]); try reflexivity. inversion Hl. }
  assert (Hplain : forall s, Py.contains "(" s = false -> mask_prefix s = None).
  { intros s Hs. unfold mask_prefix. rewrite Hs. reflexivity. }
  intros [[Ha|[Ha|[Ha|[Ha|[Ha|[Ha|[Ha|Ha]]]]]]]|[Ha|[Ha|Ha]]] Hm.
  - left. unfold fn_src in Ha. destruct (4 <=? layers kb)%Z; [|inversion Ha].
    repeat (apply elem_of_cons in Ha as [->|Ha]); [reflexivity ..|inversion Ha].
  - right. apply (Hmask "MO"); [unfold action_labels; in_list | exact Ha].
  - right. apply (Hmask "DF"); [unfold action_labels; in_list | exact Ha].
  - right. apply (Hmask "TG"); [unfold action_labels; in_list | exact Ha].
  - right. apply (Hmask "TT"); [unfold action_labels; in_list | exact Ha].
  - right. apply (Hmask "OSL"); [unfold action_labels; in_list | exact Ha].
  - right. apply (Hmask "TO"); [unfold action_labels; in_list | exact Ha].
  - exfalso. unfold lt_src in Ha. rewrite list_elem_of_In, in_map_iff in Ha.
    destruct Ha as (x & <- & _). discriminate.
  - left. unfold macro_src in Ha. rewrite list_elem_of_In, in_map_iff in Ha.
    destruct Ha as (x & <- & _). apply Hplain. cbn. apply str_no_paren.
  - right. unfold tap_dance_src in Ha. rewrite list_elem_of_In, in_map_iff in Ha.
    destruct Ha as (x & <- & _). exists "TD". split; [unfold action_labels; in_list|].
    apply (mask_prefix_paren "TD"). reflexivity.
  - left. unfold user_src, generic_user_src, custom_user_src in Ha.
    destruct (custom_keycodes kb) as [[|c cs]|];
      rewrite list_elem_of_In, in_map_iff in Ha;
      destruct Ha as (x & <- & _); try destruct x as [x c'];
      apply Hplain; cbn; apply str02_no_paren.
Qed.

Lemma reachable_members st d :
  reachable st -> d ∈ KEYCODES st ->
  d ∈ static_keycodes \/ exists kb a, a ∈ dyn_src kb /\ d = Keycode_of a.
Proof.
  intros H Hd. apply reachable_inv in H as (X & HX & ->).
  destruct (loop_fields (all_keycodes X) X) as (_ & _ & _ & Hl & _).
  rewrite Hl in Hd. destruct HX as [|kb st H].
  - left. apply static_members, Hd.
  - apply prepared_members in Hd as [Hd|(a & Ha & ->)]; [left; exact Hd|].
    right. exists kb, a. split; [exact Ha | reflexivity].
Qed.

(** X15: in every reachable state [is_mask] of the id of a keycode of
    the list [KEYCODES] is the masked flag of that keycode, also after
    rebuilds that left prefixes of dropped keycodes in
    [masked_keycodes]. *)
Theorem is_mask_registered st d :
  reachable st -> d ∈ KEYCODES st ->
  is_mask st (qmk_id d) = masked d.
Proof.
  intros Hst Hd. rewrite is_mask_prefix. destruct (masked d) eqn:Hm.
  - destruct (reachable_classified st d Hst Hd) as [[Hp Hk]|[H _]]; [|congruence].
    specialize (Hk Hm).
    assert (Hok : masked_entry_ok d = true).
    { apply masked_pool_ok. unfold masked_pool. apply list_elem_of_filter. split; assumption. }
    unfold masked_entry_ok in Hok.
    repeat (apply andb_true_iff in Hok as [Hok ?]).
    repeat match goal with H : negb _ = true |- _ => apply negb_true_iff in H end.
    apply String.eqb_eq in Hok. rewrite Hok.
    change (key_of d +:+ "(kc)") with (key_of d +:+ String "(" "kc)").
    rewrite mask_prefix_paren by assumption.
    apply bool_decide_eq_true_2, Hk.
  - assert (Hfree : forall p, mask_prefix (qmk_id d) = Some p -> p ∉ pool_prefixes).
    { destruct (reachable_members st d Hst Hd) as [Hs|(kb & a & Ha & ->)].
      - assert (Hok : plain_entry_ok d = true).
        { apply plain_pool_ok; [apply elem_of_app; left|]; assumption. }
        unfold plain_entry_ok in Hok. apply andb_true_iff in Hok as [Hok _].
        intros p Hp. rewrite Hp in Hok. apply negb_true_iff in Hok.
        apply bool_decide_eq_false_1 in Hok. exact Hok.
      - destruct (dyn_src_prefix kb a Ha Hm) as [Hn|(label & Hl & Hp)];
          cbn [Keycode_of qmk_id]; intros p; [rewrite Hn; discriminate|].
        rewrite Hp. intros [= <-]. apply action_labels_free, Hl. }
    destruct (mask_prefix (qmk_id d)) as [p|]; [|reflexivity].
    apply bool_decide_eq_false_2. intros Hp. apply (Hfree p eq_refl).
    apply (masked_bound st p Hst Hp).
Qed.

(** ** The inner text of a composite *)

Lemma substring_skip a b k n :
  String.substring (String.length a + k) n (a +:+ b) = String.substring k n b.
Proof. induction a as [|c a IH]; cbn [String.length String.append]; [reflexivity | exact IH]. Qed.

Lemma substring_all s : String.substring 0 (String.length s) s = s.
Proof. induction s as [|c s IH]; cbn; [reflexivity | rewrite IH; reflexivity]. Qed.

(** [s[find("(")+1:]] is what stands after the first parenthesis. *)
Lemma slice_after_paren p rest :
  Py.contains "(" p = false ->
  Py.slice (p +:+ String "(" rest) (Py.find "(" (p +:+ String "(" rest) + 1)
    (Z.of_nat (String.length (p +:+ String "(" rest))) = rest.
Proof.
  intros Hp. unfold Py.find. rewrite find_from_app by exact Hp.
  unfold Py.slice, Py.bound. rewrite !length_append. cbn [String.length].
  destruct (Z.ltb_spec (0 + Z.of_nat (String.length p) + 1) 0) as [Hlt|_]; [lia|].
  destruct (Z.ltb_spec (Z.of_nat (String.length p + S (String.length rest))) 0) as [Hlt|_];
    [lia|].
  set (n := String.length p). set (k := String.length rest).
  replace (Z.to_nat (Z.min (Z.of_nat (n + S k)) (0 + Z.of_nat n + 1))) with (n + 1)%nat by lia.
  replace (Z.to_nat (Z.min (Z.of_nat (n + S k)) (Z.of_nat (n + S k)))) with (n + 1 + k)%nat
    by lia.
  replace (n + 1 + k - (n + 1))%nat with k by lia.
  subst n k. rewrite substring_skip. cbn [String.substring].
  apply substring_all.
Qed.

Lemma list_ascii_of_append a b :
  list_ascii_of_string (a +:+ b) = list_ascii_of_string a ++ list_ascii_of_string b.
Proof.
  induction a as [|c a IH]; cbn [String.append list_ascii_of_string app];
    [reflexivity | rewrite IH; reflexivity].
Qed.

Lemma drop_last_char_conts l b rest :
  forallb Py.is_continuation l = true -> Py.is_continuation b = false ->
  Py.drop_last_char (rev l ++ b :: rest) = rest.
Proof.
  induction l as [|x l IH] using rev_ind; intros Hl Hb.
  - cbn. rewrite Hb. reflexivity.
  - rewrite forallb_app in Hl. apply andb_true_iff in Hl as [Hl Hx].
    cbn in Hx. rewrite andb_true_r in Hx.
    rewrite rev_app_distr. cbn [rev app Py.drop_last_char]. rewrite Hx.
    apply IH; assumption.
Qed.

(** A character is a byte that is no continuation byte, followed by
    continuation bytes only. *)
Lemma is_char_bytes c :
  Py.is_char c = true ->
  exists b rest, c = String b rest /\ Py.is_continuation b = false /\
    forallb Py.is_continuation (list_ascii_of_string rest) = true.
Proof.
  destruct c as [|b rest]; [discriminate|]. unfold Py.is_char.
  intros H. apply andb_true_iff in H as [Hrest Hlead].
  exists b, rest. split; [reflexivity|]. split; [|exact Hrest].
  unfold Py.is_continuation.
  destruct (Nat.leb_spec 128 (nat_of_ascii b)) as [H1|H1]; [|reflexivity].
  destruct (Nat.ltb_spec (nat_of_ascii b) 192) as [H2|H2]; [|reflexivity].
  exfalso.
  destruct (Nat.ltb_spec (nat_of_ascii b) 128) as [H3|_]; [lia|].
  destruct (Nat.leb_spec 192 (nat_of_ascii b)) as [H4|_]; [lia|].
  destruct (Nat.leb_spec 224 (nat_of_ascii b)) as [H5|_]; [lia|].
  destruct (Nat.leb_spec 240 (nat_of_ascii b)) as [H6|_]; [lia|].
  cbn in Hlead. discriminate Hlead.
Qed.

(** [(inner + c)[:-1]] is [inner] for one character [c]. *)
Lemma but_last_char inner c : Py.is_char c = true -> Py.but_last (inner +:+ c) = inner.
Proof.
  intros Hc. destruct (is_char_bytes c Hc) as (b & rest & -> & Hb & Hrest).
  unfold Py.but_last. rewrite list_ascii_of_append. cbn [list_ascii_of_string].
  rewrite rev_app_distr. cbn [rev]. rewrite <- app_assoc. cbn [app].
  rewrite drop_last_char_conts by assumption.
  rewrite rev_involutive. apply string_of_list_ascii_of_string.
Qed.

(** X16: in every reachable state, for a masked keycode of the list
    [KEYCODES] with prefix OUTER, [find_inner_keycode] of a text made of
    OUTER, a parenthesis, a text INNER and one more character of any
    kind, ASCII or not, is [find] of INNER: the text is cut after the
    first parenthesis and loses its last character, whatever that
    character is; for the id OUTER(kc) itself this is the keycode filed
    under KC_NO. *)
Theorem find_inner_of_composite st d inner c :
  reachable st -> d ∈ KEYCODES st -> masked d = true ->
  Py.is_char c = true ->
  find_inner_keycode st (strip_kc (qmk_id d) +:+ "(" +:+ inner +:+ c) = find st inner /\
  find_inner_keycode st (qmk_id d) = KEYCODES_MAP st !! "KC_NO".
Proof.
  intros Hst Hd Hm Hc.
  destruct (reachable_classified st d Hst Hd) as [[Hp Hk]|[H _]]; [|congruence].
  specialize (Hk Hm).
  assert (Hok : masked_entry_ok d = true).
  { apply masked_pool_ok. unfold masked_pool. apply list_elem_of_filter. split; assumption. }
  unfold masked_entry_ok in Hok.
  repeat (apply andb_true_iff in Hok as [Hok ?]).
  repeat match goal with H : negb _ = true |- _ => apply negb_true_iff in H end.
  apply String.eqb_eq in Hok.
  assert (Hgen : forall inner c, Py.is_char c = true ->
    find_inner_keycode st (key_of d +:+ String "(" (inner +:+ c)) = find st inner).
  { intros i c' Hc'. unfold find_inner_keycode. rewrite is_mask_prefix.
    rewrite mask_prefix_paren by assumption.
    rewrite bool_decide_eq_true_2 by exact Hk.
    unfold Py.slice_but_last. rewrite slice_after_paren by assumption.
    rewrite but_last_char by exact Hc'. reflexivity. }
  split; [exact (Hgen inner c Hc)|].
  rewrite Hok. exact (Hgen "kc" ")" eq_refl).
Qed.

(** ** The dialog *)

Lemma replace_nonempty s old new :
  s <> "" -> new <> "" -> Py.replace s old new <> "".
Proof.
  intros Hs Hn. destruct s as [|c s]; [contradiction|].
  unfold Py.replace. destruct old as [|o old].
  - cbn. destruct new; [contradiction | discriminate].
  - cbn [Py.replace_go]. destruct (String.prefix _ _); [|discriminate].
    destruct new; [contradiction | discriminate].
Qed.

Lemma hex_nonempty x : Py.hex x <> "".
Proof. unfold Py.hex. destruct (Z.to_hex_int x); discriminate. Qed.

Lemma pool_id_nonempty d : d ∈ keycode_pool -> qmk_id d <> "".
Proof.
  revert d. apply (proj1 (Forall_forall (fun d => qmk_id d <> "") _)).
  refine (bool_decide_eq_true_1 (Forall _ _) _). vm_compute. reflexivity.
Qed.

Lemma classified_id_nonempty st d : classified st d -> qmk_id d <> "".
Proof.
  intros [[Hp _]|[_ Hf]]; [apply pool_id_nonempty, Hp|].
  intros E. unfold key_of in Hf. rewrite E in Hf. discriminate.
Qed.

Lemma serialize_nonempty st code : rebuilt st -> serialize st code <> "".
Proof.
  intros Hst. destruct (rebuilt_filed st Hst) as (_ & Hraw & _).
  assert (Hid : forall r d, RAWCODES_MAP st !! r = Some d -> qmk_id d <> "").
  { intros r d. rewrite Hraw. intros H.
    apply rawmap_of_lookup in H as [H|[H _]]; [rewrite lookup_empty in H; discriminate|].
    eapply classified_id_nonempty, reachable_classified; [apply rebuilt_reachable|];
      eassumption. }
  unfold serialize. destruct (negb _).
  - destruct (RAWCODES_MAP st !! code) as [d|] eqn:E; [eapply Hid, E | apply hex_nonempty].
  - destruct (RAWCODES_MAP st !! Z.land code 65280) as [o|] eqn:Eo; [|apply hex_nonempty].
    destruct (RAWCODES_MAP st !! Z.land code 255) as [i|] eqn:Ei; [|apply hex_nonempty].
    apply replace_nonempty; [eapply Hid, Eo | eapply Hid, Ei].
Qed.

(** X17: with the registry right after a rebuild, the dialog enables
    its OK button exactly when the text is not empty and [deserialize]
    with [reraise] set returns for it; the value the dialog then keeps
    is the serialization of the integer returned.  An empty text
    disables the button whatever the parser makes of it. *)
Theorem on_change_ok st text :
  rebuilt st ->
  (AnyKeycodeDialog.ok_enabled (on_change st text) = true <->
   text <> "" /\ exists v, deserialize st (VStr text) true = Return v) /\
  (forall v, text <> "" -> deserialize st (VStr text) true = Return v ->
     AnyKeycodeDialog.value (on_change st text) = serialize st v).
Proof.
  intros Hst. unfold on_change.
  destruct (String.eqb_spec text "") as [->|Hne].
  - split; [|intros v H; contradiction].
    destruct (deserialize st (VStr "") true); cbn; split; try discriminate;
      intros [H _]; contradiction.
  - destruct (deserialize st (VStr text) true) as [v|e].
    + cbn. pose proof (serialize_nonempty st v Hst) as Hs.
      apply String.eqb_neq in Hs. rewrite Hs. split.
      * split; [intros _; split; [exact Hne | eauto] | reflexivity].
      * intros v' _ [= <-]. reflexivity.
    + split.
      * destruct (exn_str e); cbn; split; try discriminate; intros [_ [v H]]; discriminate.
      * intros v _ H. discriminate.
Qed.

(** ** The lists of a rebuild *)

Lemma length_range n : length (Py.range n) = Z.to_nat n.
Proof. unfold Py.range. rewrite length_map, length_seq. reflexivity. Qed.

(** X18: [recreate_keyboard_keycodes] leaves in [KEYCODES_LAYERS], in
    this order, FN_MO13 and FN_MO23 when there are four layers or more,
    then for each of MO, DF, TG, TT, OSL and TO one plain keycode per
    layer, then one masked layer-tap keycode for each of the first
    sixteen layers; in [KEYCODES_MACRO] one plain keycode per macro and
    then the fixed macro keycodes; in [KEYCODES_TAP_DANCE] one plain
    keycode per tap dance.  Each keycode has its id as only alias, and a
    count that is not positive gives no keycode.  The lengths follow. *)
Theorem rebuild_lists kb st :
  let plain id := mkKeycode id false [id] in
  let action label := map (fun x => plain (label +:+ "(" +:+ Py.str x +:+ ")"))
                        (Py.range (layers kb)) in
  let st' := snd (recreate_keyboard_keycodes kb st) in
  KEYCODES_LAYERS st' =
    (if (4 <=? layers kb)%Z then [plain "FN_MO13"; plain "FN_MO23"] else []) ++
    action "MO" ++ action "DF" ++ action "TG" ++ action "TT" ++ action "OSL" ++
    action "TO" ++
    map (fun x => mkKeycode ("LT" +:+ Py.str x +:+ "(kc)") true
                    ["LT" +:+ Py.str x +:+ "(kc)"])
      (Py.range (Z.min (layers kb) 16)) /\
  KEYCODES_MACRO st' =
    map (fun x => plain ("M" +:+ Py.str x)) (Py.range (macro_count kb)) ++
    KEYCODES_MACRO_BASE /\
  KEYCODES_TAP_DANCE st' =
    map (fun x => plain ("TD(" +:+ Py.str x +:+ ")")) (Py.range (tap_dance_count kb)) /\
  length (KEYCODES_LAYERS st') =
    ((if (4 <=? layers kb)%Z then 2 else 0) + 6 * Z.to_nat (layers kb) +
     Z.to_nat (Z.min (layers kb) 16))%nat /\
  length (KEYCODES_MACRO st') =
    (Z.to_nat (macro_count kb) + length KEYCODES_MACRO_BASE)%nat /\
  length (KEYCODES_TAP_DANCE st') = Z.to_nat (tap_dance_count kb).
Proof.
  cbv zeta. rewrite recreate_keyboard_keycodes_loop.
  destruct (loop_lists (all_keycodes (prepared kb st)) (prepared kb st))
    as (_ & -> & -> & -> & _).
  unfold prepared; cbn_fields.
  unfold layers_src, macro_src, tap_dance_src, mask_src, lt_src, fn_src.
  rewrite !map_app, !map_map.
  split; [|split; [|split]].
  - destruct (4 <=? layers kb)%Z; reflexivity.
  - reflexivity.
  - reflexivity.
  - repeat rewrite ?length_app, ?length_map, ?length_range.
    destruct (4 <=? layers kb)%Z; cbn [length]; repeat split; lia.
Qed.

(** ** The check boxes of the key override editor *)

Lemma range_of_nat n : Py.range (Z.of_nat n) = map Z.of_nat (seq 0 n).
Proof. unfold Py.range. rewrite Nat2Z.id. reflexivity. Qed.

Lemma enumerate_snoc {A} (l : list A) b :
  enumerate (l ++ [b]) = enumerate l ++ [(Z.of_nat (length l), b)].
Proof.
  unfold enumerate. rewrite !range_of_nat, length_app. cbn [length].
  rewrite seq_app, map_app. cbn [seq map].
  rewrite zip_with_app by (rewrite length_map, length_seq; reflexivity).
  reflexivity.
Qed.

Lemma load_snoc l b data :
  ModsUI.load (l ++ [b]) data =
  ModsUI.load l data ++ [Z.testbit data (Z.of_nat (length l))].
Proof.
  unfold ModsUI.load. rewrite enumerate_snoc, map_app. cbn [map]. f_equal. f_equal.
  rewrite Z.shiftl_1_l, Z.land_comm.
  destruct (Z.testbit data (Z.of_nat (length l))) eqn:E.
  - apply negb_true_iff, Z.eqb_neq. intros H.
    pose proof (Z.land_spec (2 ^ Z.of_nat (length l)) data (Z.of_nat (length l))) as Hb.
    rewrite H, Z.bits_0, Z.pow2_bits_true, E in Hb by lia. discriminate.
  - apply negb_false_iff, Z.eqb_eq. apply Z.bits_inj'. intros i Hi.
    rewrite Z.land_spec, Z.bits_0.
    destruct (Z.eq_dec i (Z.of_nat (length l))) as [->|Hne].
    + rewrite E. apply andb_false_r.
    + rewrite Z.pow2_bits_false by lia. reflexivity.
Qed.

Lemma save_snoc l b :
  ModsUI.save (l ++ [b]) =
  Z.lor (ModsUI.save l) (Z.shiftl (Z.b2z b) (Z.of_nat (length l))).
Proof. unfold ModsUI.save. rewrite enumerate_snoc, foldl_app. reflexivity. Qed.

Lemma length_load l data : length (ModsUI.load l data) = length l.
Proof.
  unfold ModsUI.load, enumerate. rewrite length_map, length_zip_with_r_eq; [reflexivity|].
  rewrite range_of_nat, length_map, length_seq. reflexivity.
Qed.

Lemma b2z_shift_bit b n i :
  (0 <= n)%Z -> (0 <= i)%Z ->
  Z.testbit (Z.shiftl (Z.b2z b) n) i = (i =? n)%Z && b.
Proof.
  intros Hn Hi. rewrite Z.shiftl_spec by exact Hi.
  destruct (Z.eqb_spec i n) as [->|Hne].
  - rewrite Z.sub_diag, Z.b2z_bit0. reflexivity.
  - destruct (Z.lt_ge_cases i n) as [Hlt|Hge].
    + apply Z.testbit_neg_r. lia.
    + destruct b; cbn [Z.b2z]; [|apply Z.bits_0].
      apply Z.bits_above_log2; cbn; lia.
Qed.

(** The bits of what [save] returns are the states of the boxes. *)
Lemma save_testbit l i :
  (0 <= i)%Z -> Z.testbit (ModsUI.save l) i = default false (l !! Z.to_nat i).
Proof.
  intros Hi. induction l as [|b l IH] using rev_ind.
  - cbn. rewrite Z.bits_0. reflexivity.
  - rewrite save_snoc, Z.lor_spec, IH, b2z_shift_bit by lia.
    destruct (Z.eqb_spec i (Z.of_nat (length l))) as [->|Hne].
    + rewrite Nat2Z.id, lookup_ge_None_2 by lia.
      rewrite lookup_app_r, Nat.sub_diag by lia. reflexivity.
    + rewrite andb_false_l, orb_false_r.
      destruct (Z.lt_ge_cases i (Z.of_nat (length l))) as [Hlt|Hge].
      * rewrite lookup_app_l by lia. reflexivity.
      * rewrite !lookup_ge_None_2; [reflexivity | rewrite length_app; cbn; lia | lia].
Qed.

Lemma load_lookup l data i :
  (i < length l)%nat -> ModsUI.load l data !! i = Some (Z.testbit data (Z.of_nat i)).
Proof.
  induction l as [|b l IH] using rev_ind; intros Hi; [cbn in Hi; lia|].
  rewrite length_app in Hi. cbn in Hi. rewrite load_snoc.
  destruct (decide (i < length l)%nat) as [Hlt|Hge].
  - rewrite lookup_app_l by (rewrite length_load; exact Hlt). apply IH, Hlt.
  - assert (i = length l) as -> by lia.
    rewrite lookup_app_r by (rewrite length_load; lia).
    rewrite length_load, Nat.sub_diag. reflexivity.
Qed.

Lemma save_load l data :
  ModsUI.save (ModsUI.load l data) = Z.land data (Z.ones (Z.of_nat (length l))).
Proof.
  apply Z.bits_inj'. intros i Hi. rewrite save_testbit, Z.land_spec by exact Hi.
  destruct (Z.lt_ge_cases i (Z.of_nat (length l))) as [Hlt|Hge].
  - rewrite load_lookup by lia. rewrite Z.ones_spec_low by lia.
    rewrite Z2Nat.id by exact Hi. cbn. rewrite andb_true_r. reflexivity.
  - rewrite lookup_ge_None_2 by (rewrite length_load; lia).
    rewrite Z.ones_spec_high by lia. rewrite andb_false_r. reflexivity.
Qed.

Lemma load_save l l' : length l' = length l -> ModsUI.load l' (ModsUI.save l) = l.
Proof.
  intros Hlen. apply list_eq. intros i.
  destruct (decide (i < length l)%nat) as [Hlt|Hge].
  - rewrite load_lookup by lia. rewrite save_testbit by lia. rewrite Nat2Z.id.
    destruct (lookup_lt_is_Some_2 l i Hlt) as [b Hb]. rewrite Hb. reflexivity.
  - rewrite !lookup_ge_None_2; [reflexivity | lia | rewrite length_load; lia].
Qed.

(** X19: for the eight modifier boxes, [save] after [load] returns the
    low eight bits of the number loaded, also for a negative number, and
    [load] of what [save] returned puts every box back in its state. *)
Theorem ModsUI_round_trip mods boxes data :
  length mods = 8%nat -> length boxes = 8%nat ->
  ModsUI.save (ModsUI.load mods data) = Z.land data 0xFF /\
  ModsUI.load boxes (ModsUI.save mods) = mods.
Proof.
  intros Hm Hb. split.
  - rewrite save_load, Hm. reflexivity.
  - apply load_save. congruence.
Qed.

(** X20: for the sixteen layer boxes, [save] after [load] returns the
    low sixteen bits of the number loaded, [load] of what [save]
    returned puts every box back in its state, and after enabling or
    disabling all layers [save] returns 0xFFFF or 0. *)
Theorem LayersUI_round_trip layer_chks boxes data :
  length layer_chks = 16%nat -> length boxes = 16%nat ->
  LayersUI.save (LayersUI.load layer_chks data) = Z.land data 0xFFFF /\
  LayersUI.load boxes (LayersUI.save layer_chks) = layer_chks /\
  LayersUI.save (LayersUI.on_enable_all_layers layer_chks) = 0xFFFF%Z /\
  LayersUI.save (LayersUI.on_disable_all_layers layer_chks) = 0%Z.
Proof.
  intros Hm Hb. split; [|split].
  - change (ModsUI.save (ModsUI.load layer_chks data) = Z.land data 0xFFFF).
    rewrite save_load, Hm. reflexivity.
  - apply (load_save layer_chks boxes). congruence.
  - do 17 (destruct layer_chks as [|? layer_chks]; try discriminate).
    split; reflexivity.
Qed.

(** ** User and MIDI keycodes *)

Lemma range_lookup n i : (i < n)%nat -> Py.range (Z.of_nat n) !! i = Some (Z.of_nat i).
Proof.
  intros Hi. rewrite range_of_nat. change (map Z.of_nat (seq 0 n)) with (Z.of_nat <$> seq 0 n).
  rewrite list_lookup_fmap, lookup_seq_lt by exact Hi. reflexivity.
Qed.

(** X21: when the keyboard has a custom list with an entry, the user
    keycode built for the entry at position i has the id USER followed
    by i on at least two digits, whatever the entry says, and carries as
    aliases that id and the name of the entry, or the id twice when the
    entry has no name. *)
Theorem custom_user_keycode_at kb st c cs i e :
  custom_keycodes kb = Some (c :: cs) ->
  (c :: cs) !! i = Some e ->
  KEYCODES_USER (snd (recreate_keyboard_keycodes kb st)) !! i =
  Some (mkKeycode ("USER" +:+ Py.str02 (Z.of_nat i)) false
          ["USER" +:+ Py.str02 (Z.of_nat i);
           default ("USER" +:+ Py.str02 (Z.of_nat i)) (name e)]).
Proof.
  intros Hc He. rewrite recreate_keyboard_keycodes_loop.
  destruct (loop_fields (all_keycodes (prepared kb st)) (prepared kb st))
    as (_ & _ & _ & _ & ->).
  unfold prepared; cbn_fields. unfold user_src. rewrite Hc. unfold custom_user_src.
  rewrite map_map.
  change (map ?f ?l) with (f <$> l).
  rewrite list_lookup_fmap, lookup_zip_with, He.
  rewrite range_lookup by (apply lookup_lt_is_Some; eauto).
  reflexivity.
Qed.

Lemma midi_basic_own_key d :
  d ∈ KEYCODES_MIDI_BASIC -> own_key_only nonmidi_pool d = true.
Proof.
  revert d. apply (proj1 (Forall_forall (fun d => own_key_only nonmidi_pool d = true) _)).
  refine (bool_decide_eq_true_1 (Forall _ _) _). vm_compute. reflexivity.
Qed.

Lemma midi_advanced_own_key d :
  d ∈ KEYCODES_MIDI_ADVANCED ->
  own_key_only (nonmidi_pool ++ KEYCODES_MIDI_BASIC) d = true.
Proof.
  revert d.
  apply (proj1 (Forall_forall
    (fun d => own_key_only (nonmidi_pool ++ KEYCODES_MIDI_BASIC) d = true) _)).
  refine (bool_decide_eq_true_1 (Forall _ _) _). vm_compute. reflexivity.
Qed.

Lemma prepared_members_midi kb st d :
  d ∈ all_keycodes (prepared kb st) ->
  d ∈ nonmidi_pool \/ (masked d = false /\ dyn_family (key_of d) = true) \/
  d ∈ midi_list kb.
Proof.
  rewrite all_keycodes_prepared. intros Hd.
  assert (Hs : d ∈ nonmidi_pool \/ d ∈ midi_list kb \/
               d ∈ map Keycode_of (layers_src kb) \/ d ∈ map Keycode_of (tap_dance_src kb) \/
               d ∈ map Keycode_of (macro_src kb) \/ d ∈ map Keycode_of (user_src kb)).
  { unfold nonmidi_pool. rewrite !elem_of_app in *. tauto. }
  destruct Hs as [Hs|[Hs|Hs]]; [left; exact Hs | right; right; exact Hs |].
  assert (Ha : exists a, a ∈ dyn_src kb /\ d = Keycode_of a).
  { rewrite !list_elem_of_In, !in_map_iff in Hs. unfold dyn_src.
    destruct Hs as [(a & <- & Ha)|[(a & <- & Ha)|[(a & <- & Ha)|(a & <- & Ha)]]];
      exists a; (split; [|reflexivity]); rewrite !elem_of_app, !list_elem_of_In; tauto. }
  destruct Ha as (a & Ha & ->).
  destruct (dyn_src_classify kb a Ha) as [[Hlt _]|[Hm Hf]].
  - left. unfold nonmidi_pool. rewrite !elem_of_app. tauto.
  - right. left. split; assumption.
Qed.

Lemma own_key_only_spec others d :
  own_key_only others d = true ->
  key_of d = qmk_id d /\ qmk_id d <> "kc" /\ dyn_family (qmk_id d) = false /\
  forall d', d' ∈ others -> key_of d' <> qmk_id d.
Proof.
  unfold own_key_only. intros H.
  repeat (apply andb_true_iff in H as [H ?]).
  repeat match goal with H : negb _ = true |- _ => apply negb_true_iff in H end.
  apply String.eqb_eq in H.
  match goal with H : String.eqb _ _ = false |- _ => apply String.eqb_neq in H end.
  repeat split; try assumption.
  intros d' Hd'.
  match goal with H : forallb _ _ = true |- _ => rewrite forallb_forall in H;
    specialize (H d' (proj1 (list_elem_of_In _ _) Hd')) end.
  match goal with H : negb _ = true |- _ => apply negb_true_iff, String.eqb_neq in H end.
  assumption.
Qed.

(** X22: after a call of [recreate_keyboard_keycodes] that returns from
    a reachable state, [find] answers for the id of a basic MIDI keycode
    exactly when the MIDI level of the keyboard is basic or advanced,
    and for the id of an advanced MIDI keycode exactly when it is
    advanced; any other level, or none, hides them all. *)
Theorem midi_found_iff kb st :
  reachable st ->
  fst (recreate_keyboard_keycodes kb st) = Return tt ->
  (forall d, d ∈ KEYCODES_MIDI_BASIC ->
     is_Some (find (snd (recreate_keyboard_keycodes kb st)) (qmk_id d)) <->
     midi kb = Some "basic" \/ midi kb = Some "advanced") /\
  (forall d, d ∈ KEYCODES_MIDI_ADVANCED ->
     is_Some (find (snd (recreate_keyboard_keycodes kb st)) (qmk_id d)) <->
     midi kb = Some "advanced").
Proof.
  intros Hst Hret.
  assert (Hreb : rebuilt (snd (recreate_keyboard_keycodes kb st)))
    by (constructor; assumption).
  pose proof (rebuilt_filed _ Hreb) as Hf.
  assert (Hl : KEYCODES (snd (recreate_keyboard_keycodes kb st)) =
               all_keycodes (prepared kb st)).
  { rewrite recreate_keyboard_keycodes_loop.
    destruct (loop_fields (all_keycodes (prepared kb st)) (prepared kb st))
      as (_ & _ & _ & H & _). exact H. }
  assert (Hmidi_in : forall d, d ∈ midi_list kb -> d ∈ all_keycodes (prepared kb st)).
  { intros d Hd. rewrite all_keycodes_prepared. rewrite !elem_of_app. tauto. }
  assert (Hfound : forall others d,
    own_key_only others d = true ->
    (is_Some (find (snd (recreate_keyboard_keycodes kb st)) (qmk_id d)) <->
     exists d', d' ∈ all_keycodes (prepared kb st) /\ key_of d' = qmk_id d)).
  { intros others d Hok. apply own_key_only_spec in Hok as (_ & Hkc & _).
    rewrite (find_filed _ _ _ Hf) by exact Hkc. rewrite Hl. split.
    - intros [d' Hd']. apply last_keyed_Some in Hd'. eauto.
    - intros (d' & Hin & Hk). rewrite <- Hk. apply last_keyed_is_Some, Hin. }
  unfold midi_list in Hmidi_in.
  split; intros d Hd.
  - pose proof (midi_basic_own_key d Hd) as Hok. rewrite (Hfound _ _ Hok).
    apply own_key_only_spec in Hok as (Hkey & _ & Hfam & Hothers). split.
    + intros (d' & Hin & Hk).
      apply prepared_members_midi in Hin as [Hin|[[_ Hin]|Hin]].
      * exfalso. exact (Hothers d' Hin Hk).
      * rewrite Hk in Hin. congruence.
      * unfold midi_list in Hin.
        destruct (bool_decide (midi kb = Some "basic")) eqn:Eb;
          [apply bool_decide_eq_true_1 in Eb; left; exact Eb|].
        destruct (bool_decide (midi kb = Some "advanced")) eqn:Ea;
          [apply bool_decide_eq_true_1 in Ea; right; exact Ea|].
        cbn in Hin. inversion Hin.
    + intros Hlevel. exists d. split; [|exact Hkey]. apply Hmidi_in.
      apply elem_of_app. left.
      destruct Hlevel as [E|E]; rewrite E.
      * rewrite (bool_decide_eq_true_2 (Some "basic" = Some "basic")) by reflexivity.
        exact Hd.
      * rewrite (bool_decide_eq_true_2 (Some "advanced" = Some "advanced")) by reflexivity.
        rewrite orb_true_r. exact Hd.
  - pose proof (midi_advanced_own_key d Hd) as Hok. rewrite (Hfound _ _ Hok).
    apply own_key_only_spec in Hok as (Hkey & _ & Hfam & Hothers). split.
    + intros (d' & Hin & Hk).
      apply prepared_members_midi in Hin as [Hin|[[_ Hin]|Hin]].
      * exfalso. apply (Hothers d'); [apply elem_of_app; left; exact Hin | exact Hk].
      * rewrite Hk in Hin. congruence.
      * unfold midi_list in Hin.
        destruct (bool_decide (midi kb = Some "advanced")) eqn:Ea;
          [apply bool_decide_eq_true_1 in Ea; exact Ea|].
        rewrite orb_false_r, app_nil_r in Hin.
        destruct (bool_decide (midi kb = Some "basic")); [|inversion Hin].
        exfalso. apply (Hothers d'); [apply elem_of_app; right; exact Hin | exact Hk].
    + intros E. exists d. split; [|exact Hkey]. apply Hmidi_in.
      apply elem_of_app. right. rewrite E.
      rewrite bool_decide_eq_true_2 by reflexivity. exact Hd.
Qed.
End Registry.

(** * The properties on the sample environment *)

Abbreviation sample_module := (module_state sample_v5 sample_v6 sample_decode).
Abbreviation sample_find := find.
Abbreviation sample_resolve := (resolve sample_v5 sample_v6).
Abbreviation sample_serialize := (serialize sample_v5 sample_v6).
Abbreviation sample_deserialize := (deserialize sample_v5 sample_v6 sample_decode).
Abbreviation sample_normalize := (normalize sample_v5 sample_v6 sample_decode).
Abbreviation sample_rebuild := (recreate_keyboard_keycodes sample_v5 sample_v6 sample_decode).

Lemma sample_import_returns :
  fst (import_module sample_v5 sample_v6 sample_decode empty_state) = Return tt.
Proof. vm_compute. reflexivity. Qed.

Lemma sample_rebuilt : rebuilt sample_v5 sample_v6 sample_decode sample_module.
Proof. apply rebuilt_import, sample_import_returns. Qed.

Lemma sample_reachable : reachable sample_v5 sample_v6 sample_decode sample_module.
Proof. apply reachable_import. Qed.

Lemma sample_registered d :
  bool_decide (d ∈ KEYCODES sample_module) = true -> d ∈ KEYCODES sample_module.
Proof. apply bool_decide_eq_true_1. Qed.

(** In the sample registry no other registered id has the value [v] of
    [id], as soon as a scan of the list finds none. *)
Lemma sample_value_unique v id :
  (let st := sample_module in
   forallb (fun d =>
     match sample_resolve st (qmk_id d) with
     | Return v' => negb (v' =? v)%Z || String.eqb (qmk_id d) id
     | Raise _ => true
     end) (KEYCODES st)) = true ->
  forall d, d ∈ KEYCODES sample_module ->
    sample_resolve sample_module (qmk_id d) = Return v -> qmk_id d = id.
Proof.
  intros H d Hd Hr. cbv zeta in H. rewrite forallb_forall in H.
  specialize (H d (proj1 (list_elem_of_In _ _) Hd)). rewrite Hr in H.
  rewrite Z.eqb_refl in H. apply String.eqb_eq, H.
Qed.

(** C2, counterexample: LSFT(kc) is masked and RESET is plain, both are
    registered and resolve, to 0x0200 and 0x5C00; the composite value is
    serialized as LSFT(KC_NO), not as LSFT(RESET). *)
Lemma serialize_composite_counterexample :
  LSFT_kc ∈ KEYCODES sample_module /\ masked LSFT_kc = true /\
  RESET ∈ KEYCODES sample_module /\ masked RESET = false /\
  sample_resolve sample_module (qmk_id LSFT_kc) = Return 0x0200%Z /\
  sample_resolve sample_module (qmk_id RESET) = Return 0x5C00%Z /\
  sample_serialize sample_module (Z.lor (Z.land 0x0200 0xFF00) (Z.land 0x5C00 0x00FF)) =
    "LSFT(KC_NO)" /\
  Py.replace (qmk_id LSFT_kc) "kc" (qmk_id RESET) = "LSFT(RESET)".
Proof.
  split; [apply sample_registered; vm_compute; reflexivity|].
  split; [reflexivity|].
  split; [apply sample_registered; vm_compute; reflexivity|].
  split; [reflexivity|].
  repeat split; vm_compute; reflexivity.
Qed.

Lemma serialize_composite_witness :
  sample_serialize sample_module (Z.lor (Z.land 0x0200 0xFF00) (Z.land 4 0x00FF)) =
  Py.replace (qmk_id LSFT_kc) "kc" (qmk_id KC_A).
Proof.
  apply (serialize_composite sample_v5 sample_v6 sample_decode sample_module
           LSFT_kc KC_A 0x0200 4).
  - apply sample_rebuilt.
  - apply sample_registered. vm_compute. reflexivity.
  - apply sample_registered. vm_compute. reflexivity.
  - vm_compute. reflexivity.
  - vm_compute. reflexivity.
  - refine (bool_decide_eq_true_1 (_ ∈ _) _). vm_compute. reflexivity.
  - reflexivity.
  - reflexivity.
  - apply sample_value_unique. vm_compute. reflexivity.
  - apply sample_value_unique. vm_compute. reflexivity.
Defined.


(** C5, counterexample: after a rebuild for two layers and then one for
    one layer, both returning, LT1 is still in [masked_keycodes] and no
    masked keycode with that prefix is on file. *)
Lemma masked_prefixes_counterexample :
  let st1 := snd (sample_rebuild kb_two_layers sample_module) in
  let st2 := snd (sample_rebuild kb_one_layer st1) in
  fst (sample_rebuild kb_two_layers sample_module) = Return tt /\
  fst (sample_rebuild kb_one_layer st1) = Return tt /\
  "LT1" ∈ masked_keycodes st2 /\
  "LT1" ∉ registered_masked_prefixes st2.
Proof.
  cbv zeta. split; [vm_compute; reflexivity|]. split; [vm_compute; reflexivity|]. split.
  - refine (bool_decide_eq_true_1 (_ ∈ _) _). vm_compute. reflexivity.
  - refine (bool_decide_eq_false_1 (_ ∈ _) _). vm_compute. reflexivity.
Qed.

Lemma masked_prefixes_kept_witness :
  registered_masked_prefixes sample_module ⊆ masked_keycodes sample_module /\
  (forall kb, masked_keycodes sample_module ⊆
              masked_keycodes (snd (sample_rebuild kb sample_module))).
Proof.
  apply (masked_prefixes_kept sample_v5 sample_v6 sample_decode sample_module).
  apply sample_reachable.
Defined.

(** C6, counterexample: KC_TRNS is registered with the alias
    KC_TRANSPARENT, and [find] returns nothing for that alias. *)
Lemma find_alias_counterexample :
  KC_TRNS ∈ KEYCODES sample_module /\
  "KC_TRANSPARENT" ∈ alias KC_TRNS /\
  sample_find sample_module "KC_TRANSPARENT" = None.
Proof.
  split; [apply sample_registered; vm_compute; reflexivity|].
  split; [apply list_elem_of_further, list_elem_of_here|].
  vm_compute. reflexivity.
Qed.

Lemma find_registered_witness :
  sample_find sample_module (strip_kc (qmk_id KC_TRNS)) = Some KC_TRNS.
Proof.
  apply (find_registered sample_v5 sample_v6 sample_decode sample_module
           (take 1 (KEYCODES sample_module)) KC_TRNS (drop 2 (KEYCODES sample_module))).
  - apply sample_rebuilt.
  - vm_compute. reflexivity.
  - intros d' Hd'. revert d' Hd'.
    apply (proj1 (Forall_forall (fun d' => key_of d' <> key_of KC_TRNS) _)).
    refine (bool_decide_eq_true_1 (Forall _ _) _). vm_compute. reflexivity.
Defined.

(** C7, counterexample: the keyboard supplies a custom list with no
    entry, the rebuild returns, and [KEYCODES_USER] holds sixteen
    keycodes, the first of them USER00. *)
Lemma empty_custom_list_counterexample :
  custom_keycodes kb_empty_custom = Some [] /\
  fst (sample_rebuild kb_empty_custom sample_module) = Return tt /\
  length (KEYCODES_USER (snd (sample_rebuild kb_empty_custom sample_module))) = 16%nat /\
  head (KEYCODES_USER (snd (sample_rebuild kb_empty_custom sample_module))) =
    Some (mkKeycode "USER00" false ["USER00"]).
Proof. repeat split; vm_compute; reflexivity. Qed.

Lemma masked_keyed_by_prefix_witness :
  exists outer,
    qmk_id LSFT_kc = outer +:+ "(kc)" /\
    sample_find sample_module outer = Some LSFT_kc /\
    sample_find sample_module (qmk_id LSFT_kc) = None /\
    (forall inner,
       find_outer_keycode sample_module (outer +:+ "(" +:+ inner +:+ ")") = Some LSFT_kc).
Proof.
  apply (masked_keyed_by_prefix sample_v5 sample_v6 sample_decode sample_module LSFT_kc).
  - apply sample_rebuilt.
  - apply sample_registered. vm_compute. reflexivity.
  - reflexivity.
Defined.

Lemma hidden_tap_dance_found_witness :
  exists d, sample_find sample_module ("TD(" +:+ Py.str 255 +:+ ")") = Some d /\
            qmk_id d = "TD(" +:+ Py.str 255 +:+ ")" /\ d ∈ KEYCODES sample_module.
Proof.
  apply (hidden_tap_dance_found sample_v5 sample_v6 sample_decode sample_module 255).
  - apply sample_rebuilt.
  - lia.
Defined.

Lemma flat_round_trip_witness :
  sample_deserialize sample_module (VStr (sample_serialize sample_module 4)) false = Return 4%Z.
Proof.
  apply (flat_round_trip sample_v5 sample_v6 sample_decode sample_module KC_A 4 false).
  - apply sample_rebuilt.
  - apply sample_registered. vm_compute. reflexivity.
  - vm_compute. reflexivity.
  - refine (bool_decide_eq_false_1 (_ ∈ _) _). vm_compute. reflexivity.
Defined.

Lemma flat_normalize_idempotent_witness :
  exists s, sample_normalize sample_module (VStr (qmk_id KC_A)) =
              Return s /\
            sample_normalize sample_module (VStr s) = Return s.
Proof.
  apply (flat_normalize_idempotent sample_v5 sample_v6 sample_decode sample_module KC_A 4).
  - apply sample_rebuilt.
  - apply sample_registered. vm_compute. reflexivity.
  - vm_compute. reflexivity.
  - refine (bool_decide_eq_false_1 (_ ∈ _) _). vm_compute. reflexivity.
Defined.

(** ** The further properties on the sample environment *)

Lemma sample_not_resolved_later r l :
  (let st := sample_module in
   forallb (fun d =>
     match sample_resolve st (qmk_id d) with
     | Return v => negb (v =? r)%Z
     | Raise _ => true
     end) l) = true ->
  forall d, d ∈ l -> sample_resolve sample_module (qmk_id d) <> Return r.
Proof.
  intros H d Hd Hr. cbv zeta in H. rewrite forallb_forall in H.
  specialize (H d (proj1 (list_elem_of_In _ _) Hd)). rewrite Hr in H.
  rewrite Z.eqb_refl in H. cbn [negb] in H. discriminate H.
Qed.

Lemma Keycode_init_registers_witness :
  fst (Keycode_init (K "LSFT(kc)" true ["x"] []) empty_state) =
    Return (Keycode_of (K "LSFT(kc)" true ["x"] [])) /\
  find_by_qmk_id (snd (Keycode_init (K "LSFT(kc)" true ["x"] []) empty_state)) "LSFT(kc)" =
    Some (Keycode_of (K "LSFT(kc)" true ["x"] [])) /\
  (forall al, al ∈ ["x"] ->
     find_by_recorder_alias (snd (Keycode_init (K "LSFT(kc)" true ["x"] []) empty_state)) al =
     Some (Keycode_of (K "LSFT(kc)" true ["x"] []))) /\
  (true = true ->
   strip_kc "LSFT(kc)" ∈
     masked_keycodes (snd (Keycode_init (K "LSFT(kc)" true ["x"] []) empty_state))).
Proof.
  apply (Keycode_init_registers (K "LSFT(kc)" true ["x"] []) empty_state).
  - apply NoDup_singleton.
  - intros al _. apply lookup_empty.
  - intros _. reflexivity.
Defined.

Lemma Keycode_init_alias_taken_witness :
  exists al, al ∈ ["a"] /\
    fst (Keycode_init (K "KC_B" false ["a"] []) sample_module) =
      Raise (RuntimeError ("Misconfigured: two keycodes claim the same alias " +:+ al)) /\
    find_by_qmk_id (snd (Keycode_init (K "KC_B" false ["a"] []) sample_module)) "KC_B" =
      Some (Keycode_of (K "KC_B" false ["a"] [])) /\
    masked_keycodes (snd (Keycode_init (K "KC_B" false ["a"] []) sample_module)) =
      masked_keycodes sample_module.
Proof.
  apply (Keycode_init_alias_taken (K "KC_B" false ["a"] []) sample_module).
  right. exists "a". split; [apply list_elem_of_here|].
  refine (bool_decide_eq_true_1 (is_Some _) _). vm_compute. reflexivity.
Defined.

Lemma Keycode_init_not_a_mask_witness :
  fst (Keycode_init (K "LSFT" true ["x"] []) empty_state) = Raise AssertionError /\
  find_by_qmk_id (snd (Keycode_init (K "LSFT" true ["x"] []) empty_state)) "LSFT" =
    Some (Keycode_of (K "LSFT" true ["x"] [])) /\
  (forall al, al ∈ ["x"] ->
     find_by_recorder_alias (snd (Keycode_init (K "LSFT" true ["x"] []) empty_state)) al =
     Some (Keycode_of (K "LSFT" true ["x"] []))) /\
  masked_keycodes (snd (Keycode_init (K "LSFT" true ["x"] []) empty_state)) =
    masked_keycodes empty_state.
Proof.
  apply (Keycode_init_not_a_mask (K "LSFT" true ["x"] []) empty_state).
  - apply NoDup_singleton.
  - intros al _. apply lookup_empty.
  - reflexivity.
  - reflexivity.
Defined.

Lemma deserialize_registered_id_witness :
  sample_deserialize sample_module (VStr "KC_A") false = sample_resolve sample_module "KC_A" /\
  (kc (active_table sample_v5 sample_v6 sample_module) !! "KC_A" = None ->
   sample_deserialize sample_module (VStr "KC_A") false =
   Raise (RuntimeError ("unable to resolve qmk_id=" +:+ "KC_A"))).
Proof.
  apply (deserialize_registered_id sample_v5 sample_v6 sample_decode sample_module "KC_A" false).
  - apply sample_reachable.
  - refine (bool_decide_eq_true_1 (is_Some _) _). vm_compute. reflexivity.
Defined.

Lemma rebuild_returns_iff_witness :
  fst (sample_rebuild kb_one_layer sample_module) = Return tt <->
  Forall (fun d =>
      is_Some (kc (if (vial_protocol kb_one_layer =? 6)%Z then sample_v6 else sample_v5)
                 !! qmk_id d))
    (KEYCODES (snd (sample_rebuild kb_one_layer sample_module))).
Proof.
  apply (rebuild_returns_iff sample_v5 sample_v6 sample_decode kb_one_layer sample_module).
  apply sample_reachable.
Defined.

Lemma rebuild_stops_at_unresolved_witness :
  exists l1 d l2,
    KEYCODES (snd (sample_rebuild kb_many_layers sample_module)) = l1 ++ d :: l2 /\
    Forall (fun d =>
      is_Some (kc (active_table sample_v5 sample_v6
                     (snd (sample_rebuild kb_many_layers sample_module))) !! qmk_id d)) l1 /\
    kc (active_table sample_v5 sample_v6
          (snd (sample_rebuild kb_many_layers sample_module))) !! qmk_id d = None /\
    RuntimeError "unable to resolve qmk_id=MO(32)" =
      RuntimeError ("unable to resolve qmk_id=" +:+ qmk_id d) /\
    KEYCODES_MAP (snd (sample_rebuild kb_many_layers sample_module)) =
      keymap_of (l1 ++ [d]) ∅ /\
    RAWCODES_MAP (snd (sample_rebuild kb_many_layers sample_module)) =
      rawmap_of (active_table sample_v5 sample_v6
                   (snd (sample_rebuild kb_many_layers sample_module))) l1 ∅.
Proof.
  apply (rebuild_stops_at_unresolved sample_v5 sample_v6 sample_decode
           kb_many_layers sample_module).
  - apply sample_reachable.
  - vm_compute. reflexivity.
Defined.

Lemma rebuild_ignores_history_witness :
  fst (sample_rebuild kb_one_layer sample_module) =
    fst (sample_rebuild kb_one_layer (snd (sample_rebuild kb_two_layers sample_module))) /\
  protocol (snd (sample_rebuild kb_one_layer sample_module)) =
    protocol (snd (sample_rebuild kb_one_layer
                     (snd (sample_rebuild kb_two_layers sample_module)))) /\
  KEYCODES (snd (sample_rebuild kb_one_layer sample_module)) =
    KEYCODES (snd (sample_rebuild kb_one_layer
                     (snd (sample_rebuild kb_two_layers sample_module)))) /\
  KEYCODES_MAP (snd (sample_rebuild kb_one_layer sample_module)) =
    KEYCODES_MAP (snd (sample_rebuild kb_one_layer
                         (snd (sample_rebuild kb_two_layers sample_module)))) /\
  RAWCODES_MAP (snd (sample_rebuild kb_one_layer sample_module)) =
    RAWCODES_MAP (snd (sample_rebuild kb_one_layer
                         (snd (sample_rebuild kb_two_layers sample_module)))).
Proof.
  apply (rebuild_ignores_history sample_v5 sample_v6 sample_decode kb_one_layer
           sample_module (snd (sample_rebuild kb_two_layers sample_module))).
  - apply sample_reachable.
  - apply reachable_rebuild, sample_reachable.
Defined.

Lemma find_sound_and_complete_witness :
  (forall k d, sample_find sample_module k = Some d ->
     d ∈ KEYCODES sample_module /\
     strip_kc (qmk_id d) = if String.eqb k "kc" then "KC_NO" else k) /\
  (forall d, d ∈ KEYCODES sample_module ->
     exists d', sample_find sample_module (strip_kc (qmk_id d)) = Some d' /\
                strip_kc (qmk_id d') = strip_kc (qmk_id d) /\ d' ∈ KEYCODES sample_module).
Proof.
  apply (find_sound_and_complete sample_v5 sample_v6 sample_decode sample_module).
  apply sample_rebuilt.
Defined.

Lemma serialize_last_registered_witness :
  sample_serialize sample_module 1 = qmk_id KC_TRNS.
Proof.
  apply (serialize_last_registered sample_v5 sample_v6 sample_decode sample_module
           (take 1 (KEYCODES sample_module)) KC_TRNS (drop 2 (KEYCODES sample_module)) 1).
  - apply sample_rebuilt.
  - vm_compute. reflexivity.
  - vm_compute. reflexivity.
  - refine (bool_decide_eq_false_1 (_ ∈ _) _). vm_compute. reflexivity.
  - apply sample_not_resolved_later. vm_compute. reflexivity.
Defined.

Lemma is_mask_registered_witness :
  is_mask sample_module (qmk_id LSFT_kc) = masked LSFT_kc.
Proof.
  apply (is_mask_registered sample_v5 sample_v6 sample_decode sample_module LSFT_kc).
  - apply sample_reachable.
  - apply sample_registered. vm_compute. reflexivity.
Defined.

Lemma find_inner_of_composite_witness :
  find_inner_keycode sample_module
    (strip_kc (qmk_id LSFT_kc) +:+ "(" +:+ "KC_A" +:+ fullwidth_paren) =
    sample_find sample_module "KC_A" /\
  find_inner_keycode sample_module (qmk_id LSFT_kc) = KEYCODES_MAP sample_module !! "KC_NO".
Proof.
  apply (find_inner_of_composite sample_v5 sample_v6 sample_decode sample_module
           LSFT_kc "KC_A" fullwidth_paren).
  - apply sample_reachable.
  - apply sample_registered. vm_compute. reflexivity.
  - reflexivity.
  - reflexivity.
Defined.

Lemma on_change_ok_witness :
  (AnyKeycodeDialog.ok_enabled
     (on_change sample_v5 sample_v6 sample_decode sample_module "KC_A") = true <->
   "KC_A" <> "" /\ exists v, sample_deserialize sample_module (VStr "KC_A") true = Return v) /\
  (forall v, "KC_A" <> "" -> sample_deserialize sample_module (VStr "KC_A") true = Return v ->
     AnyKeycodeDialog.value (on_change sample_v5 sample_v6 sample_decode sample_module "KC_A") =
     sample_serialize sample_module v).
Proof.
  apply (on_change_ok sample_v5 sample_v6 sample_decode sample_module "KC_A").
  apply sample_rebuilt.
Defined.

Lemma ModsUI_round_trip_witness :
  ModsUI.save (ModsUI.load [true; false; true; false; false; true; false; true] 0x1A5) =
    Z.land 0x1A5 0xFF /\
  ModsUI.load ModsUI.mods (ModsUI.save [true; false; true; false; false; true; false; true]) =
    [true; false; true; false; false; true; false; true].
Proof.
  apply (ModsUI_round_trip [true; false; true; false; false; true; false; true]
           ModsUI.mods 0x1A5); reflexivity.
Defined.

Lemma LayersUI_round_trip_witness :
  LayersUI.save (LayersUI.load LayersUI.layer_chks (-2)) = Z.land (-2) 0xFFFF /\
  LayersUI.load LayersUI.layer_chks (LayersUI.save LayersUI.layer_chks) =
    LayersUI.layer_chks /\
  LayersUI.save (LayersUI.on_enable_all_layers LayersUI.layer_chks) = 0xFFFF%Z /\
  LayersUI.save (LayersUI.on_disable_all_layers LayersUI.layer_chks) = 0%Z.
Proof.
  apply (LayersUI_round_trip LayersUI.layer_chks LayersUI.layer_chks (-2)); reflexivity.
Defined.

Lemma custom_user_keycode_at_witness :
  KEYCODES_USER (snd (sample_rebuild kb_custom sample_module)) !! 1%nat =
  Some (mkKeycode ("USER" +:+ Py.str02 (Z.of_nat 1)) false
          ["USER" +:+ Py.str02 (Z.of_nat 1);
           default ("USER" +:+ Py.str02 (Z.of_nat 1)) (name (mkCustom None None None))]).
Proof.
  apply (custom_user_keycode_at sample_v5 sample_v6 sample_decode kb_custom sample_module
           (mkCustom (Some "Lock") (Some "Lock the screen") (Some "MY_LOCK"))
           [mkCustom None None None] 1 (mkCustom None None None)); reflexivity.
Defined.

Lemma midi_found_iff_witness :
  (forall d, d ∈ KEYCODES_MIDI_BASIC ->
     is_Some (sample_find (snd (sample_rebuild kb_custom sample_module)) (qmk_id d)) <->
     midi kb_custom = Some "basic" \/ midi kb_custom = Some "advanced") /\
  (forall d, d ∈ KEYCODES_MIDI_ADVANCED ->
     is_Some (sample_find (snd (sample_rebuild kb_custom sample_module)) (qmk_id d)) <->
     midi kb_custom = Some "advanced").
Proof.
  apply (midi_found_iff sample_v5 sample_v6 sample_decode kb_custom sample_module).
  - apply sample_reachable.
  - vm_compute. reflexivity.
Defined.
